(** * Workflow execution engine: execution-order resolver and orchestrator

    Shallow embedding of [backend/services/workflow_executor.py],
    [backend/services/llm_service.py],
    [backend/services/embedding_service.py],
    [backend/services/document_processor.py] and of the upload and
    execution handlers of [backend/main.py].

    - Python dicts used as maps ([graph], node configs) are [gmap]s.
    - The [visited] set of the traversal is a [gset].
    - The recursive [dfs] closure takes the number of nested calls that
      the interpreter still allows; a call beyond it raises
      [RecursionError], as the interpreter's recursion limit makes it.
    - The [state] dict, whose keys are fixed literals, is a record.
    - A text that is measured or sliced is the list of the characters
      (code points) of the Python [str].
    - Raised exceptions are values of [exn]; a computation that talks to
      the outside world threads a [Machine] (world state and call trace). *)

From stdpp Require Import gmap strings list fin_maps sets relations.
From Stdlib Require Import QArith.

Close Scope Q_scope.

Open Scope string_scope.
Open Scope list_scope.

(** ** Data model *)

(** A node dict, restricted to the two keys the executor reads:
    [n['id']] and [n['data']['componentType']]. *)
Record Node := mkNode { id : string; componentType : string }.

(** An edge dict: [edge['source']], [edge['target']]. *)
Record Edge := mkEdge { source : string; target : string }.

(** Exceptions that the modelled code raises or lets through. *)
Inductive exn :=
| ValueError (msg : string)
| KeyError (key : string)
| IndexError (msg : string)
| RuntimeError (msg : string)
| RecursionError
| ExternalError (name : string).

(** [raise ValueError("No User Query component found")]; the
    specification calls it MissingEntryNodeError. *)
Definition MissingEntryNodeError : exn :=
  ValueError "No User Query component found".

(** ** Execution order resolver: [build_execution_order] *)

Module Resolver.

(** [graph = {node['id']: [] for node in nodes}] *)
Definition init_graph (nodes : list Node) : gmap string (list string) :=
  foldl (fun g n => <[id n := []]> g) ∅ nodes.

(** [for edge in edges: graph[edge['source']].append(edge['target'])];
    subscripting a missing key raises [KeyError]. *)
Fixpoint add_edges (edges : list Edge) (graph : gmap string (list string))
  : exn + gmap string (list string) :=
  match edges with
  | [] => inr graph
  | edge :: rest =>
      match graph !! source edge with
      | None => inl (KeyError (source edge))
      | Some targets =>
          add_edges rest (<[source edge := targets ++ [target edge]]> graph)
      end
  end.

(** [next((n['id'] for n in nodes
          if n['data']['componentType'] == 'userQuery'), None)] *)
Definition find_start (nodes : list Node) : option string :=
  id <$> List.find (fun n => bool_decide (componentType n = "userQuery")) nodes.

(** The two mutable locals captured by the [dfs] closure. *)
Record DfsState := mkDfs { order : list string; visited : gset string }.

Definition dfs_init : DfsState := mkDfs [] ∅.

(** The loop [for neighbor in ...: dfs(neighbor)], over a given
    recursive call; an exception of a call ends the loop. *)
Definition for_neighbors (call : string -> DfsState -> exn + DfsState)
  : list string -> DfsState -> exn + DfsState :=
  fix loop (neighbors : list string) (st : DfsState) : exn + DfsState :=
    match neighbors with
    | [] => inr st
    | neighbor :: rest =>
        match call neighbor st with
        | inl e => inl e
        | inr st' => loop rest st'
        end
    end.

(** [def dfs(node_id)]: return at once on a visited node, otherwise mark
    it, append it to [order] and recurse into [graph.get(node_id, [])].
    [depth] is the number of nested calls of [dfs] that the interpreter
    still allows, counted in frames: the recursion limit less the frames
    that are on the stack already.  A call that would pass it raises
    [RecursionError]; every call that is made takes one frame, the call
    on a visited node as well. *)
Fixpoint dfs (depth : nat) (graph : gmap string (list string))
    (node_id : string) (st : DfsState) : exn + DfsState :=
  match depth with
  | O => inl RecursionError
  | S depth' =>
      if decide (node_id ∈ visited st) then inr st
      else
        for_neighbors (dfs depth' graph)
          (default [] (graph !! node_id))
          (mkDfs (order st ++ [node_id]) ({[node_id]} ∪ visited st))
  end.

(** [build_execution_order(nodes, edges)], called where the interpreter
    allows [depth] nested calls of [dfs]: the exception raised, or the
    returned list. *)
Definition build_execution_order (depth : nat) (nodes : list Node)
    (edges : list Edge) : exn + list string :=
  match add_edges edges (init_graph nodes) with
  | inl e => inl e
  | inr graph =>
      match find_start nodes with
      | None => inl MissingEntryNodeError
      | Some start_node =>
          (* [if not start_node]: the empty string is falsy as well *)
          if bool_decide (start_node = "") then inl MissingEntryNodeError
          else
            match dfs depth graph start_node dfs_init with
            | inl e => inl e
            | inr st => inr (order st)
            end
      end
  end.

End Resolver.

Import Resolver.

(** ** Values, configuration and execution state *)

(** JSON values found in a node's configuration mapping. *)
#[warnings="-register-all"] Inductive Value :=
| VNone
| VBool (b : bool)
| VNum (q : Q)
| VStr (s : string)
| VList (l : list Value)
| VDict (l : list (string * Value)).

(** Python truth value of a configuration value. *)
Definition truthy (v : Value) : bool :=
  match v with
  | VNone => false
  | VBool b => b
  | VNum q => negb (Qeq_bool q 0%Q)
  | VStr s => negb (bool_decide (s = ""))
  | VList l => match l with [] => false | _ => true end
  | VDict l => match l with [] => false | _ => true end
  end.

(** Python truth value of an [Optional[str]]. *)
Definition truthy_str (o : option string) : bool :=
  match o with
  | None => false
  | Some s => negb (bool_decide (s = ""))
  end.

(** [f"{o}"] for an [Optional[str]]: [str(None)] is ["None"]. *)
Definition format_str (o : option string) : string :=
  match o with
  | None => "None"
  | Some s => s
  end.

(** [v == s] for a string literal [s]. *)
Definition eq_str (v : Value) (s : string) : bool :=
  match v with
  | VStr s' => bool_decide (s' = s)
  | _ => false
  end.

(** [config.get(key, default)] *)
Definition config_get (config : gmap string Value) (key : string)
    (dflt : Value) : Value :=
  default dflt (config !! key).

(** The line feed of the Python literals ["\n"]. *)
Definition LF : string := String (Ascii.ascii_of_nat 10) EmptyString.

(** The dict stored under [state["metadata"]]. *)
Record Metadata := mkMetadata {
  md_model : Value;
  md_web_context : option string
}.

(** The [state] dict of [execute_workflow].  The keys ["query"],
    ["context"] and ["response"] are always present ([None] is Python's
    [None]); the key ["metadata"] is only added by a generation node, so
    [st_metadata = None] stands for a dict without that key. *)
Record ExecutionState := mkState {
  st_query : string;
  st_context : option string;
  st_response : option string;
  st_metadata : option Metadata
}.

(** [state["context"] = context] *)
Definition set_context (state : ExecutionState) (context : option string)
  : ExecutionState :=
  mkState (st_query state) context (st_response state) (st_metadata state).

(** [state["response"] = response] *)
Definition set_response (state : ExecutionState) (response : string)
  : ExecutionState :=
  mkState (st_query state) (st_context state) (Some response)
          (st_metadata state).

(** [state["metadata"] = metadata] *)
Definition set_metadata (state : ExecutionState) (metadata : Metadata)
  : ExecutionState :=
  mkState (st_query state) (st_context state) (st_response state)
          (Some metadata).

(** The keys of the [state] dict, in insertion order. *)
Definition state_keys (st : ExecutionState) : list string :=
  ["query"; "context"; "response"]
  ++ match st_metadata st with Some _ => ["metadata"] | None => [] end.

(** The dict returned by [generate_response]. *)
Record LLMResponse := mkLLMResponse {
  r_response : string;
  r_model : Value;
  r_web_context : option string
}.

(** A chat message [{"role": ..., "content": ...}]. *)
Record Message := mkMessage { msg_role : string; msg_content : Value }.

(** ** External collaborators *)

(** Calls that leave the process, as recorded in the call trace. *)
Inductive Event :=
| EvGetCollection (name : Value)
| EvOpenAIEmbeddings (model : string) (input : list string)
| EvGeminiEmbedContent (model : string) (text : string) (task_type : string)
| EvCollectionQuery (n_results : nat)
| EvWebSearch (query : string) (provider : Value)
| EvOpenAIChat (model : Value) (messages : list Message) (temperature : Value)
| EvGeminiGenerate (model : Value) (prompt : string).

(** The libraries and services the code calls: the Chroma client, the
    OpenAI and Gemini clients and the web search.  Each call reads and
    updates the state of the outside world and either returns or raises. *)
Class Backend := {
  World : Type;
  Collection : Type;
  Embedding : Type;
  Distance : Type;
  (** [chroma_client.get_collection(name=...)] *)
  chroma_get_collection : Value -> World -> (exn + Collection) * World;
  (** [openai.embeddings.create(model=..., input=...)], already mapped
      to [[item.embedding for item in response.data]] *)
  openai_embeddings_create :
    string -> list string -> World -> (exn + list Embedding) * World;
  (** [genai.embed_content(model=..., content=..., task_type=...)['embedding']] *)
  genai_embed_content :
    string -> string -> string -> World -> (exn + Embedding) * World;
  (** [collection.query(query_embeddings=..., n_results=...)], as the pair
      [(results['documents'], results['distances'])] *)
  collection_query :
    Collection -> list Embedding -> nat -> World ->
    (exn + list (list string) * list (list Distance)) * World;
  (** [LLMService.web_search(query, provider)] *)
  web_search_http : string -> Value -> World -> (exn + string) * World;
  (** [openai.chat.completions.create(...).choices[0].message.content] *)
  openai_chat_create :
    Value -> list Message -> Value -> World -> (exn + string) * World;
  (** [genai.GenerativeModel(model).generate_content(prompt).text] *)
  gemini_generate_content :
    Value -> string -> World -> (exn + string) * World
}.

(** A retrieved chunk [{"content": doc, "distance": dist}]. *)
Record Chunk `{Backend} := mkChunk { content : string; distance : Distance }.
Arguments mkChunk {_} _ _.

(** What a run can observe of the outside: the state of the world and the
    list of calls made so far, oldest first. *)
Record Machine `{Backend} := mkMachine { world : World; trace : list Event }.
Arguments mkMachine {_} _ _.

(** ** Computations that may raise and may call out *)

Section Monad.
Context `{Backend}.

Definition M (A : Type) : Type := Machine -> (exn + A) * Machine.

Definition ret {A} (a : A) : M A := fun m => (inr a, m).

Definition raise {A} (e : exn) : M A := fun m => (inl e, m).

Definition bind {A B} (c : M A) (k : A -> M B) : M B :=
  fun m =>
    match c m with
    | (inl e, m') => (inl e, m')
    | (inr a, m') => k a m'
    end.

(** [try: body / except: handler] with a bare [except]. *)
Definition try_except {A} (body handler : M A) : M A :=
  fun m =>
    match body m with
    | (inl _, m') => handler m'
    | (inr a, m') => (inr a, m')
    end.

(** One call to a collaborator: it is appended to the trace and its
    effect on the world is kept whether it returns or raises. *)
Definition call {A} (ev : Event) (f : World -> (exn + A) * World) : M A :=
  fun m =>
    let (r, w') := f (world m) in
    (r, mkMachine w' (trace m ++ [ev])).

(** [l[0]] *)
Definition index0 {A} (l : list A) : M A :=
  match l with
  | x :: _ => ret x
  | [] => raise (IndexError "list index out of range")
  end.

End Monad.

Notation "'let*' x ':=' c 'in' k" := (bind c (fun x => k))
  (at level 10, x pattern, c at level 100, k at level 200, only parsing).

(** ** [EmbeddingService] *)

Section EmbeddingService.
Context `{Backend}.

Definition get_openai_embeddings (texts : list string) : M (list Embedding) :=
  call (EvOpenAIEmbeddings "text-embedding-ada-002" texts)
       (openai_embeddings_create "text-embedding-ada-002" texts).

Fixpoint get_gemini_embeddings (texts : list string) : M (list Embedding) :=
  match texts with
  | [] => ret []
  | text :: rest =>
      let* embedding := call
        (EvGeminiEmbedContent "models/embedding-001" text "retrieval_document")
        (genai_embed_content "models/embedding-001" text "retrieval_document") in
      let* embeddings := get_gemini_embeddings rest in
      ret (embedding :: embeddings)
  end.

Definition query_collection (collection_name : Value) (query_text : string)
    (embedding_model : Value) (n_results : nat) : M (list Chunk) :=
  let* collection := call (EvGetCollection collection_name)
                     (chroma_get_collection collection_name) in
  let* query_embedding :=
    (if eq_str embedding_model "openai"
     then (let* embeddings := get_openai_embeddings [query_text] in
           index0 embeddings)
     else (let* embeddings := get_gemini_embeddings [query_text] in
           index0 embeddings)) in
  let* results := call (EvCollectionQuery n_results)
                  (collection_query collection [query_embedding] n_results) in
  let* documents := index0 (fst results) in
  let* distances := index0 (snd results) in
  ret (uncurry mkChunk <$> zip documents distances).

End EmbeddingService.

(** ** [LLMService] *)

Section LLMService.
Context `{Backend}.

Definition web_search (query : string) (provider : Value) : M string :=
  call (EvWebSearch query provider) (web_search_http query provider).

Definition generate_response (query : string) (context : option string)
    (system_prompt provider model temperature enable_web_search
       search_provider : Value) : M LLMResponse :=
  (* Build prompt *)
  let prompt :=
    if truthy_str context
    then "Context:" +:+ LF +:+ format_str context +:+ LF +:+ LF
         +:+ "Question: " +:+ query
    else query in
  (* Add web search if enabled *)
  let* (web_context, prompt) :=
    (if truthy enable_web_search
     then (let* web_context := web_search query search_provider in
           ret (Some web_context,
                "Web Search Results:" +:+ LF +:+ web_context +:+ LF +:+ LF
                +:+ prompt))
     else ret (None, prompt)) in
  (* Generate response *)
  if eq_str provider "openai"
  then
    let messages :=
      (if truthy system_prompt then [mkMessage "system" system_prompt] else [])
      ++ [mkMessage "user" (VStr prompt)] in
    let* response := call (EvOpenAIChat model messages temperature)
                     (openai_chat_create model messages temperature) in
    ret (mkLLMResponse response model web_context)
  else
    let* response := call (EvGeminiGenerate model prompt)
                     (gemini_generate_content model prompt) in
    ret (mkLLMResponse response model web_context).

End LLMService.

(** ** [WorkflowExecutor] *)

Section WorkflowExecutor.
Context `{Backend}.

(** ["\\n\\n".join(...)] *)
Definition join_blank_line (parts : list string) : string :=
  String.concat (LF +:+ LF) parts.

(** The body of the loop [for node_id in execution_order]. *)
Definition execute_node (nodes : list Node)
    (node_configs : gmap string (gmap string Value))
    (node_id : string) (state : ExecutionState) : M ExecutionState :=
  (* [next(n for n in nodes if n['id'] == node_id)]; an exhausted
     generator inside a coroutine surfaces as [RuntimeError] *)
  match List.find (fun n => bool_decide (id n = node_id)) nodes with
  | None => raise (RuntimeError "coroutine raised StopIteration")
  | Some node =>
      let component_type := componentType node in
      let config := default ∅ (node_configs !! node_id) in
      if bool_decide (component_type = "userQuery") then
        ret state
      else if bool_decide (component_type = "knowledgeBase") then
        let collection_name := config_get config "collectionName" (VStr "default") in
        let embedding_model := config_get config "embeddingModel" (VStr "openai") in
        try_except
          (let* results := query_collection collection_name (st_query state)
                             embedding_model 3 in
           ret (set_context state
                  (Some (join_blank_line (content <$> results)))))
          (ret (set_context state None))
      else if bool_decide (component_type = "llmEngine") then
        let* llm_response := generate_response
          (st_query state)
          (st_context state)
          (config_get config "systemPrompt" VNone)
          (config_get config "provider" (VStr "openai"))
          (config_get config "model" (VStr "gpt-4"))
          (config_get config "temperature" (VNum (7 # 10)%Q))
          (config_get config "enableWebSearch" (VBool false))
          (config_get config "searchProvider" (VStr "serpapi")) in
        ret (set_metadata
               (set_response state (r_response llm_response))
               (mkMetadata (r_model llm_response)
                           (r_web_context llm_response)))
      else if bool_decide (component_type = "output") then
        ret state
      else
        ret state
  end.

(** [for node_id in execution_order: ...] *)
Fixpoint run_order (nodes : list Node)
    (node_configs : gmap string (gmap string Value))
    (execution_order : list string) (state : ExecutionState)
  : M ExecutionState :=
  match execution_order with
  | [] => ret state
  | node_id :: rest =>
      let* state' := execute_node nodes node_configs node_id state in
      run_order nodes node_configs rest state'
  end.

(** The initial [state] dict. *)
Definition initial_state (query : string) : ExecutionState :=
  mkState query None None None.

(** [execute_workflow(query, nodes, edges, node_configs)], called where
    the interpreter allows [depth] nested calls of [dfs]. *)
Definition execute_workflow (depth : nat) (query : string)
    (nodes : list Node) (edges : list Edge)
    (node_configs : gmap string (gmap string Value))
  : M ExecutionState :=
  match build_execution_order depth nodes edges with
  | inl e => raise e
  | inr execution_order =>
      run_order nodes node_configs execution_order (initial_state query)
  end.

End WorkflowExecutor.

(** ** Specification-side notions *)

(** [edge_rel edges x y]: some edge of the list goes from [x] to [y]. *)
Definition edge_rel (edges : list Edge) (x y : string) : Prop :=
  exists e, e ∈ edges /\ source e = x /\ target e = y.

(** Reachability from the entry node along the edges. *)
Definition reachable (edges : list Edge) : string -> string -> Prop :=
  rtc (edge_rel edges).

(** A cycle that can be reached from [s]. *)
Definition cycle_reachable_from (edges : list Edge) (s : string) : Prop :=
  exists x, reachable edges s x /\ tc (edge_rel edges) x x.

(** The targets of the edges leaving [x], in the order of the edge list. *)
Definition successors (edges : list Edge) (x : string) : list string :=
  target <$> filter (fun e => source e = x) edges.

(** The Edge invariant of the data model, for sources: every edge leaves
    an existing node. *)
Definition sources_exist (nodes : list Node) (edges : list Edge) : Prop :=
  Forall (fun e => source e ∈ id <$> nodes) edges.

(** The Edge invariant of the data model, for targets. *)
Definition targets_exist (nodes : list Node) (edges : list Edge) : Prop :=
  Forall (fun e => target e ∈ id <$> nodes) edges.

(** The query-source nodes of a graph, in the order of the node list. *)
Definition query_sources (nodes : list Node) : list Node :=
  filter (fun n => componentType n = "userQuery") nodes.

(** The first of [candidates] that is not in [seen]. *)
Definition first_fresh (seen candidates : list string) : option string :=
  List.find (fun y => bool_decide (y ∉ seen)) candidates.

(** The identifier that a depth-first traversal visits after [listed]:
    the first successor, in edge-list order, that is not listed yet, of
    the latest listed identifier that has one. *)
Definition next_visit (edges : list Edge) (listed : list string)
  : option string :=
  head (omap (fun x => first_fresh listed (successors edges x))
          (reverse listed)).

(** The chain graph over the identifiers [x :: xs]: the first is the
    query-source node, and each has an edge to the next. *)
Definition chain_nodes (x : string) (xs : list string) : list Node :=
  mkNode x "userQuery" :: ((fun y => mkNode y "output") <$> xs).

Fixpoint chain_edges (x : string) (xs : list string) : list Edge :=
  match xs with
  | [] => []
  | y :: rest => mkEdge x y :: chain_edges y rest
  end.

(** Nesting depth that is always enough for the traversal: one call per
    distinct identifier that can be visited, plus the call that returns at
    once. *)
Definition enough_depth (edges : list Edge) : nat := S (S (length edges)).

(** The adjacency list that [dfs] iterates over: [graph.get(x, [])]. *)
Definition adj (graph : gmap string (list string)) (x : string) : list string :=
  default [] (graph !! x).

(** No identifier at the positions from [lo] to [i] of [o] has a
    successor outside the first [S i] identifiers of [o]. *)
Definition exhausted (graph : gmap string (list string)) (o : list string)
    (lo i : nat) : Prop :=
  forall k z, lo <= k <= i -> o !! k = Some z ->
    first_fresh (take (S i) o) (adj graph z) = None.

(** [y] is the first successor outside the first [S i] identifiers of
    [o] of the identifier at some position between [lo] and [i], and no
    identifier after that position, up to [i], has such a successor. *)
Definition discovered_from (graph : gmap string (list string))
    (o : list string) (lo i : nat) (y : string) : Prop :=
  exists j x,
    lo <= j <= i /\ o !! j = Some x /\
    first_fresh (take (S i) o) (adj graph x) = Some y /\
    exhausted graph o (S j) i.

(** The invariant tying the two locals of the traversal together. *)
Definition dfs_inv (st : DfsState) : Prop :=
  NoDup (order st) /\ forall x, x ∈ visited st <-> x ∈ order st.

(** What a traversal started from [roots] (in that order) in state [st]
    has achieved when it returns in state [st']. *)
Definition dfs_post (graph : gmap string (list string)) (roots : list string)
    (st st' : DfsState) : Prop :=
  dfs_inv st /\ dfs_inv st' /\
  exists new,
    order st' = order st ++ new /\
    (forall r, r ∈ roots -> r ∈ visited st') /\
    (forall x, x ∈ new ->
       exists r, r ∈ roots /\ rtc (fun a b => b ∈ adj graph a) r x) /\
    (forall x y, x ∈ new -> y ∈ adj graph x -> y ∈ visited st') /\
    head new = first_fresh (order st) roots /\
    (forall i x y,
       length (order st) <= i ->
       order st' !! i = Some x ->
       first_fresh (take (S i) (order st')) (adj graph x) = Some y ->
       order st' !! S i = Some y) /\
    (forall i y,
       length (order st) <= S i ->
       order st' !! S i = Some y ->
       discovered_from graph (order st') (length (order st)) i y \/
       (first_fresh (take (S i) (order st')) roots = Some y /\
        exhausted graph (order st') (length (order st)) i)).

(** A node type whose loop body reaches neither the retrieval nor the
    generation branch. *)
Definition pass_through (component_type : string) : Prop :=
  component_type <> "knowledgeBase" /\ component_type <> "llmEngine".

(** The prompt a generation call was given: the content of the last chat
    message, or the Gemini prompt. *)
Definition sent_prompt (ev : Event) : option string :=
  match ev with
  | EvOpenAIChat _ messages _ =>
      match last messages with
      | Some (mkMessage _ (VStr prompt)) => Some prompt
      | _ => None
      end
  | EvGeminiGenerate _ prompt => Some prompt
  | _ => None
  end.

(** The template "Context:\n{context}\n\nQuestion: {query}". *)
Definition context_template (query context : string) : string :=
  "Context:" +:+ LF +:+ context +:+ LF +:+ LF +:+ "Question: " +:+ query.

(** The template "Web Search Results:\n{results}\n\n" put ahead of a
    prompt. *)
Definition web_template (results prompt : string) : string :=
  "Web Search Results:" +:+ LF +:+ results +:+ LF +:+ LF +:+ prompt.

(** The prompt as the specification words it: the context template
    whenever a context is present, the query alone when it is absent, and
    the web-search template ahead of that when search is enabled. *)
Definition spec_prompt (query : string) (context web : option string)
  : string :=
  let base :=
    match context with
    | Some c => context_template query c
    | None => query
    end in
  match web with
  | Some results => web_template results base
  | None => base
  end.

(** The same, with an empty context treated like an absent one. *)
Definition nonempty_context (context : option string) : option string :=
  match context with
  | Some c => if bool_decide (c = "") then None else Some c
  | None => None
  end.

(** The keys that the specification gives the returned value. *)
Definition spec_result_keys : list string := ["query"; "response"; "metadata"].

(** The calls a retrieval makes after it has fetched the collection. *)
Definition retrieval_event (query_text : string) (n_results : nat)
    (ev : Event) : Prop :=
  ev = EvOpenAIEmbeddings "text-embedding-ada-002" [query_text] \/
  ev = EvGeminiEmbedContent "models/embedding-001" query_text
         "retrieval_document" \/
  ev = EvCollectionQuery n_results.

(** [node_id] does not name a generation node. *)
Definition not_generation (nodes : list Node) (node_id : string) : Prop :=
  forall node,
    List.find (fun n => bool_decide (id n = node_id)) nodes = Some node ->
    componentType node <> "llmEngine".

(** ** Test doubles *)

(** A backend in the style of the mocks of the specification's examples:
    retrieval returns the documents [docs] and raises when [docs] is
    [None], web search returns a fixed text and generation echoes its
    prompt; search and generation can be made to raise.  The world counts
    the calls made. *)
Definition mock_backend (docs : option (list string))
    (search_ok generation_ok : bool) : Backend := {|
  World := nat;
  Collection := Value;
  Embedding := string;
  Distance := nat;
  chroma_get_collection name w :=
    (match docs with
     | Some _ => inr name
     | None => inl (ExternalError "RetrievalError")
     end, S w);
  openai_embeddings_create _ input w := (inr input, S w);
  genai_embed_content _ text _ w := (inr text, S w);
  collection_query _ _ n_results w :=
    (inr ([take n_results (default [] docs)],
          [take n_results (seq 1 (length (default [] docs)))]), S w);
  web_search_http query _ w :=
    (if search_ok then inr ("About " +:+ query)
     else inl (ExternalError "SearchError"), S w);
  openai_chat_create _ messages _ w :=
    (if generation_ok
     then inr (match last messages with
               | Some (mkMessage _ (VStr prompt)) => prompt
               | _ => ""
               end)
     else inl (ExternalError "GenerationError"), S w);
  gemini_generate_content _ prompt w :=
    (if generation_ok then inr prompt
     else inl (ExternalError "GenerationError"), S w)
|}.

(** The two chunks of the specification's example. *)
Definition example_docs : list string :=
  ["X is a thing."; "X was invented in 1990."].

(** The mock of the specification's example, with nothing failing. *)
Definition example_backend : Backend :=
  mock_backend (Some example_docs) true true.

Definition machine0 (B : Backend) (w : @World B) : @Machine B :=
  mkMachine w [].

(** The graph A -> B -> C -> D of the specification's example. *)
Definition example_nodes : list Node :=
  [mkNode "A" "userQuery"; mkNode "B" "knowledgeBase";
   mkNode "C" "llmEngine"; mkNode "D" "output"].

Definition example_edges : list Edge :=
  [mkEdge "A" "B"; mkEdge "B" "C"; mkEdge "C" "D"].

Definition example_configs : gmap string (gmap string Value) :=
  {[ "C" := {[ "model" := VStr "gpt-4o" ]} ]}.

(** The example backend with a generation call that raises. *)
Definition failing_generation_backend : Backend :=
  mock_backend (Some example_docs) true false.

(** The example backend with a retrieval that raises. *)
Definition failing_retrieval_backend : Backend :=
  mock_backend None true true.

(** The example backend with a collection that holds no document. *)
Definition empty_retrieval_backend : Backend :=
  mock_backend (Some []) true true.

Definition example_query : string := "What is X?".

(** The context retrieved in the example: the two chunks joined by a blank
    line. *)
Definition example_context : string :=
  "X is a thing." +:+ LF +:+ LF +:+ "X was invented in 1990.".

(** The calls of the retrieval node of the example. *)
Definition example_retrieval_trace : list Event :=
  [EvGetCollection (VStr "default");
   EvOpenAIEmbeddings "text-embedding-ada-002" [example_query];
   EvCollectionQuery 3].

(** The generation call of the example. *)
Definition example_generation_event : Event :=
  EvOpenAIChat (VStr "gpt-4o")
    [mkMessage "user" (VStr (context_template example_query example_context))]
    (VNum (7 # 10)%Q).

(** The configuration of the example with web search switched on. *)
Definition search_configs : gmap string (gmap string Value) :=
  {[ "C" := {[ "model" := VStr "gpt-4o"; "enableWebSearch" := VBool true ]} ]}.

(** The text the mock search returns for the example query, the prompt
    built from it and the calls of the generation node with web search on. *)
Definition example_search_text : string := "About " +:+ example_query.

Definition example_search_prompt : string :=
  web_template example_search_text
    (context_template example_query example_context).

Definition example_search_events : list Event :=
  [EvWebSearch example_query (VStr "serpapi");
   EvOpenAIChat (VStr "gpt-4o")
     [mkMessage "user" (VStr example_search_prompt)] (VNum (7 # 10)%Q)].

(** The state returned for the example with web search on. *)
Definition example_search_state : ExecutionState :=
  mkState example_query (Some example_context) (Some example_search_prompt)
    (Some (mkMetadata (VStr "gpt-4o") (Some example_search_text))).

(** A two-node graph whose edges form a cycle through the entry node. *)
Definition cyclic_nodes : list Node :=
  [mkNode "A" "userQuery"; mkNode "B" "output"].

Definition cyclic_edges : list Edge :=
  [mkEdge "A" "B"; mkEdge "B" "A"].

(** A graph without a query-source node. *)
Definition headless_nodes : list Node :=
  [mkNode "B" "knowledgeBase"; mkNode "D" "output"].

Definition headless_edges : list Edge := [mkEdge "B" "D"].

(** The same nodes with a second edge, which leaves an identifier that
    is no node. *)
Definition headless_dangling_edges : list Edge :=
  [mkEdge "B" "D"; mkEdge "Z" "B"].

(** A graph with only a query-source node and an output node. *)
Definition bare_nodes : list Node :=
  [mkNode "A" "userQuery"; mkNode "D" "output"].

Definition bare_edges : list Edge := [mkEdge "A" "D"].

(** A graph with a node of a type outside the four known ones. *)
Definition custom_nodes : list Node :=
  [mkNode "A" "userQuery"; mkNode "X" "webhook"; mkNode "D" "output"].

(** The single node whose identifier is the empty string. *)
Definition unnamed_entry : list Node := [mkNode "" "userQuery"].

(** ** [DocumentProcessor] *)

(** Python's clamping of one bound of a slice [l[start:stop]] on a
    sequence of length [len]: a negative bound counts from the end, and
    the result is kept within [0, len]. *)
Definition slice_index (len i : Z) : Z :=
  if (i <? 0)%Z then Z.max (i + len) 0 else Z.min i len.

(** [l[start:stop]] *)
Definition py_slice {A} (l : list A) (start stop : Z) : list A :=
  let len := Z.of_nat (length l) in
  drop (Z.to_nat (slice_index len start))
       (take (Z.to_nat (slice_index len stop)) l).

Module DocumentProcessor.

(** A chunk dict [{"id": ..., "content": ..., "start": ..., "end": ...}]
    over texts whose characters are of type [Char]. *)
Record TextChunk {Char : Type} := mkTextChunk {
  chunk_id : string;
  chunk_content : list Char;
  chunk_start : Z;
  chunk_end : Z
}.
Arguments TextChunk : clear implicits.
Arguments mkTextChunk {Char} _ _ _ _.

Section Chunking.
Context {Char : Type}.

(** [hashlib.md5(chunk.encode()).hexdigest()] *)
Variable md5_hexdigest : list Char -> string.

(** [self.chunk_size], [self.chunk_overlap] *)
Variables chunk_size chunk_overlap : Z.

(** The [while start < text_length] loop of [chunk_text]; [fuel] bounds
    the number of iterations and [None] stands for a loop still running. *)
Fixpoint chunk_loop (fuel : nat) (text : list Char) (start : Z)
    (chunks : list (TextChunk Char)) : option (list (TextChunk Char)) :=
  match fuel with
  | O => None
  | S fuel' =>
      let text_length := Z.of_nat (length text) in
      if (start <? text_length)%Z then
        let end_ := (start + chunk_size)%Z in
        let chunk := py_slice text start end_ in
        let chunk_id := md5_hexdigest chunk in
        chunk_loop fuel' text (start + (chunk_size - chunk_overlap))%Z
          (chunks ++ [mkTextChunk chunk_id chunk start
                        (Z.min end_ text_length)])
      else Some chunks
  end.

(** [chunk_text(text)] *)
Definition chunk_text (fuel : nat) (text : list Char)
  : option (list (TextChunk Char)) :=
  chunk_loop fuel text 0 [].

(** The distance between the starts of two consecutive chunks. *)
Definition chunk_step : Z := (chunk_size - chunk_overlap)%Z.

(** The number of chunks of a text of length [len]: [len / chunk_step],
    rounded up. *)
Definition chunk_count (len : nat) : nat :=
  Z.to_nat ((Z.of_nat len + chunk_step - 1) / chunk_step).

(** The chunk that the loop appends when it starts at [i * chunk_step]. *)
Definition nth_chunk (text : list Char) (i : nat) : TextChunk Char :=
  let start := (Z.of_nat i * chunk_step)%Z in
  let chunk := py_slice text start (start + chunk_size) in
  mkTextChunk (md5_hexdigest chunk) chunk start
    (Z.min (start + chunk_size) (Z.of_nat (length text))).

End Chunking.

End DocumentProcessor.

(** A stand-in for the digest, and the sample text "abcde" cut with chunk
    size 3 and overlap 1. *)
Definition mock_digest (chunk : list Ascii.ascii) : string :=
  String.string_of_list_ascii chunk.

Definition sample_text : list Ascii.ascii := String.list_ascii_of_string "abcde".

Definition sample_chunks : list (DocumentProcessor.TextChunk Ascii.ascii) :=
  [DocumentProcessor.mkTextChunk "abc" (String.list_ascii_of_string "abc") 0 3;
   DocumentProcessor.mkTextChunk "cde" (String.list_ascii_of_string "cde") 2 5;
   DocumentProcessor.mkTextChunk "e" (String.list_ascii_of_string "e") 4 5].

(** ** Counting calls *)

(** A call to a language model. *)
Definition is_generation (ev : Event) : bool :=
  match ev with
  | EvOpenAIChat _ _ _ | EvGeminiGenerate _ _ => true
  | _ => false
  end.

(** A lookup of a collection in the vector store. *)
Definition is_collection_lookup (ev : Event) : bool :=
  match ev with
  | EvGetCollection _ => true
  | _ => false
  end.

(** A web search. *)
Definition is_web_search (ev : Event) : bool :=
  match ev with
  | EvWebSearch _ _ => true
  | _ => false
  end.

Definition count_events (p : Event -> bool) (events : list Event) : nat :=
  length (List.filter p events).

(** The type of the node that the loop body picks for [node_id]: the
    first node of the list with that identifier. *)
Definition node_type (nodes : list Node) (node_id : string) : option string :=
  componentType <$> List.find (fun n => bool_decide (id n = node_id)) nodes.

(** How many identifiers of an order name a node of type [t]. *)
Definition count_type (nodes : list Node) (t : string)
    (execution_order : list string) : nat :=
  length (List.filter (fun x => bool_decide (node_type nodes x = Some t))
            execution_order).

(** A generation node whose configuration switches web search on. *)
Definition searches (nodes : list Node)
    (node_configs : gmap string (gmap string Value)) (node_id : string)
  : bool :=
  bool_decide (node_type nodes node_id = Some "llmEngine")
  && truthy (config_get (default ∅ (node_configs !! node_id))
               "enableWebSearch" (VBool false)).


(** A graph with two query-source nodes in which the first has three
    successors, one of them with a successor of its own. *)
Definition fan_nodes : list Node :=
  [mkNode "A" "userQuery"; mkNode "Q" "userQuery"; mkNode "B" "output";
   mkNode "C" "output"; mkNode "D" "output"; mkNode "E" "output"].

Definition fan_edges : list Edge :=
  [mkEdge "A" "B"; mkEdge "A" "C"; mkEdge "A" "D"; mkEdge "B" "E";
   mkEdge "Q" "C"].

(** The example graph with an edge to an identifier that is no node. *)
Definition dangling_edges : list Edge := [mkEdge "A" "B"; mkEdge "B" "Z"].

(** The example backend with a web search that raises. *)
Definition failing_search_backend : Backend :=
  mock_backend (Some example_docs) false true.


(** ** Ingestion and the request handlers *)

(** The collaborators that only the ingestion path and the request
    handlers reach: the uploaded file and the PDF reader, the digest, the
    creation of a collection and the insertion into it, and the database
    session.  They act on the same world as the calls of [Backend].

    A text that is measured and sliced is a list of the characters of
    the Python [str], its code points, of type [Char]; elsewhere a
    [string] stands for the [str] with that encoding. *)
Class Platform `{Backend} := {
  UploadFile : Type;
  FileBytes : Type;
  Char : Type;
  (** [file.filename] *)
  upload_filename : UploadFile -> string;
  (** [await file.read()] *)
  upload_read : UploadFile -> World -> (exn + FileBytes) * World;
  (** [fitz.open(stream=file_bytes, filetype="pdf")] and the
      [page.get_text()] of its pages, in page order *)
  pdf_page_texts :
    FileBytes -> World -> (exn + list (list Char)) * World;
  (** [text.encode()], the UTF-8 bytes of a text *)
  encode : list Char -> string;
  (** [hashlib.md5(data).hexdigest()] *)
  md5_hexdigest : string -> string;
  (** [chroma_client.create_collection(name=...)] *)
  chroma_create_collection : Value -> World -> (exn + Collection) * World;
  (** [collection.add(embeddings=..., documents=..., ids=...)] *)
  collection_add :
    Collection -> list Embedding -> list string -> list string ->
    World -> (exn + unit) * World;
  (** [db.commit()] *)
  db_commit : World -> (exn + unit) * World;
  (** [doc.id], read after the commit *)
  document_id : World -> (exn + nat) * World
}.

(** The objects of [database.py] that the handlers build and hand to
    [db.add], with the columns they set; the [content] of a [Document]
    is the text, encoded.  A [ChatHistory] built without
    the [metadata] argument has [metadata = None]; the empty dict [{}] of
    [result.get("metadata", {})] is [Some None].  The [metadata] of a
    [Document] is [{"chunk_count": chunk_count}].  Building such an
    object and adding it to the session are taken to go through without
    a call to the outside; the commit and the read of [doc.id] after it
    are the calls that can raise. *)
Inductive Row :=
| Document (filename : string) (content : string) (chunk_count : nat)
| ChatHistory (workflow_id : Value) (role : string)
    (content : option string) (metadata : option (option Metadata)).

(** What the ingestion path and the handlers do to the outside, oldest
    first: the calls of [Backend], and the calls of [Platform] together
    with the objects added to the database session. *)
Inductive Call :=
| BackendCall (ev : Event)
| CreateCollection (name : Value)
| CollectionAdd (n_embeddings : nat) (documents ids : list string)
| ReadUpload
| ExtractText
| DbAdd (row : Row)
| DbCommit
| DbReadId.

Record System `{Backend} := mkSystem { sys_world : World; calls : list Call }.
Arguments mkSystem {_} _ _.

Section ServiceMonad.
Context `{Platform}.

Definition Service (A : Type) : Type := System -> (exn + A) * System.

Definition s_ret {A} (a : A) : Service A := fun s => (inr a, s).

Definition s_raise {A} (e : exn) : Service A := fun s => (inl e, s).

Definition s_bind {A B} (c : Service A) (k : A -> Service B) : Service B :=
  fun s =>
    match c s with
    | (inl e, s') => (inl e, s')
    | (inr a, s') => k a s'
    end.

(** [try: body / except: handler e], the handler being given the
    exception. *)
Definition s_try {A} (body : Service A) (handler : exn -> Service A) : Service A :=
  fun s =>
    match body s with
    | (inl e, s') => handler e s'
    | (inr a, s') => (inr a, s')
    end.

(** One call to a collaborator of [Platform]. *)
Definition s_call {A} (c : Call) (f : World -> (exn + A) * World) : Service A :=
  fun s =>
    let (r, w') := f (sys_world s) in
    (r, mkSystem w' (calls s ++ [c])).

(** [db.add(row)]: the object joins the session; nothing leaves the
    process. *)
Definition db_add (row : Row) : Service unit :=
  fun s => (inr tt, mkSystem (sys_world s) (calls s ++ [DbAdd row])).

(** A computation over [Backend] run inside the wider system: it starts
    from the current world, and the calls it traces are appended. *)
Definition lift {A} (c : M A) : Service A :=
  fun s =>
    let (r, m') := c (mkMachine (sys_world s) []) in
    (r, mkSystem (world m') (calls s ++ (BackendCall <$> trace m'))).

End ServiceMonad.

Notation "'let+' x ':=' c 'in' k" := (s_bind c (fun x => k))
  (at level 10, x pattern, c at level 100, k at level 200, only parsing).

(** A call that inserts into a collection. *)
Definition is_insert (c : Call) : bool :=
  match c with
  | CollectionAdd _ _ _ => true
  | _ => false
  end.

(** *** [EmbeddingService.create_collection], [add_documents] *)

(** A chunk dict as [add_documents] reads it: [chunk["id"]] and
    [chunk["content"]]. *)
Record StoredChunk := mkStoredChunk {
  stored_id : string;
  stored_content : string
}.

(** The dict [{"status": "success", "count": len(chunks)}]. *)
Record AddResult := mkAddResult { add_status : string; add_count : nat }.

Section Ingestion.
Context `{Platform}.

Definition create_collection (collection_name : Value) : Service Collection :=
  s_try
    (s_call (CreateCollection collection_name)
            (chroma_create_collection collection_name))
    (fun _ =>
       lift (call (EvGetCollection collection_name)
                  (chroma_get_collection collection_name))).

Definition add_documents (collection_name : Value)
    (chunks : list StoredChunk) (embedding_model : Value) : Service AddResult :=
  let+ collection := create_collection collection_name in
  let texts := stored_content <$> chunks in
  let ids := stored_id <$> chunks in
  let+ embeddings :=
    (if eq_str embedding_model "openai"
     then lift (get_openai_embeddings texts)
     else lift (get_gemini_embeddings texts)) in
  let+ _ := s_call (CollectionAdd (length embeddings) texts ids)
                   (collection_add collection embeddings texts ids) in
  s_ret (mkAddResult "success" (length chunks)).

End Ingestion.

(** *** [DocumentProcessor.process_document] *)

Section ProcessedDocuments.
Context `{Platform}.

(** The dict returned by [process_document]. *)
Record ProcessedDocument := mkProcessedDocument {
  pd_filename : string;
  pd_text : list Char;
  pd_chunks : list (DocumentProcessor.TextChunk Char);
  pd_chunk_count : nat
}.

(** A chunk dict of [chunk_text] as [add_documents] reads it. *)
Definition stored_chunk (c : DocumentProcessor.TextChunk Char)
  : StoredChunk :=
  mkStoredChunk (DocumentProcessor.chunk_id c)
    (encode (DocumentProcessor.chunk_content c)).

End ProcessedDocuments.

(** ** The request handlers of [main.py] *)

(** What a handler gives back: the returned value, or the
    [HTTPException] it raised, with the exception whose [str] is its
    detail. *)
Inductive Response (A : Type) :=
| Returned (body : A)
| HTTPException (status_code : nat) (detail : exn).
Arguments Returned {A} _.
Arguments HTTPException {A} _ _.

(** The body of a request to [/api/workflows/execute], by the keys the
    handler reads; [None] is a key that the body does not have. *)
Record ExecutionData := mkExecutionData {
  data_query : option string;
  data_nodes : option (list Node);
  data_edges : option (list Edge);
  data_nodeConfigs : option (gmap string (gmap string Value));
  data_workflow_id : option Value
}.

(** The dict returned by [upload_document]. *)
Record UploadResult := mkUploadResult {
  up_status : string;
  up_document_id : nat;
  up_filename : string;
  up_chunks : nat;
  up_embedding_result : AddResult
}.

Section Handlers.
Context `{Platform}.

(** Computations of the handlers: those of [Service], with [None] for a
    chunking loop that has not returned within the fuel. *)
Definition Handler (A : Type) : Type :=
  System -> option ((exn + A) * System).

Definition h_ret {A} (a : A) : Handler A := fun s => Some (inr a, s).

Definition h_bind {A B} (c : Handler A) (k : A -> Handler B) : Handler B :=
  fun s =>
    match c s with
    | None => None
    | Some (inl e, s') => Some (inl e, s')
    | Some (inr a, s') => k a s'
    end.

Definition service {A} (c : Service A) : Handler A := fun s => Some (c s).

(** A result that needed fuel. *)
Definition fuelled {A} (r : option A) : Handler A :=
  fun s => match r with None => None | Some a => Some (inr a, s) end.

(** [d[key]] on a request body. *)
Definition subscript {A} (key : string) (v : option A) : Handler A :=
  match v with
  | Some a => h_ret a
  | None => service (s_raise (KeyError key))
  end.

(** [try: body / except Exception as e: raise HTTPException(500, str(e))] *)
Definition respond {A} (body : Handler A)
  : System -> option (Response A * System) :=
  fun s =>
    match body s with
    | None => None
    | Some (inl e, s') => Some (HTTPException 500 e, s')
    | Some (inr a, s') => Some (Returned a, s')
    end.

(** [workflow_executor.execute_workflow(...)] inside the wider system. *)
Definition run_workflow (depth : nat) (query : string) (nodes : list Node)
    (edges : list Edge) (node_configs : gmap string (gmap string Value))
  : Handler ExecutionState :=
  service (lift (execute_workflow depth query nodes edges node_configs)).

End Handlers.

Notation "'let!' x ':=' c 'in' k" := (h_bind c (fun x => k))
  (at level 10, x pattern, c at level 100, k at level 200, only parsing).

Section Endpoints.
Context `{Platform}.

(** [extract_text_from_pdf(file_bytes)]: the texts of the pages, appended
    in page order. *)
Definition extract_text_from_pdf (file_bytes : FileBytes)
  : Service (list Char) :=
  let+ pages := s_call ExtractText (pdf_page_texts file_bytes) in
  s_ret (concat pages).

(** [process_document(file_bytes, filename)] of a processor built with
    [chunk_size] and [chunk_overlap]. *)
Definition process_document (chunk_size chunk_overlap : Z) (fuel : nat)
    (file_bytes : FileBytes) (filename : string)
  : Handler ProcessedDocument :=
  let! text := service (extract_text_from_pdf file_bytes) in
  let! chunks :=
    fuelled
      (DocumentProcessor.chunk_text
         (fun chunk => md5_hexdigest (encode chunk))
         chunk_size chunk_overlap fuel text) in
  h_ret (mkProcessedDocument filename text chunks (length chunks)).

(** The handler of [POST /api/documents/upload]; its processor is
    [DocumentProcessor()], with chunk size 1000 and overlap 200. *)
Definition upload_document (fuel : nat) (file : UploadFile)
    (collection_name embedding_model : string)
  : System -> option (Response UploadResult * System) :=
  respond
    ((* Read file *)
     let! file_bytes := service (s_call ReadUpload (upload_read file)) in
     (* Process document *)
     let! result :=
       process_document 1000 200 fuel file_bytes (upload_filename file) in
     (* Store in database *)
     let! _ := service (db_add (Document (pd_filename result)
                                 (encode (pd_text result))
                                 (pd_chunk_count result))) in
     let! _ := service (s_call DbCommit db_commit) in
     (* Add to vector store *)
     let! embedding_result :=
       service (add_documents (VStr collection_name)
                  (stored_chunk <$> pd_chunks result)
                  (VStr embedding_model)) in
     let! doc_id := service (s_call DbReadId document_id) in
     h_ret (mkUploadResult "success" doc_id (upload_filename file)
              (pd_chunk_count result) embedding_result)).

(** The handler of [POST /api/workflows/execute], called where the
    interpreter allows [depth] nested calls of the resolver's [dfs]. *)
Definition execute_workflow_handler (depth : nat)
    (execution_data : ExecutionData)
  : System -> option (Response ExecutionState * System) :=
  respond
    (let! query := subscript "query" (data_query execution_data) in
     let! nodes := subscript "nodes" (data_nodes execution_data) in
     let! edges := subscript "edges" (data_edges execution_data) in
     let node_configs := default ∅ (data_nodeConfigs execution_data) in
     let! result := run_workflow depth query nodes edges node_configs in
     (* Save chat history *)
     let! _ :=
       (if truthy (default VNone (data_workflow_id execution_data))
        then
          let! workflow_id :=
            subscript "workflow_id" (data_workflow_id execution_data) in
          let! _ := service (db_add (ChatHistory workflow_id "user"
                                      (Some query) None)) in
          let! _ := service (db_add (ChatHistory workflow_id "assistant"
                                      (st_response result)
                                      (Some (st_metadata result)))) in
          service (s_call DbCommit db_commit)
        else h_ret tt) in
     h_ret result).

End Endpoints.

Section HandlerNotions.
Context `{Platform}.

(** The calls of a workflow run, as the wider system records them. *)
Definition after_run (s : System) (m' : Machine) : System :=
  mkSystem (world m') (calls s ++ (BackendCall <$> trace m')).

End HandlerNotions.

(** ** Test doubles for the ingestion path and the handlers *)

(** The answer of a collaborator that serves a budget of calls: the world
    counts the calls made, and a call goes through while fewer than
    [budget] calls were made before it. *)
Definition within {A} (budget w : nat) (a : A) : exn + A :=
  if Nat.ltb w budget then inr a else inl (ExternalError "Unavailable").

(** A backend that answers as [example_backend] does, within a budget. *)
Definition limited_backend (budget : nat) : Backend := {|
  World := nat;
  Collection := Value;
  Embedding := string;
  Distance := nat;
  chroma_get_collection name w := (within budget w name, S w);
  openai_embeddings_create _ input w := (within budget w input, S w);
  genai_embed_content _ text _ w := (within budget w text, S w);
  collection_query _ _ n_results w :=
    (within budget w
       ([take n_results example_docs],
        [take n_results (seq 1 (length example_docs))]), S w);
  web_search_http query _ w := (within budget w ("About " +:+ query), S w);
  openai_chat_create _ messages _ w :=
    (within budget w
       (match last messages with
        | Some (mkMessage _ (VStr prompt)) => prompt
        | _ => ""
        end), S w);
  gemini_generate_content _ prompt w := (within budget w prompt, S w)
|}.

(** UTF-8 for the test doubles, whose characters are code points. *)
Definition utf8_char (c : N) : list Ascii.ascii :=
  let byte (n : N) := Ascii.ascii_of_N n in
  if (c <? 128)%N then [byte c]
  else if (c <? 2048)%N then
    [byte (192 + c / 64)%N; byte (128 + c mod 64)%N]
  else if (c <? 65536)%N then
    [byte (224 + c / 4096)%N; byte (128 + (c / 64) mod 64)%N;
     byte (128 + c mod 64)%N]
  else
    [byte (240 + c / 262144)%N; byte (128 + (c / 4096) mod 64)%N;
     byte (128 + (c / 64) mod 64)%N; byte (128 + c mod 64)%N].

Definition utf8 (text : list N) : string :=
  String.string_of_list_ascii (flat_map utf8_char text).

(** The code points of a text written in ASCII. *)
Definition code_points (text : string) : list N :=
  Ascii.N_of_ascii <$> String.list_ascii_of_string text.

(** The platform on top of it.  An upload is its file name and the texts
    of its pages, characters are code points, the digest prefixes its
    argument, and a collection that is [existing] cannot be created
    again. *)
Definition limited_platform (budget : nat) (existing : bool)
  : @Platform (limited_backend budget) :=
  @Build_Platform (limited_backend budget)
    (string * list (list N))
    (list (list N))
    N
    (fun file => file.1)
    (fun file (w : nat) => (within budget w file.2, S w))
    (fun file_bytes (w : nat) => (within budget w file_bytes, S w))
    utf8
    (fun data => "md5:" +:+ data)
    (fun name (w : nat) =>
       (if existing then inl (ExternalError "UniqueConstraintError")
        else within budget w name, S w))
    (fun _ _ _ _ (w : nat) => (within budget w tt, S w))
    (fun w : nat => (within budget w tt, S w))
    (fun w : nat => (within budget w 1, S w)).

Definition system0 (budget : nat) : @System (limited_backend budget) :=
  @mkSystem (limited_backend budget) 0 [].

(** Two chunks as [add_documents] receives them. *)
Definition two_chunks : list StoredChunk :=
  [mkStoredChunk "id-a" "a"; mkStoredChunk "id-b" "b"].

(** An upload of two pages, the first with a character outside ASCII
    ([233], e with an acute accent); its text of 43 characters, which
    takes 44 bytes; and the single chunk of that text. *)
Definition sample_upload : string * list (list N) :=
  ("notes.pdf",
   [code_points "Caf" ++ [233%N] ++ code_points ": X is a thing. ";
    code_points "X was invented in 1990."]).

Definition sample_upload_points : list N := concat sample_upload.2.

Definition sample_upload_text : string := utf8 sample_upload_points.

Definition sample_upload_chunks
  : list (DocumentProcessor.TextChunk N) :=
  [DocumentProcessor.mkTextChunk ("md5:" +:+ sample_upload_text)
     sample_upload_points 0 43].

(** The text of three characters [233], which takes six bytes. *)
Definition accented_text : list N := [233; 233; 233]%N.

(** The calls of that upload up to the commit of its row. *)
Definition sample_upload_stored : list Call :=
  [ReadUpload; ExtractText;
   DbAdd (Document "notes.pdf" sample_upload_text 1); DbCommit].

(** A request to run the example with web search on, for a workflow. *)
Definition sample_request (workflow_id : option Value) : ExecutionData :=
  mkExecutionData (Some example_query) (Some example_nodes)
    (Some example_edges) (Some search_configs) workflow_id.

(** The chat-history rows of that request for workflow 7. *)
Definition sample_history : list Call :=
  [DbAdd (ChatHistory (VNum (7 # 1)%Q) "user" (Some example_query) None);
   DbAdd (ChatHistory (VNum (7 # 1)%Q) "assistant" (Some example_search_prompt)
            (Some (Some (mkMetadata (VStr "gpt-4o")
                           (Some example_search_text)))));
   DbCommit].

(** The calls of [add_documents] on the two chunks with the Gemini
    embedding model. *)
Definition two_chunks_calls : list Call :=
  [CreateCollection (VStr "docs");
   BackendCall (EvGeminiEmbedContent "models/embedding-001" "a"
                  "retrieval_document");
   BackendCall (EvGeminiEmbedContent "models/embedding-001" "b"
                  "retrieval_document");
   CollectionAdd 2 ["a"; "b"] ["id-a"; "id-b"]].

(** The calls of the sample upload after the commit, and its result. *)
Definition sample_upload_ingested : list Call :=
  [CreateCollection (VStr "docs");
   BackendCall (EvOpenAIEmbeddings "text-embedding-ada-002"
                  [sample_upload_text]);
   CollectionAdd 1 [sample_upload_text] ["md5:" +:+ sample_upload_text];
   DbReadId].

Definition sample_upload_result : UploadResult :=
  mkUploadResult "success" 1 "notes.pdf" 1 (mkAddResult "success" 1).

(** * Properties *)

#[local] Set Warnings "-clear-no-such-hyp".

(** ** Computations *)

Section MonadFacts.
Context `{Backend}.

Lemma bind_ret {A B} (a : A) (k : A -> M B) m : bind (ret a) k m = k a m.
Proof. reflexivity. Qed.

Lemma bind_raise {A B} (e : exn) (k : A -> M B) m :
  bind (raise e) k m = (inl e, m).
Proof. reflexivity. Qed.

Lemma bind_assoc {A B C} (c : M A) (k : A -> M B) (k' : B -> M C) m :
  bind (bind c k) k' m = bind c (fun a => bind (k a) k') m.
Proof. unfold bind. by destruct (c m) as [[e|a] m']. Qed.

Lemma try_except_ret {A} (a : A) (handler : M A) m :
  try_except (ret a) handler m = (inr a, m).
Proof. reflexivity. Qed.

Lemma try_except_raise {A} (e : exn) (handler : M A) m :
  try_except (raise e) handler m = handler m.
Proof. reflexivity. Qed.

(** A call extends the trace by exactly its own event. *)
Lemma call_trace {A} ev (f : World -> (exn + A) * World) m :
  trace (call ev f m).2 = trace m ++ [ev].
Proof. unfold call. by destruct (f (world m)). Qed.

End MonadFacts.

(** ** The adjacency mapping *)

Lemma init_graph_lookup_aux (nodes : list Node) (g : gmap string (list string)) k :
  foldl (fun g n => <[id n := []]> g) g nodes !! k
  = if decide (k ∈ id <$> nodes) then Some [] else g !! k.
Proof.
  revert g. induction nodes as [|n nodes IH]; intros g; cbn [foldl].
  - rewrite fmap_nil. destruct (decide (k ∈ [])) as [Hk|]; [|done].
    by apply elem_of_nil in Hk.
  - rewrite IH, fmap_cons.
    destruct (decide (k ∈ id <$> nodes)) as [Hk|Hk];
      destruct (decide (k ∈ id n :: (id <$> nodes))) as [Hk'|Hk']; try done.
    + exfalso. apply Hk'. apply elem_of_cons. by right.
    + apply elem_of_cons in Hk' as [->|?]; [|done]. apply lookup_insert_eq.
    + apply lookup_insert_ne. intros Heq. apply Hk'. apply elem_of_cons. by left.
Qed.

Lemma init_graph_lookup (nodes : list Node) k :
  init_graph nodes !! k = if decide (k ∈ id <$> nodes) then Some [] else None.
Proof. unfold init_graph. rewrite init_graph_lookup_aux. by rewrite lookup_empty. Qed.

Lemma successors_cons e es x :
  successors (e :: es) x
  = if decide (source e = x) then target e :: successors es x else successors es x.
Proof.
  unfold successors. rewrite filter_cons. case_decide; done.
Qed.

Lemma elem_of_successors edges x y :
  y ∈ successors edges x <-> edge_rel edges x y.
Proof.
  unfold successors, edge_rel. rewrite list_elem_of_fmap. split.
  - intros (e & -> & He). apply list_elem_of_filter in He as [Hs He]. eauto.
  - intros (e & He & Hs & Ht). exists e. split; [done|].
    apply list_elem_of_filter. done.
Qed.

Lemma add_edges_lookup edges : forall g g',
  add_edges edges g = inr g' ->
  forall k, g' !! k = (fun l => l ++ successors edges k) <$> (g !! k).
Proof.
  induction edges as [|e es IH]; intros g g' Hadd k; simpl in Hadd.
  - inversion Hadd; subst. unfold successors; simpl.
    destruct (g' !! k); simpl; [by rewrite app_nil_r | done].
  - destruct (g !! source e) as [l|] eqn:Hl; [|done].
    rewrite (IH _ _ Hadd k). rewrite successors_cons.
    destruct (decide (source e = k)) as [<-|Hne].
    + rewrite lookup_insert_eq, Hl. simpl. by rewrite <- app_assoc.
    + by rewrite lookup_insert_ne.
Qed.

Lemma add_edges_sources edges : forall g g',
  add_edges edges g = inr g' -> Forall (fun e => source e ∈ dom g) edges.
Proof.
  induction edges as [|e es IH]; intros g g' Hadd; simpl in Hadd; [constructor|].
  destruct (g !! source e) as [l|] eqn:Hl; [|done].
  constructor.
  - apply elem_of_dom. eauto.
  - apply IH in Hadd. eapply Forall_impl; [exact Hadd|].
    intros e' He'. simpl in He'. rewrite dom_insert_L in He'.
    apply elem_of_union in He' as [He'|He']; [|done].
    apply elem_of_singleton in He'. rewrite He'. apply elem_of_dom. eauto.
Qed.

Lemma add_edges_total edges : forall g,
  Forall (fun e => source e ∈ dom g) edges -> exists g', add_edges edges g = inr g'.
Proof.
  induction edges as [|e es IH]; intros g Hall; simpl; [eauto|].
  inversion Hall as [|? ? He Hes]; subst.
  apply elem_of_dom in He as [l Hl]. rewrite Hl.
  apply IH. eapply Forall_impl; [exact Hes|].
  intros e' He'. simpl. rewrite dom_insert_L. set_solver.
Qed.

Lemma add_edges_raises edges : forall g,
  ~ Forall (fun e => source e ∈ dom g) edges ->
  exists k, add_edges edges g = inl (KeyError k).
Proof.
  induction edges as [|e es IH]; intros g Hall; simpl.
  - destruct Hall. constructor.
  - destruct (g !! source e) as [l|] eqn:Hl; [|eauto].
    apply IH. intros Hes. apply Hall. constructor.
    + apply elem_of_dom. eauto.
    + eapply Forall_impl; [exact Hes|]. intros e' He'. simpl in He'.
      rewrite dom_insert_L in He'.
      apply elem_of_union in He' as [He'|He']; [|done].
      apply elem_of_singleton in He'. rewrite He'. apply elem_of_dom. eauto.
Qed.

(** The first edge whose source is missing is the one that raises. *)
Lemma add_edges_first_missing good : forall graph edge rest,
  Forall (fun e => source e ∈ dom graph) good ->
  source edge ∉ dom graph ->
  add_edges (good ++ edge :: rest) graph = inl (KeyError (source edge)).
Proof.
  induction good as [|e good IH]; intros graph edge rest Hgood Hbad.
  - simpl. apply not_elem_of_dom in Hbad. by rewrite Hbad.
  - inversion Hgood as [|? ? He Hrest]; subst. simpl.
    apply elem_of_dom in He as [l Hl]. rewrite Hl.
    apply IH.
    + eapply Forall_impl; [exact Hrest|]. intros e' He'. simpl.
      rewrite dom_insert_L. set_solver.
    + rewrite dom_insert_L. intros Hin.
      apply elem_of_union in Hin as [Hin|Hin]; [|done].
      apply elem_of_singleton in Hin. apply Hbad. rewrite Hin.
      apply elem_of_dom. eauto.
Qed.

Lemma dom_init_graph nodes k : k ∈ dom (init_graph nodes) <-> k ∈ id <$> nodes.
Proof.
  rewrite elem_of_dom, init_graph_lookup.
  destruct (decide (k ∈ id <$> nodes)); split; intros Hx; try done.
Qed.

Lemma first_fresh_cons seen y cands :
  first_fresh seen (y :: cands)
  = if decide (y ∈ seen) then first_fresh seen cands else Some y.
Proof.
  unfold first_fresh; cbn [List.find].
  destruct (decide (y ∈ seen)) as [Hy|Hy].
  - rewrite bool_decide_eq_false_2; [done|]. intros Hn. by apply Hn.
  - by rewrite bool_decide_eq_true_2.
Qed.

Lemma first_fresh_Some seen cands y :
  first_fresh seen cands = Some y -> y ∈ cands /\ y ∉ seen.
Proof.
  induction cands as [|c cands IH]; [done|].
  rewrite first_fresh_cons. destruct (decide (c ∈ seen)) as [Hc|Hc].
  - intros Hf. destruct (IH Hf). split; [|done]. apply elem_of_cons. by right.
  - intros [= ->]. split; [|done]. apply elem_of_cons. by left.
Qed.

Lemma first_fresh_None seen cands :
  first_fresh seen cands = None <-> forall y, y ∈ cands -> y ∈ seen.
Proof.
  induction cands as [|c cands IH].
  - split; [|done]. intros _ y Hy. by apply elem_of_nil in Hy.
  - rewrite first_fresh_cons. destruct (decide (c ∈ seen)) as [Hc|Hc].
    + rewrite IH. split.
      * intros Hall y Hy. apply elem_of_cons in Hy as [->|Hy]; [done|].
        by apply Hall.
      * intros Hall y Hy. apply Hall, elem_of_cons. by right.
    + split; [done|]. intros Hall. destruct Hc. apply Hall, elem_of_cons.
      by left.
Qed.

Lemma exhausted_app graph o more lo i :
  S i <= length o ->
  exhausted graph o lo i <-> exhausted graph (o ++ more) lo i.
Proof.
  intros Hi. unfold exhausted. rewrite take_app_le by done.
  split; intros Hex k z Hk Hz.
  - apply (Hex k z Hk). rewrite lookup_app_l in Hz by lia. done.
  - apply (Hex k z Hk). rewrite lookup_app_l by lia. done.
Qed.

Lemma exhausted_weaken graph o lo lo' i :
  lo <= lo' -> exhausted graph o lo i -> exhausted graph o lo' i.
Proof. intros Hlo Hex k z Hk. apply Hex. lia. Qed.

Lemma discovered_from_app graph o more lo i y :
  S i <= length o ->
  discovered_from graph o lo i y ->
  discovered_from graph (o ++ more) lo i y.
Proof.
  intros Hi (j & x & Hj & Hx & Hy & Hex). exists j, x.
  split; [done|]. split; [rewrite lookup_app_l by lia; done|].
  split; [by rewrite take_app_le|]. by apply exhausted_app.
Qed.

Lemma discovered_from_weaken graph o lo lo' i y :
  lo' <= lo -> discovered_from graph o lo i y ->
  discovered_from graph o lo' i y.
Proof.
  intros Hlo (j & x & Hj & Hrest). exists j, x. split; [lia|done].
Qed.

Lemma dfs_post_visited graph roots st st' x :
  dfs_post graph roots st st' -> x ∈ visited st -> x ∈ visited st'.
Proof.
  intros ([_ Hv] & [_ Hv'] & new & Ho & _) Hx.
  apply Hv'. rewrite Ho. apply elem_of_app. left. by apply Hv.
Qed.

Lemma dfs_post_nil graph st : dfs_inv st -> dfs_post graph [] st st.
Proof.
  intros Hinv. split; [done|]. split; [done|]. exists [].
  split; [by rewrite app_nil_r|].
  split; [intros r Hr; by apply elem_of_nil in Hr|].
  split; [intros x Hx; by apply elem_of_nil in Hx|].
  split; [intros x y Hx; by apply elem_of_nil in Hx|].
  split; [done|].
  split.
  - intros i x y Hi Hx. apply lookup_lt_Some in Hx. lia.
  - intros i y Hi Hy. apply lookup_lt_Some in Hy. lia.
Qed.

Lemma dfs_post_skip graph n st :
  dfs_inv st -> n ∈ visited st -> dfs_post graph [n] st st.
Proof.
  intros Hinv Hn. split; [done|]. split; [done|]. exists [].
  split; [by rewrite app_nil_r|].
  split; [intros r Hr; apply list_elem_of_singleton in Hr; by subst|].
  split; [intros x Hx; by apply elem_of_nil in Hx|].
  split; [intros x y Hx; by apply elem_of_nil in Hx|].
  split.
  { rewrite first_fresh_cons. destruct Hinv as [_ Hv].
    destruct (decide (n ∈ order st)) as [|Hno]; [done|].
    destruct Hno. by apply Hv. }
  split.
  - intros i x y Hi Hx. apply lookup_lt_Some in Hx. lia.
  - intros i y Hi Hy. apply lookup_lt_Some in Hy. lia.
Qed.

Lemma dfs_post_seq graph n ns st s1 st' :
  dfs_post graph [n] st s1 -> dfs_post graph ns s1 st' ->
  dfs_post graph (n :: ns) st st'.
Proof.
  intros HA HB.
  pose proof (fun x => dfs_post_visited _ _ _ _ x HB) as Hmono.
  destruct HA as (Hinv & Hinv1 & na & Hoa & Hra & Hreacha & Hcla & Hha
                  & Hnexta & Hbacka).
  destruct HB as (_ & Hinv' & nb & Hob & Hrb & Hreachb & Hclb & Hhb
                  & Hnextb & Hbackb).
  split; [done|]. split; [done|]. exists (na ++ nb).
  split; [by rewrite Hob, Hoa, app_assoc|].
  split.
  { intros r Hr. apply elem_of_cons in Hr as [->|Hr]; [|by apply Hrb].
    apply Hmono, Hra, list_elem_of_singleton. done. }
  split.
  { intros x Hx. apply elem_of_app in Hx as [Hx|Hx].
    - destruct (Hreacha x Hx) as (r & Hr & Hrx).
      apply list_elem_of_singleton in Hr as ->.
      exists n. split; [apply elem_of_cons; by left|done].
    - destruct (Hreachb x Hx) as (r & Hr & Hrx).
      exists r. split; [apply elem_of_cons; by right|done]. }
  split.
  { intros x y Hx Hy. apply elem_of_app in Hx as [Hx|Hx].
    - apply Hmono. by eapply Hcla.
    - by eapply Hclb. }
  split.
  { rewrite first_fresh_cons. rewrite first_fresh_cons in Hha.
    destruct (decide (n ∈ order st)) as [Hn|Hn].
    - destruct na as [|a na]; [|done]. simpl.
      rewrite Hhb, Hoa. by rewrite app_nil_r.
    - destruct na as [|a na]; [done|]. simpl in *. done. }
  split.
  { intros i x y Hi Hx Hy.
    destruct (decide (i < length (order s1))) as [Hlt|Hge].
    - rewrite Hob in Hx, Hy |- *.
      rewrite lookup_app_l in Hx by done.
      rewrite take_app_le in Hy by lia.
      apply lookup_app_l_Some. by eapply Hnexta.
    - eapply Hnextb; [lia|done..]. }
  intros i y Hi Hy.
  destruct (decide (S i < length (order s1))) as [Hlt|Hge].
  - rewrite Hob in Hy |- *. rewrite lookup_app_l in Hy by done.
    destruct (Hbacka i y Hi Hy) as [Hd|[Hroot Hex]].
    + left. apply discovered_from_app; [lia|done].
    + right. rewrite take_app_le by lia. split.
      * apply first_fresh_Some in Hroot as Hn.
        destruct Hn as [Hn Hfresh]. apply list_elem_of_singleton in Hn as ->.
        rewrite first_fresh_cons.
        by destruct (decide (n ∈ take (S i) (order s1))).
      * apply exhausted_app; [lia|done].
  - assert (Hpre : forall z, z ∈ order s1 -> z ∈ take (S i) (order st')).
    { intros z Hz. rewrite Hob. rewrite take_app_ge by lia.
      apply elem_of_app. by left. }
    destruct (Hbackb i y ltac:(lia) Hy) as [Hd|[Hroot Hex]].
    + left. apply discovered_from_weaken with (length (order s1)); [|done].
      rewrite Hoa, length_app. lia.
    + right. split.
      * rewrite first_fresh_cons.
        destruct (decide (n ∈ take (S i) (order st'))) as [|Hn]; [done|].
        destruct Hn. apply Hpre. destruct Hinv1 as [_ Hv1]. apply Hv1.
        apply Hra, list_elem_of_singleton. done.
      * intros k z Hk Hz.
        destruct (decide (k < length (order s1))) as [Hk1|Hk1];
          [|apply (Hex k z); [lia|done]].
        apply first_fresh_None. intros y' Hy'. apply Hpre.
        destruct Hinv1 as [_ Hv1]. apply Hv1. apply (Hcla z); [|done].
        rewrite Hob, lookup_app_l in Hz by done.
        rewrite Hoa, lookup_app_r in Hz by lia.
        by apply list_elem_of_lookup_2 in Hz.
Qed.

Lemma dfs_post_visit graph n st st' :
  dfs_inv st -> n ∉ visited st ->
  dfs_post graph (adj graph n)
    (mkDfs (order st ++ [n]) ({[n]} ∪ visited st)) st' ->
  dfs_post graph [n] st st'.
Proof.
  intros Hinv Hn HB.
  destruct HB as (Hinv1 & Hinv' & nb & Hob & Hrb & Hreachb & Hclb & Hhb
                  & Hnextb & Hbackb).
  simpl in Hob, Hhb, Hnextb, Hbackb.
  split; [done|]. split; [done|]. exists (n :: nb).
  split; [by rewrite Hob, <- app_assoc|].
  split.
  { intros r Hr. apply list_elem_of_singleton in Hr as ->.
    destruct Hinv' as [_ Hv']. apply Hv'. rewrite Hob.
    apply elem_of_app. left. apply elem_of_app. right.
    by apply list_elem_of_singleton. }
  split.
  { intros x Hx. exists n. split; [by apply list_elem_of_singleton|].
    apply elem_of_cons in Hx as [->|Hx]; [apply rtc_refl|].
    destruct (Hreachb x Hx) as (r & Hr & Hrx). by eapply rtc_l. }
  split.
  { intros x y Hx Hy. apply elem_of_cons in Hx as [->|Hx].
    - by apply Hrb.
    - by eapply Hclb. }
  split.
  { rewrite first_fresh_cons. destruct Hinv as [_ Hv].
    destruct (decide (n ∈ order st)) as [Hno|]; [|done].
    destruct Hn. by apply Hv. }
  assert (Hat : order st' !! length (order st) = Some n).
  { rewrite Hob, <- app_assoc. rewrite lookup_app_r by lia.
    by rewrite Nat.sub_diag. }
  split.
  { intros i x y Hi Hx Hy.
    destruct (decide (i = length (order st))) as [->|Hne].
    - rewrite Hat in Hx. injection Hx as <-.
      rewrite Hob in Hy |- *.
      rewrite take_app_le in Hy by (rewrite length_app; simpl; lia).
      rewrite take_ge in Hy by (rewrite length_app; simpl; lia).
      rewrite <- Hhb in Hy.
      rewrite lookup_app_r by (rewrite length_app; simpl; lia).
      rewrite length_app. simpl.
      replace (S (length (order st)) - (length (order st) + 1)) with 0 by lia.
      by destruct nb.
    - eapply Hnextb; [rewrite length_app; simpl; lia|done..]. }
  intros i y Hi Hy.
  destruct (decide (S i = length (order st))) as [Heq|Hne].
  - right. rewrite Heq in Hy. rewrite Hat in Hy. injection Hy as <-.
    rewrite Heq. split.
    + rewrite Hob, <- app_assoc, take_app_length. rewrite first_fresh_cons.
      destruct (decide (n ∈ order st)) as [Hno|]; [|done].
      destruct Hn. destruct Hinv as [_ Hv]. by apply Hv.
    + intros k z Hk. lia.
  - left. rewrite length_app in Hbackb. simpl in Hbackb.
    destruct (Hbackb i y ltac:(lia) Hy) as [Hd|[Hroot Hex]].
    + apply discovered_from_weaken with (length (order st) + 1); [lia|done].
    + exists (length (order st)), n. split; [lia|]. split; [done|].
      split; [done|].
      replace (S (length (order st))) with (length (order st) + 1) by lia.
      done.
Qed.

Lemma dfs_inv_visit n st :
  dfs_inv st -> n ∉ visited st ->
  dfs_inv (mkDfs (order st ++ [n]) ({[n]} ∪ visited st)).
Proof.
  intros [Hnd Hv] Hn. split; simpl.
  - apply NoDup_app. split; [done|]. split; [|apply NoDup_singleton].
    intros x Hx Hx'. apply list_elem_of_singleton in Hx' as ->.
    apply Hn. by apply Hv.
  - intros x. rewrite elem_of_union, elem_of_singleton, elem_of_app,
      list_elem_of_singleton, Hv. tauto.
Qed.

Lemma for_neighbors_post graph call :
  (forall n st st', call n st = inr st' -> dfs_inv st ->
                    dfs_post graph [n] st st') ->
  forall ns st st',
    for_neighbors call ns st = inr st' -> dfs_inv st ->
    dfs_post graph ns st st'.
Proof.
  intros Hcall ns. induction ns as [|n ns IH]; intros st st' Hrun Hinv.
  - injection Hrun as <-. by apply dfs_post_nil.
  - simpl in Hrun. destruct (call n st) as [e|s1] eqn:Hc; [done|].
    pose proof (Hcall _ _ _ Hc Hinv) as HA.
    eapply dfs_post_seq; [exact HA|].
    apply IH; [done|]. by destruct HA as (_ & ? & _).
Qed.

(** A returning [dfs] call establishes [dfs_post] for its single root. *)
Lemma dfs_sound graph depth : forall n st st',
  dfs depth graph n st = inr st' -> dfs_inv st -> dfs_post graph [n] st st'.
Proof.
  induction depth as [|depth IH]; intros n st st' Hrun Hinv; [done|].
  simpl in Hrun. destruct (decide (n ∈ visited st)) as [Hn|Hn].
  - injection Hrun as <-. by apply dfs_post_skip.
  - apply dfs_post_visit; [done..|].
    eapply for_neighbors_post; [exact IH|exact Hrun|].
    by apply dfs_inv_visit.
Qed.

(** *** The recursion limit *)

(** The only exception of the traversal is that of the interpreter. *)
Lemma for_neighbors_raises (call : string -> DfsState -> exn + DfsState) :
  (forall n st e, call n st = inl e -> e = RecursionError) ->
  forall ns st e, for_neighbors call ns st = inl e -> e = RecursionError.
Proof.
  intros Hcall ns. induction ns as [|n ns IH]; intros st e Hrun; [done|].
  simpl in Hrun. destruct (call n st) as [e'|s1] eqn:Hc.
  - injection Hrun as <-. by eapply Hcall.
  - by eapply IH.
Qed.

Lemma dfs_raises graph depth : forall n st e,
  dfs depth graph n st = inl e -> e = RecursionError.
Proof.
  induction depth as [|depth IH]; intros n st e Hrun.
  - by injection Hrun as <-.
  - simpl in Hrun. destruct (decide (n ∈ visited st)); [done|].
    eapply for_neighbors_raises; [exact IH|exact Hrun].
Qed.

Lemma for_neighbors_mono (call call' : string -> DfsState -> exn + DfsState) :
  (forall n st st', call n st = inr st' -> call' n st = inr st') ->
  forall ns st st',
    for_neighbors call ns st = inr st' -> for_neighbors call' ns st = inr st'.
Proof.
  intros Hsub ns. induction ns as [|n ns IH]; intros st st' Hrun; [done|].
  simpl in *. destruct (call n st) as [e|s1] eqn:Hc; [done|].
  rewrite (Hsub _ _ _ Hc). by apply IH.
Qed.

(** A traversal that returns under one limit returns the same under every
    higher one. *)
Lemma dfs_depth_mono graph depth : forall depth' n st st',
  dfs depth graph n st = inr st' -> depth <= depth' ->
  dfs depth' graph n st = inr st'.
Proof.
  induction depth as [|depth IH]; intros depth' n st st' Hrun Hle; [done|].
  destruct depth' as [|depth']; [lia|]. simpl in *.
  destruct (decide (n ∈ visited st)); [done|].
  eapply for_neighbors_mono; [|exact Hrun].
  intros n' s s' Hs. apply IH; [done|lia].
Qed.

Lemma size_list_to_set_le (l : list string) :
  size (list_to_set l : gset string) <= length l.
Proof.
  induction l as [|x l IH].
  - rewrite list_to_set_nil, size_empty. done.
  - rewrite list_to_set_cons, size_union_alt, size_singleton.
    assert (size (list_to_set l ∖ {[x]} : gset string)
            <= size (list_to_set l : gset string)).
    { apply subseteq_size. set_solver. }
    simpl. lia.
Qed.

Section Termination.
Variable graph : gmap string (list string).
Variable U : gset string.
Hypothesis adj_closed : forall x y, y ∈ adj graph x -> y ∈ U.

Lemma for_neighbors_total (call : string -> DfsState -> exn + DfsState) st0 :
  (forall n st, n ∈ U -> visited st0 ⊆ visited st -> visited st ⊆ U ->
     exists st', call n st = inr st' /\ visited st ⊆ visited st'
                 /\ visited st' ⊆ U) ->
  forall ns st,
    (forall y, y ∈ ns -> y ∈ U) -> visited st0 ⊆ visited st -> visited st ⊆ U ->
    exists st', for_neighbors call ns st = inr st'
                /\ visited st ⊆ visited st' /\ visited st' ⊆ U.
Proof.
  intros Hcall ns. induction ns as [|n ns IH]; intros st Hns H0 HU; simpl.
  - exists st. done.
  - destruct (Hcall n st) as (s1 & -> & Hs1 & Hs1U); [|done..|].
    { apply Hns, elem_of_cons. by left. }
    destruct (IH s1) as (st' & -> & Hst' & HstU); [| |done|].
    { intros y Hy. apply Hns, elem_of_cons. by right. }
    { by etrans. }
    exists st'. split; [done|]. split; [by etrans|done].
Qed.

(** The nesting of the traversal stays within the number of identifiers
    that are still unvisited, plus one: with that many calls allowed, no
    [RecursionError] is raised. *)
Lemma dfs_total depth : forall n st,
  n ∈ U -> visited st ⊆ U -> size (U ∖ visited st) < depth ->
  exists st', dfs depth graph n st = inr st'
              /\ visited st ⊆ visited st' /\ visited st' ⊆ U.
Proof.
  induction depth as [|depth IH]; intros n st Hn HU Hsz; [lia|].
  simpl. destruct (decide (n ∈ visited st)) as [Hv|Hv].
  - exists st. done.
  - set (st1 := mkDfs (order st ++ [n]) ({[n]} ∪ visited st)).
    assert (Hlt : size (U ∖ visited st1) < size (U ∖ visited st)).
    { apply subset_size. simpl. split; [set_solver|].
      intros Hsub. specialize (Hsub n). set_solver. }
    destruct (for_neighbors_total (dfs depth graph) st1) with
      (ns := adj graph n) (st := st1) as (st' & Hrun & Hsub & HstU).
    + intros n' s Hn' Hs HsU. apply IH; [done..|].
      assert (size (U ∖ visited s) <= size (U ∖ visited st1)); [|lia].
      apply subseteq_size. set_solver.
    + intros y Hy. by eapply adj_closed.
    + done.
    + simpl. set_solver.
    + exists st'. split; [exact Hrun|]. split; [|done].
      simpl in Hsub. set_solver.
Qed.

End Termination.

(** The adjacency list of every identifier is the list of targets of its
    outgoing edges, in edge-list order. *)
Lemma graph_adj nodes edges graph :
  add_edges edges (init_graph nodes) = inr graph ->
  forall x, adj graph x = successors edges x.
Proof.
  intros Hadd x. unfold adj.
  rewrite (add_edges_lookup _ _ _ Hadd x), init_graph_lookup.
  destruct (decide (x ∈ id <$> nodes)) as [Hx|Hx]; [done|]. simpl.
  apply add_edges_sources in Hadd.
  unfold successors.
  replace (filter (fun e => source e = x) edges) with (@nil Edge); [done|].
  symmetry. apply elem_of_nil_inv. intros e He.
  apply list_elem_of_filter in He as [Hs He].
  rewrite Forall_forall in Hadd. apply Hadd in He.
  apply dom_init_graph in He. congruence.
Qed.

Lemma sources_exist_dom nodes edges :
  sources_exist nodes edges <->
  Forall (fun e => source e ∈ dom (init_graph nodes)) edges.
Proof.
  unfold sources_exist. apply Forall_iff. intros e.
  by rewrite dom_init_graph.
Qed.

Lemma query_sources_find_start nodes entry rest :
  query_sources nodes = entry :: rest -> find_start nodes = Some (id entry).
Proof.
  unfold query_sources, find_start.
  induction nodes as [|n nodes IH]; [done|].
  rewrite filter_cons. cbn [List.find].
  destruct (decide (componentType n = "userQuery")) as [Hn|Hn].
  - rewrite bool_decide_eq_true_2 by done. by intros [= -> _].
  - rewrite bool_decide_eq_false_2 by done. done.
Qed.

Lemma query_sources_nil_find_start nodes :
  query_sources nodes = [] -> find_start nodes = None.
Proof.
  unfold query_sources, find_start.
  induction nodes as [|n nodes IH]; [done|].
  rewrite filter_cons. cbn [List.find].
  destruct (decide (componentType n = "userQuery")) as [Hn|Hn]; [done|].
  rewrite bool_decide_eq_false_2 by done. done.
Qed.

Lemma build_execution_order_inv depth nodes edges o :
  build_execution_order depth nodes edges = inr o ->
  exists graph s st,
    add_edges edges (init_graph nodes) = inr graph /\
    find_start nodes = Some s /\ s <> "" /\
    dfs depth graph s dfs_init = inr st /\ o = order st.
Proof.
  unfold build_execution_order. intros Hb.
  destruct (add_edges edges (init_graph nodes)) as [e|graph]; [done|].
  destruct (find_start nodes) as [s|]; [|done].
  destruct (decide (s = "")) as [->|Hs]; [done|].
  rewrite bool_decide_eq_false_2 in Hb by done.
  destruct (dfs depth graph s dfs_init) as [e|st] eqn:Hd; [done|].
  injection Hb as <-. by exists graph, s, st.
Qed.

Lemma dfs_inv_init : dfs_inv dfs_init.
Proof. split; simpl; [constructor|]. intros x. set_solver. Qed.

(** *** The identifier visited next *)

Lemma omap_all_None {A B} (f : A -> option B) (l : list A) :
  (forall x, x ∈ l -> f x = None) -> omap f l = [].
Proof.
  induction l as [|a l IH]; intros Hall; [done|]. simpl.
  rewrite (Hall a) by (apply elem_of_cons; by left).
  apply IH. intros x Hx. apply Hall, elem_of_cons. by right.
Qed.

Lemma next_visit_None edges listed :
  (forall x y, x ∈ listed -> y ∈ successors edges x -> y ∈ listed) ->
  next_visit edges listed = None.
Proof.
  intros Hclosed. unfold next_visit. rewrite omap_all_None; [done|].
  intros x Hx. apply first_fresh_None. intros y Hy.
  apply (Hclosed x); [|done]. by rewrite <- elem_of_reverse.
Qed.

Lemma next_visit_discovered graph edges o i y :
  (forall x, adj graph x = successors edges x) ->
  discovered_from graph o 0 i y ->
  next_visit edges (take (S i) o) = Some y.
Proof.
  intros Hadj (j & x & Hj & Hx & Hy & Hex). unfold next_visit.
  set (listed := take (S i) o) in *.
  set (f := fun x => first_fresh listed (successors edges x)).
  assert (Hjx : listed !! j = Some x).
  { unfold listed. rewrite lookup_take_lt by lia. done. }
  assert (Hsplit : reverse listed
                   = reverse (drop (S j) listed) ++ x :: reverse (take j listed)).
  { rewrite <- (take_drop_middle _ _ _ Hjx) at 1.
    by rewrite reverse_app, reverse_cons, <- app_assoc. }
  rewrite Hsplit, omap_app, omap_all_None.
  - simpl. unfold f at 1. rewrite <- Hadj. by rewrite Hy.
  - intros z Hz. rewrite elem_of_reverse in Hz.
    apply list_elem_of_lookup in Hz as [k Hk].
    rewrite lookup_drop in Hk. unfold f. rewrite <- Hadj.
    assert (Hlt : S j + k < S i).
    { apply lookup_lt_Some in Hk. unfold listed in Hk.
      rewrite length_take in Hk. lia. }
    unfold listed in Hk. rewrite lookup_take_lt in Hk by done.
    apply (Hex (S j + k) z); [lia|done].
Qed.

(** An entry and the rule for the next identifier leave one list only. *)
Lemma traversal_order_unique edges s o o' :
  head o = Some s -> head o' = Some s ->
  (forall i, o !! S i = next_visit edges (take (S i) o)) ->
  (forall i, o' !! S i = next_visit edges (take (S i) o')) ->
  o = o'.
Proof.
  intros Hh Hh' Hnext Hnext'.
  assert (Htake : forall n, take n o = take n o').
  { induction n as [|n IH]; [done|].
    assert (Hstep : forall l : list string,
               take (S n) l = take n l ++ option_list (l !! n)).
    { intros l. destruct (l !! n) as [x|] eqn:Hx.
      - by apply take_S_r.
      - simpl. rewrite app_nil_r.
        apply lookup_ge_None in Hx. by rewrite !take_ge by lia. }
    rewrite !Hstep, IH. f_equal. f_equal.
    destruct n as [|n].
    - destruct o, o'; simpl in *; congruence.
    - by rewrite Hnext, Hnext', IH. }
  transitivity (take (length o `max` length o') o).
  - symmetry. apply take_ge. lia.
  - rewrite Htake. apply take_ge. lia.
Qed.

(** Whenever the resolver returns an order, the graph has an entry node
    with a non-empty identifier, the order starts with it, has no
    duplicate and lists exactly the identifiers reachable from it.  It is
    a depth-first order with successors taken in edge-list order: after
    each node comes its first successor that is not listed yet, and in
    general the identifier at every later position is the one that
    [next_visit] gives for the identifiers before it. *)
Theorem resolver_order_sound depth nodes edges o :
  build_execution_order depth nodes edges = inr o ->
  exists s,
    find_start nodes = Some s /\ s <> "" /\
    head o = Some s /\ NoDup o /\
    (forall x, x ∈ o <-> reachable edges s x) /\
    (forall i x y,
        o !! i = Some x ->
        first_fresh (take (S i) o) (successors edges x) = Some y ->
        o !! S i = Some y) /\
    (forall i, o !! S i = next_visit edges (take (S i) o)).
Proof.
  intros Hb.
  destruct (build_execution_order_inv _ _ _ _ Hb)
    as (graph & s & st & Hadd & Hfs & Hs & Hd & ->).
  pose proof (graph_adj _ _ _ Hadd) as Hadj.
  apply dfs_sound in Hd; [|apply dfs_inv_init].
  destruct Hd as (_ & [Hnd Hv] & new & Ho & Hroot & Hreach & Hcl & Hh
                  & Hnext & Hback).
  simpl in Ho, Hnext. change (length (order dfs_init)) with 0 in Hback.
  subst new.
  assert (Hhead : head (order st) = Some s).
  { rewrite Hh. change (order dfs_init) with (@nil string).
    rewrite first_fresh_cons.
    destruct (decide (s ∈ [])) as [Hin|]; [|done]. by apply elem_of_nil in Hin. }
  exists s. split; [done|]. split; [done|]. split; [done|].
  split; [done|]. split.
  { intros x. split.
    - intros Hx. destruct (Hreach x Hx) as (r & Hr & Hrx).
      apply list_elem_of_singleton in Hr as ->.
      eapply rtc_subrel; [|exact Hrx].
      intros a b Hab. simpl in Hab. rewrite Hadj in Hab.
      by apply elem_of_successors.
    - assert (Hclosed : forall a b, reachable edges a b ->
                                    a ∈ order st -> b ∈ order st).
      { intros a b Hab. induction Hab as [a|a b c Hab Hbc IH]; [done|].
        intros Ha. apply IH. apply Hv. eapply Hcl; [exact Ha|].
        rewrite Hadj. by apply elem_of_successors. }
      intros Hx. apply (Hclosed s x Hx).
      apply Hv, Hroot, list_elem_of_singleton. done. }
  split.
  { intros i x y Hx Hy. eapply Hnext; [lia|done|]. by rewrite Hadj. }
  intros i. destruct (order st !! S i) as [y|] eqn:Hy.
  - symmetry.
    destruct (Hback i y ltac:(lia) Hy) as [Hd|[Hfresh _]].
    + by eapply next_visit_discovered.
    + apply first_fresh_Some in Hfresh as [Hin Hnot].
      apply list_elem_of_singleton in Hin as ->. destruct Hnot.
      destruct (order st) as [|a rest]; [done|]. simpl in Hhead.
      injection Hhead as ->. simpl. apply elem_of_cons. by left.
  - symmetry. apply lookup_ge_None in Hy. rewrite take_ge by lia.
    apply next_visit_None. intros x y Hx Hxy. apply Hv.
    apply (Hcl x); [done|]. by rewrite Hadj.
Qed.

(** With an entry node and edges that leave existing nodes, the resolver
    returns an order once the interpreter allows [enough_depth] nested
    calls. *)
Theorem resolver_returns depth nodes edges s :
  sources_exist nodes edges ->
  find_start nodes = Some s -> s <> "" ->
  enough_depth edges <= depth ->
  exists o, build_execution_order depth nodes edges = inr o.
Proof.
  intros Hsrc Hfs Hs Hdepth. unfold build_execution_order.
  apply sources_exist_dom, add_edges_total in Hsrc as [graph Hadd].
  rewrite Hadd, Hfs. rewrite bool_decide_eq_false_2 by done.
  pose proof (graph_adj _ _ _ Hadd) as Hadj.
  set (U := ({[s]} ∪ list_to_set (target <$> edges) : gset string)).
  destruct (dfs_total graph U) with (depth := depth) (n := s) (st := dfs_init)
    as (st & Hrun & _).
  - intros x y Hy. rewrite Hadj in Hy.
    apply elem_of_successors in Hy as (e & He & _ & <-).
    apply elem_of_union. right. apply elem_of_list_to_set.
    by apply list_elem_of_fmap_2.
  - set_solver.
  - simpl. set_solver.
  - assert (size (U ∖ visited dfs_init) <= size U) by (apply subseteq_size; set_solver).
    assert (size U <= 1 + length edges).
    { unfold U. rewrite size_union_alt, size_singleton.
      assert (size (list_to_set (target <$> edges) ∖ {[s]} : gset string)
              <= size (list_to_set (target <$> edges) : gset string))
        by (apply subseteq_size; set_solver).
      pose proof (size_list_to_set_le (target <$> edges)) as Hle.
      rewrite length_fmap in Hle. lia. }
    unfold enough_depth in Hdepth. lia.
  - rewrite Hrun. eauto.
Qed.

(** Without a query-source node the resolver raises the missing-entry
    error, whatever the recursion limit. *)
Theorem resolver_no_entry depth nodes edges :
  sources_exist nodes edges -> find_start nodes = None ->
  build_execution_order depth nodes edges = inl MissingEntryNodeError.
Proof.
  intros Hsrc Hfs. unfold build_execution_order.
  apply sources_exist_dom, add_edges_total in Hsrc as [graph Hadd].
  by rewrite Hadd, Hfs.
Qed.

(** The recursion limit only decides whether the traversal is cut short
    by [RecursionError], never what it returns or which other exception
    is raised. *)
Theorem build_execution_order_depth_mono depth depth' nodes edges outcome :
  build_execution_order depth nodes edges = outcome ->
  outcome <> inl RecursionError ->
  depth <= depth' ->
  build_execution_order depth' nodes edges = outcome.
Proof.
  unfold build_execution_order. intros Hb Hout Hle.
  destruct (add_edges edges (init_graph nodes)) as [e|graph]; [done|].
  destruct (find_start nodes) as [s|]; [|done].
  destruct (bool_decide (s = "")); [done|].
  destruct (dfs depth graph s dfs_init) as [e|st] eqn:Hd.
  - apply dfs_raises in Hd as ->. by subst.
  - by rewrite (dfs_depth_mono _ _ _ _ _ _ Hd Hle).
Qed.

(** On a graph with an entry node and edges that leave existing nodes,
    the traversal is the only part of the resolver that can raise, and
    [RecursionError] is all it raises. *)
Theorem resolver_raises depth nodes edges s e :
  sources_exist nodes edges ->
  find_start nodes = Some s -> s <> "" ->
  build_execution_order depth nodes edges = inl e ->
  e = RecursionError.
Proof.
  intros Hsrc Hfs Hs. unfold build_execution_order.
  apply sources_exist_dom, add_edges_total in Hsrc as [graph Hadd].
  rewrite Hadd, Hfs. rewrite bool_decide_eq_false_2 by done.
  destruct (dfs depth graph s dfs_init) as [e'|st] eqn:Hd; [|done].
  intros [= <-]. by eapply dfs_raises.
Qed.

(** *** Chains deeper than the recursion limit *)

Lemma successors_chain_edges_fresh x xs z :
  z <> x -> z ∉ xs -> successors (chain_edges x xs) z = [].
Proof.
  revert x. induction xs as [|y rest IH]; intros x Hx Hxs; [done|].
  cbn [chain_edges]. rewrite successors_cons. simpl.
  destruct (decide (x = z)) as [->|_]; [done|].
  apply IH.
  - intros ->. apply Hxs, elem_of_cons. by left.
  - intros Hin. apply Hxs, elem_of_cons. by right.
Qed.

Lemma successors_chain_edges_head x y rest :
  NoDup (x :: y :: rest) ->
  successors (chain_edges x (y :: rest)) x = [y].
Proof.
  intros Hnd. cbn [chain_edges]. rewrite successors_cons. simpl.
  destruct (decide (x = x)) as [_|]; [|done]. f_equal.
  apply NoDup_cons in Hnd as [Hx Hnd]. apply NoDup_cons in Hnd as [Hy _].
  apply successors_chain_edges_fresh.
  - intros ->. apply Hx, elem_of_cons. by left.
  - intros Hin. apply Hx, elem_of_cons. by right.
Qed.

Lemma successors_chain_edges_tail x y rest z :
  z <> x ->
  successors (chain_edges x (y :: rest)) z
  = successors (chain_edges y rest) z.
Proof.
  intros Hz. cbn [chain_edges]. rewrite successors_cons. simpl.
  by destruct (decide (x = z)) as [->|_].
Qed.

(** Along a chain of unvisited identifiers the traversal nests one call
    per identifier: it raises when the chain is longer than the number of
    calls allowed. *)
Lemma dfs_chain_raises graph : forall xs x depth st,
  (forall z, z ∈ x :: xs ->
     adj graph z = successors (chain_edges x xs) z) ->
  NoDup (x :: xs) ->
  (forall z, z ∈ x :: xs -> z ∉ visited st) ->
  depth < length (x :: xs) ->
  dfs depth graph x st = inl RecursionError.
Proof.
  induction xs as [|y rest IH]; intros x depth st Hadj Hnd Hfresh Hdepth.
  - simpl in Hdepth. by replace depth with 0 by lia.
  - destruct depth as [|depth]; [done|]. cbn [dfs].
    destruct (decide (x ∈ visited st)) as [Hx|_].
    { destruct (Hfresh x); [apply elem_of_cons; by left|done]. }
    change (default [] (graph !! x)) with (adj graph x).
    rewrite Hadj by (apply elem_of_cons; by left).
    rewrite successors_chain_edges_head by done. cbn [for_neighbors].
    apply NoDup_cons in Hnd as [Hx Hnd].
    rewrite (IH y depth); [done| |done| |simpl in *; lia].
    + intros z Hz. rewrite Hadj by (apply elem_of_cons; by right).
      apply successors_chain_edges_tail. by intros ->.
    + intros z Hz. simpl. intros Hin.
      apply elem_of_union in Hin as [Hin|Hin].
      * apply elem_of_singleton in Hin as ->. done.
      * apply (Hfresh z); [apply elem_of_cons; by right|done].
Qed.

Lemma sources_exist_chain x xs :
  sources_exist (chain_nodes x xs) (chain_edges x xs).
Proof.
  unfold sources_exist.
  assert (Hgen : forall ys y (nodes : list Node),
             y ∈ id <$> nodes -> (forall z, z ∈ ys -> z ∈ id <$> nodes) ->
             Forall (fun e => source e ∈ id <$> nodes) (chain_edges y ys)).
  { induction ys as [|z ys IH]; intros y nodes Hy Hys; [constructor|].
    cbn [chain_edges]. constructor; [done|].
    apply IH; [apply Hys, elem_of_cons; by left|].
    intros w Hw. apply Hys, elem_of_cons. by right. }
  apply Hgen.
  - unfold chain_nodes. rewrite fmap_cons. apply elem_of_cons. by left.
  - intros z Hz. unfold chain_nodes. rewrite fmap_cons.
    apply elem_of_cons. right. rewrite <- list_fmap_compose.
    apply list_elem_of_fmap. by exists z.
Qed.

(** X28.  The traversal is recursive and nests one call per node of a
    path.  On a chain of distinct identifiers, the first a query-source
    node with a non-empty identifier, the resolver raises
    [RecursionError] when the chain has more nodes than the interpreter
    allows nested calls, and returns an order when the interpreter allows
    two calls more than the chain has edges. *)
Theorem deep_chain_raises_recursion_error depth x xs :
  x <> "" -> NoDup (x :: xs) ->
  (depth < length (x :: xs) ->
   build_execution_order depth (chain_nodes x xs) (chain_edges x xs)
   = inl RecursionError) /\
  (enough_depth (chain_edges x xs) <= depth ->
   exists o,
     build_execution_order depth (chain_nodes x xs) (chain_edges x xs)
     = inr o).
Proof.
  intros Hx Hnd.
  pose proof (sources_exist_chain x xs) as Hsrc.
  assert (Hfs : find_start (chain_nodes x xs) = Some x) by reflexivity.
  split; [|by apply resolver_returns with x].
  intros Hdepth. unfold build_execution_order.
  apply sources_exist_dom, add_edges_total in Hsrc as [graph Hadd].
  rewrite Hadd, Hfs. rewrite bool_decide_eq_false_2 by done.
  rewrite (dfs_chain_raises graph xs x depth dfs_init); [done| |done| |done].
  - intros z _. by apply (graph_adj _ _ _ Hadd).
  - intros z _. simpl. set_solver.
Qed.

Lemma deep_chain_witness :
  "A" <> "" /\ NoDup ["A"; "B"; "C"; "D"] /\
  3 < length ["A"; "B"; "C"; "D"] /\
  build_execution_order 3 (chain_nodes "A" ["B"; "C"; "D"])
    (chain_edges "A" ["B"; "C"; "D"])
  = inl RecursionError.
Proof.
  assert (Hx : "A" <> "") by done.
  assert (Hnd : NoDup ["A"; "B"; "C"; "D"])
    by (apply (bool_decide_unpack (NoDup ["A"; "B"; "C"; "D"]));
        vm_compute; reflexivity).
  assert (Hdepth : 3 < length ["A"; "B"; "C"; "D"]) by (simpl; lia).
  repeat (split; [assumption|]).
  exact (proj1 (deep_chain_raises_recursion_error
                  3 "A" ["B"; "C"; "D"] Hx Hnd) Hdepth).
Defined.

(** ** The orchestrator *)

Section ExecutorFacts.
Context `{Backend}.

Lemma find_node_Some nodes x n :
  List.find (fun n => bool_decide (id n = x)) nodes = Some n ->
  n ∈ nodes /\ id n = x.
Proof.
  intros Hf. apply find_some in Hf as [Hin Hb].
  apply bool_decide_eq_true_1 in Hb. split; [|done].
  by apply list_elem_of_In.
Qed.

Lemma find_node_exists nodes x :
  x ∈ id <$> nodes ->
  exists n, List.find (fun n => bool_decide (id n = x)) nodes = Some n.
Proof.
  intros Hx.
  destruct (List.find (fun n => bool_decide (id n = x)) nodes) as [n|] eqn:Hf;
    [eauto|].
  apply list_elem_of_fmap in Hx as (n & -> & Hn).
  apply list_elem_of_In in Hn.
  pose proof (find_none _ _ Hf n Hn) as Hb. simpl in Hb.
  by rewrite bool_decide_eq_true_2 in Hb.
Qed.

Lemma find_start_Some nodes s :
  find_start nodes = Some s ->
  exists n, n ∈ nodes /\ id n = s /\ componentType n = "userQuery".
Proof.
  unfold find_start. intros Hf.
  destruct (List.find _ nodes) as [n|] eqn:Hn; [|done].
  injection Hf as <-. apply find_some in Hn as [Hin Hb].
  apply bool_decide_eq_true_1 in Hb. exists n.
  split; [by apply list_elem_of_In|done].
Qed.

Lemma order_ids depth nodes edges o :
  build_execution_order depth nodes edges = inr o ->
  targets_exist nodes edges ->
  forall x, x ∈ o -> x ∈ id <$> nodes.
Proof.
  intros Hb Htgt x Hx.
  destruct (resolver_order_sound _ _ _ _ Hb) as (s & Hfs & _ & _ & _ & Hreach & _).
  apply Hreach in Hx.
  apply find_start_Some in Hfs as (n & Hn & <- & _).
  assert (Hs : id n ∈ id <$> nodes) by by apply list_elem_of_fmap_2.
  assert (Hclosed : forall a b, reachable edges a b ->
                                a ∈ id <$> nodes -> b ∈ id <$> nodes).
  { intros a b Hab. induction Hab as [a|a b c Hab Hbc IH]; [done|].
    intros _. apply IH. destruct Hab as (e & He & _ & <-).
    unfold targets_exist in Htgt. rewrite Forall_forall in Htgt. by apply Htgt. }
  by apply (Hclosed _ _ Hx).
Qed.

Lemma execute_node_pass_through nodes cfgs node_id node st m :
  List.find (fun n => bool_decide (id n = node_id)) nodes = Some node ->
  pass_through (componentType node) ->
  execute_node nodes cfgs node_id st m = (inr st, m).
Proof.
  intros Hf [Hkb Hllm]. unfold execute_node. rewrite Hf.
  rewrite (bool_decide_eq_false_2 _ Hkb), (bool_decide_eq_false_2 _ Hllm).
  by repeat case_bool_decide.
Qed.

Lemma run_order_pass_through nodes cfgs o st m :
  (forall x, x ∈ o ->
     exists n, List.find (fun n => bool_decide (id n = x)) nodes = Some n
               /\ pass_through (componentType n)) ->
  run_order nodes cfgs o st m = (inr st, m).
Proof.
  induction o as [|x o IH]; intros Hall; [done|].
  cbn [run_order]. unfold bind at 1.
  destruct (Hall x) as (n & Hf & Hp); [apply elem_of_cons; by left|].
  rewrite (execute_node_pass_through _ _ _ _ _ _ Hf Hp).
  apply IH. intros y Hy. apply Hall, elem_of_cons. by right.
Qed.

End ExecutorFacts.

(** ** The claims about the orchestrator *)

Section Claims.
Context `{Backend}.

Lemma run_order_app nodes cfgs pre post st m :
  run_order nodes cfgs (pre ++ post) st m
  = match run_order nodes cfgs pre st m with
    | (inl e, m') => (inl e, m')
    | (inr st', m') => run_order nodes cfgs post st' m'
    end.
Proof.
  revert st m. induction pre as [|x pre IH]; intros st m; [done|].
  rewrite <- app_comm_cons. cbn [run_order]. unfold bind.
  destruct (execute_node nodes cfgs x st m) as [[e|st'] m']; [done|].
  apply IH.
Qed.

Lemma execute_node_llm nodes cfgs node_id node st :
  List.find (fun n => bool_decide (id n = node_id)) nodes = Some node ->
  componentType node = "llmEngine" ->
  execute_node nodes cfgs node_id st
  = let config := default ∅ (cfgs !! node_id) in
    let* llm_response := generate_response
          (st_query st) (st_context st)
          (config_get config "systemPrompt" VNone)
          (config_get config "provider" (VStr "openai"))
          (config_get config "model" (VStr "gpt-4"))
          (config_get config "temperature" (VNum (7 # 10)%Q))
          (config_get config "enableWebSearch" (VBool false))
          (config_get config "searchProvider" (VStr "serpapi")) in
    ret (set_metadata (set_response st (r_response llm_response))
           (mkMetadata (r_model llm_response) (r_web_context llm_response))).
Proof.
  intros Hf Ht. unfold execute_node. rewrite Hf, Ht. done.
Qed.

Lemma execute_node_kb nodes cfgs node_id node st :
  List.find (fun n => bool_decide (id n = node_id)) nodes = Some node ->
  componentType node = "knowledgeBase" ->
  execute_node nodes cfgs node_id st
  = let config := default ∅ (cfgs !! node_id) in
    try_except
      (let* results := query_collection
                         (config_get config "collectionName" (VStr "default"))
                         (st_query st)
                         (config_get config "embeddingModel" (VStr "openai"))
                         3 in
       ret (set_context st (Some (join_blank_line (content <$> results)))))
      (ret (set_context st None)).
Proof.
  intros Hf Ht. unfold execute_node. rewrite Hf, Ht. done.
Qed.

(** C2 (amended).  On a graph without a query-source node
    [execute_workflow] fails and leaves the machine as it found it: no
    collaborator is called and no node is executed.  The failure is the
    missing-entry error when every edge leaves an existing node, and
    otherwise the [KeyError] of the first edge, in edge-list order, whose
    source is no node. *)
Theorem no_entry_node_fails_before_any_call depth query nodes edges cfgs m :
  query_sources nodes = [] ->
  (exists e, execute_workflow depth query nodes edges cfgs m = (inl e, m)) /\
  (sources_exist nodes edges ->
   execute_workflow depth query nodes edges cfgs m
   = (inl MissingEntryNodeError, m)) /\
  (forall good edge rest,
     edges = good ++ edge :: rest ->
     sources_exist nodes good ->
     source edge ∉ id <$> nodes ->
     execute_workflow depth query nodes edges cfgs m
     = (inl (KeyError (source edge)), m)).
Proof.
  intros Hq. apply query_sources_nil_find_start in Hq.
  assert (Hwf : sources_exist nodes edges ->
                execute_workflow depth query nodes edges cfgs m
                = (inl MissingEntryNodeError, m)).
  { intros Hsrc. unfold execute_workflow.
    by rewrite (resolver_no_entry _ _ _ Hsrc Hq). }
  split; [|split; [done|]].
  - destruct (decide (sources_exist nodes edges)) as [Hsrc|Hsrc]; [eauto|].
    unfold execute_workflow, build_execution_order.
    destruct (add_edges_raises edges (init_graph nodes)) as [k ->]; [|eauto].
    by rewrite <- sources_exist_dom.
  - intros good edge rest -> Hgood Hbad.
    unfold execute_workflow, build_execution_order.
    rewrite add_edges_first_missing; [done| |].
    + by apply sources_exist_dom.
    + by rewrite dom_init_graph.
Qed.

(** When neither model API answers, [generate_response] raises, with or
    without a preceding web search. *)
Lemma generation_api_failure_surfaces query context system_prompt provider
    model temperature enable_web_search search_provider m :
  (forall mo ms t w, exists e w', openai_chat_create mo ms t w = (inl e, w')) ->
  (forall mo p w, exists e w', gemini_generate_content mo p w = (inl e, w')) ->
  exists e m',
    generate_response query context system_prompt provider model temperature
      enable_web_search search_provider m = (inl e, m').
Proof.
  intros Hopenai Hgemini. unfold generate_response.
  assert (Hgen : forall web prompt m0, exists e m',
    (if eq_str provider "openai"
     then
       (let* response :=
          call (EvOpenAIChat model
                  ((if truthy system_prompt
                    then [mkMessage "system" system_prompt] else [])
                   ++ [mkMessage "user" (VStr prompt)]) temperature)
               (openai_chat_create model
                  ((if truthy system_prompt
                    then [mkMessage "system" system_prompt] else [])
                   ++ [mkMessage "user" (VStr prompt)]) temperature) in
        ret (mkLLMResponse response model web))
     else
       (let* response :=
          call (EvGeminiGenerate model prompt)
               (gemini_generate_content model prompt) in
        ret (mkLLMResponse response model web))) m0 = (inl e, m')).
  { intros web prompt m0. destruct (eq_str provider "openai");
      unfold bind, call.
    - destruct (Hopenai model
                  ((if truthy system_prompt
                    then [mkMessage "system" system_prompt] else [])
                   ++ [mkMessage "user" (VStr prompt)]) temperature
                  (world m0)) as (e & w' & ->). eauto.
    - destruct (Hgemini model prompt (world m0)) as (e & w' & ->). eauto. }
  destruct (truthy enable_web_search).
  - unfold bind at 1. unfold web_search, bind at 1. unfold call at 1.
    destruct (web_search_http query search_provider (world m))
      as [[e|results] w']; [eauto|].
    unfold ret at 1. apply Hgen.
  - unfold bind at 1. unfold ret at 1. apply Hgen.
Qed.

(** C3.  When the nodes before a generation node have run and the
    generation call of that node raises [e], [execute_workflow] ends with
    [e] on the machine left by the failed call: whatever nodes [post]
    follow in the order, none of them runs and no state is returned. *)
Theorem generation_failure_aborts_run depth query nodes edges cfgs m
    pre node_id post node st1 m1 e m2 :
  build_execution_order depth nodes edges = inr (pre ++ node_id :: post) ->
  run_order nodes cfgs pre (initial_state query) m = (inr st1, m1) ->
  List.find (fun n => bool_decide (id n = node_id)) nodes = Some node ->
  componentType node = "llmEngine" ->
  generate_response (st_query st1) (st_context st1)
    (config_get (default ∅ (cfgs !! node_id)) "systemPrompt" VNone)
    (config_get (default ∅ (cfgs !! node_id)) "provider" (VStr "openai"))
    (config_get (default ∅ (cfgs !! node_id)) "model" (VStr "gpt-4"))
    (config_get (default ∅ (cfgs !! node_id)) "temperature" (VNum (7 # 10)%Q))
    (config_get (default ∅ (cfgs !! node_id)) "enableWebSearch" (VBool false))
    (config_get (default ∅ (cfgs !! node_id)) "searchProvider" (VStr "serpapi"))
    m1 = (inl e, m2) ->
  execute_workflow depth query nodes edges cfgs m = (inl e, m2).
Proof.
  intros Hord Hpre Hf Ht Hgen. unfold execute_workflow. rewrite Hord.
  rewrite run_order_app, Hpre. cbn [run_order]. unfold bind at 1.
  rewrite (execute_node_llm _ _ _ _ _ Hf Ht). cbn zeta. unfold bind at 1.
  by rewrite Hgen.
Qed.

(** C4.  When the retrieval call of a knowledge-retrieval node raises,
    the step itself succeeds with [context] set to [None]; the run goes on
    with the remaining nodes; and the next generation node, reached
    directly or through nodes that do nothing, is called with an absent
    context. *)
Theorem retrieval_failure_is_absorbed nodes cfgs node_id node st m e m1 :
  List.find (fun n => bool_decide (id n = node_id)) nodes = Some node ->
  componentType node = "knowledgeBase" ->
  query_collection
    (config_get (default ∅ (cfgs !! node_id)) "collectionName" (VStr "default"))
    (st_query st)
    (config_get (default ∅ (cfgs !! node_id)) "embeddingModel" (VStr "openai"))
    3 m = (inl e, m1) ->
  execute_node nodes cfgs node_id st m = (inr (set_context st None), m1) /\
  (forall rest,
     run_order nodes cfgs (node_id :: rest) st m
     = run_order nodes cfgs rest (set_context st None) m1) /\
  (forall mid llm_id llm_node rest,
     (forall x, x ∈ mid ->
        exists n, List.find (fun n => bool_decide (id n = x)) nodes = Some n
                  /\ pass_through (componentType n)) ->
     List.find (fun n => bool_decide (id n = llm_id)) nodes = Some llm_node ->
     componentType llm_node = "llmEngine" ->
     run_order nodes cfgs (node_id :: mid ++ llm_id :: rest) st m
     = (let* llm_response := generate_response (st_query st) None
          (config_get (default ∅ (cfgs !! llm_id)) "systemPrompt" VNone)
          (config_get (default ∅ (cfgs !! llm_id)) "provider" (VStr "openai"))
          (config_get (default ∅ (cfgs !! llm_id)) "model" (VStr "gpt-4"))
          (config_get (default ∅ (cfgs !! llm_id)) "temperature" (VNum (7 # 10)%Q))
          (config_get (default ∅ (cfgs !! llm_id)) "enableWebSearch" (VBool false))
          (config_get (default ∅ (cfgs !! llm_id)) "searchProvider" (VStr "serpapi")) in
        run_order nodes cfgs rest
          (set_metadata (set_response (set_context st None) (r_response llm_response))
             (mkMetadata (r_model llm_response) (r_web_context llm_response))))
       m1).
Proof.
  intros Hf Ht Hq.
  assert (Hstep : execute_node nodes cfgs node_id st m
                  = (inr (set_context st None), m1)).
  { rewrite (execute_node_kb _ _ _ _ _ Hf Ht). cbn zeta.
    unfold try_except, bind. by rewrite Hq. }
  assert (Hrun : forall rest,
             run_order nodes cfgs (node_id :: rest) st m
             = run_order nodes cfgs rest (set_context st None) m1).
  { intros rest. cbn [run_order]. unfold bind at 1. by rewrite Hstep. }
  split; [done|]. split; [done|].
  intros mid llm_id llm_node rest Hmid Hfl Htl.
  rewrite Hrun, run_order_app, (run_order_pass_through _ _ _ _ _ Hmid).
  cbn [run_order].
  rewrite (execute_node_llm _ _ _ _ _ Hfl Htl). cbn zeta.
  unfold bind. simpl st_query. simpl st_context.
  destruct (generate_response _ _ _ _ _ _ _ _ m1) as [[e'|r] m2]; done.
Qed.

(** *** Calls made by a retrieval *)
Lemma get_gemini_embeddings_one text m :
  exists r w,
    get_gemini_embeddings [text] m
    = (r, mkMachine w
            (trace m ++ [EvGeminiEmbedContent "models/embedding-001" text
                           "retrieval_document"])).
Proof.
  cbn [get_gemini_embeddings]. unfold bind, call, ret.
  destruct (genai_embed_content _ _ _ (world m)) as [[e|emb] w]; eauto.
Qed.

Lemma query_collection_trace name query_text embedding_model n_results m :
  exists evs,
    trace (query_collection name query_text embedding_model n_results m).2
    = trace m ++ EvGetCollection name :: evs /\
    Forall (retrieval_event query_text n_results) evs.
Proof.
  unfold query_collection. unfold bind at 1. unfold call at 1.
  destruct (chroma_get_collection name (world m)) as [[e|coll] w1];
    [exists []; split; [done|constructor]|].
  unfold bind at 1.
  set (m1 := mkMachine w1 (trace m ++ [EvGetCollection name])).
  assert (Hemb : exists r w ev,
    (if eq_str embedding_model "openai"
     then (let* embeddings := get_openai_embeddings [query_text] in
           index0 embeddings)
     else (let* embeddings := get_gemini_embeddings [query_text] in
           index0 embeddings)) m1
    = (r, mkMachine w (trace m1 ++ [ev])) /\
    retrieval_event query_text n_results ev).
  { destruct (eq_str embedding_model "openai").
    - unfold bind, get_openai_embeddings, call.
      destruct (openai_embeddings_create _ _ (world m1)) as [[e|[|emb embs]] w];
        do 3 eexists; (split; [reflexivity|]); by left.
    - destruct (get_gemini_embeddings_one query_text m1) as (r & w & Hg).
      unfold bind. rewrite Hg.
      destruct r as [e|[|emb embs]];
        do 3 eexists; (split; [reflexivity|]); right; by left. }
  destruct Hemb as (r & w2 & ev & -> & Hev).
  destruct r as [e|emb].
  { exists [ev]. simpl. rewrite <- app_assoc. split; [done|].
    by constructor. }
  unfold bind at 1. unfold call at 1. simpl world. simpl trace.
  destruct (collection_query coll [emb] n_results w2) as [[e|[docs dists]] w3].
  { exists [ev; EvCollectionQuery n_results]. simpl.
    rewrite <- !app_assoc. split; [done|].
    constructor; [done|]. constructor; [right; by right|constructor]. }
  exists [ev; EvCollectionQuery n_results].
  split.
  - unfold bind, index0, ret, raise. simpl.
    destruct docs, dists; simpl; by rewrite <- !app_assoc.
  - constructor; [done|]. constructor; [right; by right|constructor].
Qed.

(** C7.  A knowledge-retrieval node asks for the collection named in
    its configuration, ["default"] when the name is omitted, embeds with
    the configured model, ["openai"] when omitted, queries the collection
    for 3 results and for no other number, and on success returns the
    state with the chunk contents, joined with a blank line, as its
    context and with its other fields as they were. *)
Theorem retrieval_node_contract nodes cfgs node_id node st m :
  List.find (fun n => bool_decide (id n = node_id)) nodes = Some node ->
  componentType node = "knowledgeBase" ->
  let config := default ∅ (cfgs !! node_id) in
  let name := config_get config "collectionName" (VStr "default") in
  let model := config_get config "embeddingModel" (VStr "openai") in
  (config !! "collectionName" = None -> name = VStr "default") /\
  (config !! "embeddingModel" = None -> model = VStr "openai") /\
  (exists evs,
     trace (execute_node nodes cfgs node_id st m).2
     = trace m ++ EvGetCollection name :: evs /\
     forall k, EvCollectionQuery k ∈ evs -> k = 3) /\
  (forall results m',
     query_collection name (st_query st) model 3 m = (inr results, m') ->
     execute_node nodes cfgs node_id st m
     = (inr (mkState (st_query st)
               (Some (String.concat (LF +:+ LF) (content <$> results)))
               (st_response st) (st_metadata st)), m')).
Proof.
  intros Hf Ht config name model.
  split; [intros Hc; unfold name, config_get; by rewrite Hc|].
  split; [intros Hc; unfold model, config_get; by rewrite Hc|].
  rewrite (execute_node_kb _ _ _ _ _ Hf Ht). cbn zeta.
  fold config. fold name. fold model.
  split.
  - destruct (query_collection_trace name (st_query st) model 3 m)
      as (evs & Htr & Hevs).
    exists evs. split.
    + unfold try_except, bind, ret.
      destruct (query_collection name (st_query st) model 3 m) as [[e|r] m'];
        exact Htr.
    + intros k Hk. rewrite Forall_forall in Hevs.
      destruct (Hevs _ Hk) as [Hk'|[Hk'|Hk']]; congruence.
  - intros results m' Hq. unfold try_except, bind, ret. by rewrite Hq.
Qed.

(** *** Prompt construction *)
Lemma sent_prompt_openai model messages prompt temperature :
  sent_prompt (EvOpenAIChat model (messages ++ [mkMessage "user" (VStr prompt)])
                 temperature) = Some prompt.
Proof. simpl. by rewrite last_snoc. Qed.

Lemma base_prompt_spec query context :
  (if truthy_str context
   then "Context:" +:+ LF +:+ format_str context +:+ LF +:+ LF
        +:+ "Question: " +:+ query
   else query)
  = spec_prompt query (nonempty_context context) None.
Proof.
  destruct context as [c|]; [|done]. simpl.
  destruct (decide (c = "")) as [->|Hc]; [done|].
  by rewrite !bool_decide_eq_false_2.
Qed.

(** C6 (amended).  The prompt handed to the model is the context
    template when the context is a non-empty string and the query alone
    when the context is absent or empty; with web search enabled and
    answered, the search template is put ahead of that prompt.  Unless
    the context is the empty string this is the prompt as the
    specification words it. *)
Theorem generation_prompt_templates query context system_prompt provider
    model temperature enable_web_search search_provider m :
  (truthy enable_web_search = false ->
   exists ev,
     trace (generate_response query context system_prompt provider model
              temperature enable_web_search search_provider m).2
     = trace m ++ [ev] /\
     sent_prompt ev = Some (spec_prompt query (nonempty_context context) None)) /\
  (forall results w',
     truthy enable_web_search = true ->
     web_search_http query search_provider (world m) = (inr results, w') ->
     exists ev,
       trace (generate_response query context system_prompt provider model
                temperature enable_web_search search_provider m).2
       = trace m ++ [EvWebSearch query search_provider; ev] /\
       sent_prompt ev
       = Some (spec_prompt query (nonempty_context context) (Some results))) /\
  (context <> Some "" ->
   forall web, spec_prompt query (nonempty_context context) web
               = spec_prompt query context web).
Proof.
  split; [|split].
  - intros Hweb. unfold generate_response. rewrite Hweb.
    rewrite base_prompt_spec. unfold bind at 1. unfold ret at 1.
    destruct (eq_str provider "openai").
    + eexists. unfold bind, call.
      destruct (openai_chat_create _ _ _ (world m)) as [[e|r] w];
        (split; [reflexivity|apply sent_prompt_openai]).
    + eexists. unfold bind, call.
      destruct (gemini_generate_content _ _ (world m)) as [[e|r] w];
        (split; [reflexivity|done]).
  - intros results w' Hweb Hsearch. unfold generate_response. rewrite Hweb.
    rewrite base_prompt_spec. unfold bind at 1. unfold web_search, bind at 1.
    unfold call at 1. rewrite Hsearch. unfold ret at 1.
    destruct (eq_str provider "openai").
    + eexists. unfold bind, call. simpl world. simpl trace.
      destruct (openai_chat_create _ _ _ w') as [[e|r] w];
        (split; [simpl; by rewrite <- app_assoc|apply sent_prompt_openai]).
    + eexists. unfold bind, call. simpl world. simpl trace.
      destruct (gemini_generate_content _ _ w') as [[e|r] w];
        (split; [simpl; by rewrite <- app_assoc|done]).
  - intros Hc web. destruct context as [c|]; [|done]. simpl.
    rewrite bool_decide_eq_false_2; [done|]. congruence.
Qed.


(** *** What a step can change *)
Lemma execute_node_query nodes cfgs node_id st m st' m' :
  execute_node nodes cfgs node_id st m = (inr st', m') ->
  st_query st' = st_query st.
Proof.
  unfold execute_node.
  destruct (List.find _ nodes) as [node|]; [|done].
  repeat case_bool_decide; unfold ret, try_except, bind;
    try (intros [= <- _]; done).
  - destruct (query_collection _ _ _ _ m) as [[e|r] m1]; by intros [= <- _].
  - destruct (generate_response _ _ _ _ _ _ _ _ m) as [[e|r] m1];
      [done|by intros [= <- _]].
Qed.

Lemma execute_node_not_generation nodes cfgs node_id st m st' m' :
  not_generation nodes node_id ->
  execute_node nodes cfgs node_id st m = (inr st', m') ->
  st_response st' = st_response st /\ st_metadata st' = st_metadata st.
Proof.
  unfold execute_node, not_generation. intros Hng.
  destruct (List.find _ nodes) as [node|]; [|done].
  specialize (Hng node eq_refl).
  rewrite (bool_decide_eq_false_2 _ Hng).
  repeat case_bool_decide; unfold ret, try_except, bind;
    try (intros [= <- _]; done).
  destruct (query_collection _ _ _ _ m) as [[e|r] m1]; by intros [= <- _].
Qed.

Lemma run_order_query nodes cfgs o : forall st m st' m',
  run_order nodes cfgs o st m = (inr st', m') -> st_query st' = st_query st.
Proof.
  induction o as [|x o IH]; intros st m st' m' Hrun.
  - by injection Hrun as <- _.
  - cbn [run_order] in Hrun. unfold bind in Hrun.
    destruct (execute_node nodes cfgs x st m) as [[e|s1] m1] eqn:Hx; [done|].
    rewrite (IH _ _ _ _ Hrun). by eapply execute_node_query.
Qed.

Lemma run_order_not_generation nodes cfgs o : forall st m st' m',
  (forall x, x ∈ o -> not_generation nodes x) ->
  run_order nodes cfgs o st m = (inr st', m') ->
  st_response st' = st_response st /\ st_metadata st' = st_metadata st.
Proof.
  induction o as [|x o IH]; intros st m st' m' Hng Hrun.
  - by injection Hrun as <- _.
  - cbn [run_order] in Hrun. unfold bind in Hrun.
    destruct (execute_node nodes cfgs x st m) as [[e|s1] m1] eqn:Hx; [done|].
    apply execute_node_not_generation in Hx as [<- <-];
      [|apply Hng, elem_of_cons; by left].
    eapply IH; [|exact Hrun]. intros y Hy. apply Hng, elem_of_cons. by right.
Qed.

Lemma generate_response_result query context system_prompt provider model
    temperature enable_web_search search_provider m r m' :
  generate_response query context system_prompt provider model temperature
    enable_web_search search_provider m = (inr r, m') ->
  r_model r = model /\
  (truthy enable_web_search = false -> r_web_context r = None) /\
  (truthy enable_web_search = true ->
   exists results w',
     web_search_http query search_provider (world m) = (inr results, w') /\
     r_web_context r = Some results).
Proof.
  unfold generate_response.
  destruct (truthy enable_web_search).
  - unfold bind at 1. unfold web_search, bind at 1. unfold call at 1.
    destruct (web_search_http query search_provider (world m))
      as [[e|results] w'] eqn:Hs; [done|].
    unfold ret at 1.
    destruct (eq_str provider "openai"); unfold bind, call, ret;
      match goal with |- context [?f (world ?x)] =>
        destruct (f (world x)) as [[e|resp] w] end;
      try done; intros [= <- _]; simpl; (split; [done|]); (split; [done|]);
      intros _; eauto.
  - unfold bind at 1. unfold ret at 1.
    destruct (eq_str provider "openai"); unfold bind, call, ret;
      match goal with |- context [?f (world ?x)] =>
        destruct (f (world x)) as [[e|resp] w] end;
      try done; intros [= <- _]; simpl; (split; [done|]); (split; [done|]);
      done.
Qed.

(** C8 (amended).  The value returned by [execute_workflow] is the
    final state itself: it carries the query it was given, the context
    and the response, and carries metadata only when a generation node
    ran.  Without a generation node in the order, response and metadata
    are absent.  After the last generation node of the order, the
    response is the generated text and the metadata holds the model
    identifier passed to the model and the web-search text, absent when
    web search was disabled. *)
Theorem returned_state_contents depth query nodes edges cfgs m o st m' :
  build_execution_order depth nodes edges = inr o ->
  execute_workflow depth query nodes edges cfgs m = (inr st, m') ->
  st_query st = query /\
  (exists metadata_key,
     state_keys st = ["query"; "context"; "response"] ++ metadata_key) /\
  ((forall x, x ∈ o -> not_generation nodes x) ->
   st_response st = None /\ st_metadata st = None /\
   state_keys st = ["query"; "context"; "response"]) /\
  (forall pre node_id post node st1 m1 r m2,
     o = pre ++ node_id :: post ->
     List.find (fun n => bool_decide (id n = node_id)) nodes = Some node ->
     componentType node = "llmEngine" ->
     (forall x, x ∈ post -> not_generation nodes x) ->
     run_order nodes cfgs pre (initial_state query) m = (inr st1, m1) ->
     generate_response (st_query st1) (st_context st1)
       (config_get (default ∅ (cfgs !! node_id)) "systemPrompt" VNone)
       (config_get (default ∅ (cfgs !! node_id)) "provider" (VStr "openai"))
       (config_get (default ∅ (cfgs !! node_id)) "model" (VStr "gpt-4"))
       (config_get (default ∅ (cfgs !! node_id)) "temperature" (VNum (7 # 10)%Q))
       (config_get (default ∅ (cfgs !! node_id)) "enableWebSearch" (VBool false))
       (config_get (default ∅ (cfgs !! node_id)) "searchProvider" (VStr "serpapi"))
       m1 = (inr r, m2) ->
     st_response st = Some (r_response r) /\
     st_metadata st
     = Some (mkMetadata
               (config_get (default ∅ (cfgs !! node_id)) "model" (VStr "gpt-4"))
               (r_web_context r)) /\
     state_keys st = ["query"; "context"; "response"; "metadata"] /\
     (truthy (config_get (default ∅ (cfgs !! node_id)) "enableWebSearch"
                (VBool false)) = false ->
      r_web_context r = None) /\
     (truthy (config_get (default ∅ (cfgs !! node_id)) "enableWebSearch"
                (VBool false)) = true ->
      exists results w',
        web_search_http (st_query st1)
          (config_get (default ∅ (cfgs !! node_id)) "searchProvider"
             (VStr "serpapi")) (world m1) = (inr results, w') /\
        r_web_context r = Some results)).
Proof.
  intros Hord Hrun. unfold execute_workflow in Hrun. rewrite Hord in Hrun.
  split; [by rewrite (run_order_query _ _ _ _ _ _ _ Hrun)|].
  split; [unfold state_keys; eauto|].
  split.
  - intros Hng.
    destruct (run_order_not_generation _ _ _ _ _ _ _ Hng Hrun) as [Hr Hm].
    simpl in Hr, Hm. unfold state_keys. by rewrite Hm.
  - intros pre node_id post node st1 m1 r m2 -> Hf Ht Hng Hpre Hgen.
    rewrite run_order_app, Hpre in Hrun. cbn [run_order] in Hrun.
    unfold bind at 1 in Hrun.
    rewrite (execute_node_llm _ _ _ _ _ Hf Ht) in Hrun. cbn zeta in Hrun.
    unfold bind at 1 in Hrun. rewrite Hgen in Hrun. unfold ret at 1 in Hrun.
    destruct (run_order_not_generation _ _ _ _ _ _ _ Hng Hrun) as [Hr Hm].
    simpl in Hr, Hm.
    destruct (generate_response_result _ _ _ _ _ _ _ _ _ _ _ Hgen)
      as (Hmodel & Hoff & Hon).
    rewrite Hr, Hm, Hmodel. unfold state_keys. rewrite Hm. done.
Qed.

(** C9.  Executing a query-source node or an output node returns the
    state and the machine unchanged for every state; and on a graph with
    only such nodes (a named entry node, edges between existing nodes)
    [execute_workflow] returns the initial state, response absent, without
    calling any collaborator. *)
Theorem query_source_and_output_write_nothing nodes cfgs :
  (forall node_id node st m,
     List.find (fun n => bool_decide (id n = node_id)) nodes = Some node ->
     componentType node = "userQuery" \/ componentType node = "output" ->
     execute_node nodes cfgs node_id st m = (inr st, m)) /\
  (forall depth query edges m s,
     Forall (fun n => componentType n = "userQuery"
                      \/ componentType n = "output") nodes ->
     sources_exist nodes edges -> targets_exist nodes edges ->
     find_start nodes = Some s -> s <> "" ->
     enough_depth edges <= depth ->
     execute_workflow depth query nodes edges cfgs m
     = (inr (mkState query None None None), m)).
Proof.
  assert (Hpass : forall t, t = "userQuery" \/ t = "output" -> pass_through t).
  { intros t [-> | ->]; by split. }
  split.
  - intros node_id node st m Hf Ht.
    apply execute_node_pass_through with node; [done|by apply Hpass].
  - intros depth query edges m s Hall Hsrc Htgt Hfs Hs Hdepth.
    destruct (resolver_returns _ _ _ _ Hsrc Hfs Hs Hdepth) as [o Ho].
    unfold execute_workflow. rewrite Ho.
    apply run_order_pass_through. intros x Hx.
    apply (order_ids _ _ _ _ Ho Htgt) in Hx.
    destruct (find_node_exists _ _ Hx) as [n Hn]. exists n. split; [done|].
    apply Hpass. rewrite Forall_forall in Hall. apply Hall.
    by apply find_node_Some in Hn as [? _].
Qed.

(** C10.  A node whose type is none of the four known tags is skipped:
    its step returns the state and the machine unchanged, raises nothing,
    and the run continues with the rest of the order. *)
Theorem unknown_component_type_is_skipped nodes cfgs node_id node st m :
  List.find (fun n => bool_decide (id n = node_id)) nodes = Some node ->
  componentType node <> "userQuery" ->
  componentType node <> "knowledgeBase" ->
  componentType node <> "llmEngine" ->
  componentType node <> "output" ->
  execute_node nodes cfgs node_id st m = (inr st, m) /\
  forall rest,
    run_order nodes cfgs (node_id :: rest) st m
    = run_order nodes cfgs rest st m.
Proof.
  intros Hf _ Hkb Hllm _.
  assert (Hstep : execute_node nodes cfgs node_id st m = (inr st, m)).
  { apply execute_node_pass_through with node; [done|by split]. }
  split; [done|]. intros rest. cbn [run_order]. unfold bind. by rewrite Hstep.
Qed.

End Claims.

(** ** The claims about the resolver *)

(** Away from the empty entry identifier, and where the interpreter
    allows [enough_depth] nested calls, the resolver does what the
    specification says of it, on cyclic graphs as well: the order starts
    with the entry node, lists exactly the identifiers reachable from it,
    each once, and is the depth-first order with successors taken in
    edge-list order, which [next_visit] gives position by position. *)
Theorem resolver_order_correct depth nodes edges entry :
  query_sources nodes = [entry] ->
  id entry <> "" ->
  sources_exist nodes edges ->
  enough_depth edges <= depth ->
  exists o,
    build_execution_order depth nodes edges = inr o /\
    head o = Some (id entry) /\
    NoDup o /\
    (forall x, x ∈ o <-> reachable edges (id entry) x) /\
    (forall i x y,
        o !! i = Some x ->
        first_fresh (take (S i) o) (successors edges x) = Some y ->
        o !! S i = Some y) /\
    (forall i, o !! S i = next_visit edges (take (S i) o)).
Proof.
  intros Hq Hid Hsrc Hdepth.
  apply query_sources_find_start in Hq.
  destruct (resolver_returns _ _ _ _ Hsrc Hq Hid Hdepth) as [o Ho].
  exists o. split; [done|].
  destruct (resolver_order_sound _ _ _ _ Ho) as (s & Hfs & _ & Hrest).
  rewrite Hq in Hfs. injection Hfs as <-. exact Hrest.
Qed.

(** C1 (failing input).  A graph whose only node is a query-source node
    with the empty string as identifier has exactly one query-source node
    and no cycle, yet [build_execution_order] raises the error meant for a
    missing entry node instead of returning the order that starts with
    it: [not start_node] holds for the empty string. *)
Theorem empty_entry_id_is_rejected depth :
  query_sources unnamed_entry = [mkNode "" "userQuery"] /\
  ~ cycle_reachable_from [] "" /\
  build_execution_order depth unnamed_entry []
  = inl MissingEntryNodeError.
Proof.
  split; [done|]. split; [|done].
  intros (x & _ & Hcyc).
  assert (Hno : forall a b, ~ edge_rel [] a b).
  { intros a b (e & He & _). by apply elem_of_nil in He. }
  destruct Hcyc as [? ? Hab|? ? ? Hab _]; by apply Hno in Hab.
Qed.

(** C5 (amended).  On a graph with an entry node that has a non-empty
    identifier and with edges that leave existing nodes, whether or not a
    cycle can be reached from the entry node, the traversal does not
    loop.  There is one order, listing each identifier reachable from the
    entry exactly once, entry first, that the resolver returns whenever
    the interpreter allows [enough_depth edges] nested calls, two more
    than there are edges; under a lower limit the resolver returns that
    same order or raises [RecursionError]. *)
Theorem resolver_terminates_on_every_graph nodes edges s :
  find_start nodes = Some s -> s <> "" -> sources_exist nodes edges ->
  exists o,
    head o = Some s /\ NoDup o /\
    (forall x, x ∈ o <-> reachable edges s x) /\
    forall depth,
      (enough_depth edges <= depth ->
       build_execution_order depth nodes edges = inr o) /\
      (build_execution_order depth nodes edges = inr o \/
       build_execution_order depth nodes edges = inl RecursionError).
Proof.
  intros Hfs Hs Hsrc.
  destruct (resolver_returns (enough_depth edges) _ _ _ Hsrc Hfs Hs)
    as [o Ho]; [done|].
  exists o.
  destruct (resolver_order_sound _ _ _ _ Ho)
    as (s' & Hfs' & _ & Hhead & Hnd & Hreach & _).
  rewrite Hfs in Hfs'. injection Hfs' as <-.
  split; [done|]. split; [done|]. split; [done|].
  intros depth. split.
  - intros Hdepth.
    by apply (build_execution_order_depth_mono (enough_depth edges)).
  - destruct (build_execution_order depth nodes edges) as [e|o'] eqn:Ho'.
    + right. f_equal. by eapply resolver_raises.
    + left.
      apply (build_execution_order_depth_mono _
               (depth `max` enough_depth edges)) in Ho'; [|done|lia].
      apply (build_execution_order_depth_mono _
               (depth `max` enough_depth edges)) in Ho; [|done|lia].
      congruence.
Qed.


(** ** The claims on concrete graphs *)

(** Closes the hypotheses of a statement that are already in the context. *)
Ltac known := repeat (split; [assumption|]).


(** The example of the specification: order [A, B, C, D], a prompt holding
    both chunks joined by a blank line, the echoed prompt as response and
    the configured model in the metadata. *)
Example run_chain :
  @execute_workflow example_backend 5 example_query
    example_nodes example_edges example_configs (machine0 example_backend 0)
  = (inr (mkState example_query (Some example_context)
            (Some (context_template example_query example_context))
            (Some (mkMetadata (VStr "gpt-4o") None))),
     @mkMachine example_backend 4
       (example_retrieval_trace ++ [example_generation_event])).
Proof. vm_compute. reflexivity. Qed.

Example order_chain :
  build_execution_order 5 example_nodes example_edges
  = inr ["A"; "B"; "C"; "D"].
Proof. vm_compute. reflexivity. Qed.

(** The order of the edge list decides between the successors of a node. *)
Example order_follows_edge_list :
  build_execution_order 4
    [mkNode "A" "userQuery"; mkNode "B" "llmEngine"; mkNode "C" "output"]
    [mkEdge "A" "B"; mkEdge "A" "C"] = inr ["A"; "B"; "C"] /\
  build_execution_order 4
    [mkNode "A" "userQuery"; mkNode "B" "llmEngine"; mkNode "C" "output"]
    [mkEdge "A" "C"; mkEdge "A" "B"] = inr ["A"; "C"; "B"].
Proof. split; vm_compute; reflexivity. Qed.

(** An edge that leaves an unknown node makes the resolver raise
    [KeyError] before it looks for the entry node. *)
Example dangling_source_raises :
  build_execution_order 4 example_nodes [mkEdge "Z" "A"]
  = inl (KeyError "Z").
Proof. vm_compute. reflexivity. Qed.

Lemma no_entry_node_witness :
  query_sources headless_nodes = [] /\
  sources_exist headless_nodes headless_edges /\
  @execute_workflow example_backend 0 example_query headless_nodes
    headless_edges ∅ (machine0 example_backend 0)
  = (inl MissingEntryNodeError, machine0 example_backend 0) /\
  headless_dangling_edges = headless_edges ++ mkEdge "Z" "B" :: [] /\
  (source (mkEdge "Z" "B") ∉ id <$> headless_nodes) /\
  @execute_workflow example_backend 0 example_query headless_nodes
    headless_dangling_edges ∅ (machine0 example_backend 0)
  = (inl (KeyError "Z"), machine0 example_backend 0).
Proof.
  assert (Hq : query_sources headless_nodes = []) by reflexivity.
  assert (Hs : sources_exist headless_nodes headless_edges).
  { apply (bool_decide_unpack _). vm_compute. exact I. }
  assert (He : headless_dangling_edges
               = headless_edges ++ mkEdge "Z" "B" :: [])
    by reflexivity.
  assert (Hz : source (mkEdge "Z" "B") ∉ id <$> headless_nodes).
  { apply (bool_decide_unpack _). vm_compute. exact I. }
  split; [exact Hq|]. split; [exact Hs|]. split.
  - exact (proj1 (proj2 (@no_entry_node_fails_before_any_call example_backend
                           0 example_query headless_nodes headless_edges ∅
                           (machine0 example_backend 0) Hq)) Hs).
  - split; [exact He|]. split; [exact Hz|].
    exact (proj2 (proj2 (@no_entry_node_fails_before_any_call example_backend
                           0 example_query headless_nodes
                           headless_dangling_edges ∅
                           (machine0 example_backend 0) Hq))
             headless_edges (mkEdge "Z" "B") [] He Hs Hz).
Defined.

Lemma generation_failure_witness :
  build_execution_order 5 example_nodes example_edges
  = inr (["A"; "B"] ++ "C" :: ["D"]) /\
  @run_order failing_generation_backend example_nodes example_configs
    ["A"; "B"] (initial_state example_query)
    (machine0 failing_generation_backend 0)
  = (inr (mkState example_query (Some example_context) None None),
     @mkMachine failing_generation_backend 3 example_retrieval_trace) /\
  List.find (fun n => bool_decide (id n = "C")) example_nodes
  = Some (mkNode "C" "llmEngine") /\
  componentType (mkNode "C" "llmEngine") = "llmEngine" /\
  @generate_response failing_generation_backend example_query
    (Some example_context) VNone (VStr "openai") (VStr "gpt-4o")
    (VNum (7 # 10)%Q) (VBool false) (VStr "serpapi")
    (@mkMachine failing_generation_backend 3 example_retrieval_trace)
  = (inl (ExternalError "GenerationError"),
     @mkMachine failing_generation_backend 4
       (example_retrieval_trace ++ [example_generation_event])) /\
  @execute_workflow failing_generation_backend 5 example_query example_nodes
    example_edges example_configs (machine0 failing_generation_backend 0)
  = (inl (ExternalError "GenerationError"),
     @mkMachine failing_generation_backend 4
       (example_retrieval_trace ++ [example_generation_event])).
Proof.
  assert (H1 : build_execution_order 5 example_nodes example_edges
               = (inr (["A"; "B"] ++ "C" :: ["D"])))
    by (vm_compute; reflexivity).
  assert (H2 : @run_order failing_generation_backend example_nodes
                 example_configs ["A"; "B"] (initial_state example_query)
                 (machine0 failing_generation_backend 0)
               = (inr (mkState example_query (Some example_context) None None),
                  @mkMachine failing_generation_backend 3
                    example_retrieval_trace))
    by (vm_compute; reflexivity).
  assert (H3 : List.find (fun n => bool_decide (id n = "C")) example_nodes
               = Some (mkNode "C" "llmEngine"))
    by (vm_compute; reflexivity).
  assert (H4 : componentType (mkNode "C" "llmEngine") = "llmEngine")
    by reflexivity.
  assert (H5 : @generate_response failing_generation_backend example_query
                 (Some example_context) VNone (VStr "openai") (VStr "gpt-4o")
                 (VNum (7 # 10)%Q) (VBool false) (VStr "serpapi")
                 (@mkMachine failing_generation_backend 3
                    example_retrieval_trace)
               = (inl (ExternalError "GenerationError"),
                  @mkMachine failing_generation_backend 4
                    (example_retrieval_trace ++ [example_generation_event])))
    by (vm_compute; reflexivity).
  known.
  exact (@generation_failure_aborts_run failing_generation_backend 5
           example_query example_nodes example_edges example_configs
           (machine0 failing_generation_backend 0) ["A"; "B"] "C" ["D"]
           (mkNode "C" "llmEngine")
           (mkState example_query (Some example_context) None None)
           (@mkMachine failing_generation_backend 3 example_retrieval_trace)
           (ExternalError "GenerationError")
           (@mkMachine failing_generation_backend 4
              (example_retrieval_trace ++ [example_generation_event]))
           H1 H2 H3 H4 H5).
Defined.

Lemma retrieval_failure_witness :
  List.find (fun n => bool_decide (id n = "B")) example_nodes
  = Some (mkNode "B" "knowledgeBase") /\
  componentType (mkNode "B" "knowledgeBase") = "knowledgeBase" /\
  @query_collection failing_retrieval_backend (VStr "default") example_query
    (VStr "openai") 3 (machine0 failing_retrieval_backend 0)
  = (inl (ExternalError "RetrievalError"),
     @mkMachine failing_retrieval_backend 1 [EvGetCollection (VStr "default")]) /\
  @execute_node failing_retrieval_backend example_nodes example_configs "B"
    (initial_state example_query) (machine0 failing_retrieval_backend 0)
  = (inr (set_context (initial_state example_query) None),
     @mkMachine failing_retrieval_backend 1 [EvGetCollection (VStr "default")]).
Proof.
  assert (H1 : List.find (fun n => bool_decide (id n = "B")) example_nodes
               = Some (mkNode "B" "knowledgeBase"))
    by (vm_compute; reflexivity).
  assert (H2 : componentType (mkNode "B" "knowledgeBase") = "knowledgeBase")
    by reflexivity.
  assert (H3 : @query_collection failing_retrieval_backend (VStr "default")
                 example_query (VStr "openai") 3
                 (machine0 failing_retrieval_backend 0)
               = (inl (ExternalError "RetrievalError"),
                  @mkMachine failing_retrieval_backend 1
                    [EvGetCollection (VStr "default")]))
    by (vm_compute; reflexivity).
  known.
  exact (proj1 (@retrieval_failure_is_absorbed failing_retrieval_backend
                  example_nodes example_configs "B"
                  (mkNode "B" "knowledgeBase") (initial_state example_query)
                  (machine0 failing_retrieval_backend 0)
                  (ExternalError "RetrievalError")
                  (@mkMachine failing_retrieval_backend 1
                     [EvGetCollection (VStr "default")])
                  H1 H2 H3)).
Defined.

(** The whole run of the example with a failing retrieval: it completes,
    and the model is given the query alone. *)
Example run_chain_without_retrieval :
  @execute_workflow failing_retrieval_backend 5 example_query
    example_nodes example_edges example_configs
    (machine0 failing_retrieval_backend 0)
  = (inr (mkState example_query None (Some example_query)
            (Some (mkMetadata (VStr "gpt-4o") None))),
     @mkMachine failing_retrieval_backend 2
       [EvGetCollection (VStr "default");
        EvOpenAIChat (VStr "gpt-4o")
          [mkMessage "user" (VStr example_query)] (VNum (7 # 10)%Q)]).
Proof. vm_compute. reflexivity. Qed.

Lemma retrieval_node_witness :
  List.find (fun n => bool_decide (id n = "B")) example_nodes
  = Some (mkNode "B" "knowledgeBase") /\
  componentType (mkNode "B" "knowledgeBase") = "knowledgeBase" /\
  @execute_node example_backend example_nodes example_configs "B"
    (initial_state example_query) (machine0 example_backend 0)
  = (inr (mkState example_query (Some example_context) None None),
     @mkMachine example_backend 3 example_retrieval_trace).
Proof.
  assert (H1 : List.find (fun n => bool_decide (id n = "B")) example_nodes
               = Some (mkNode "B" "knowledgeBase"))
    by (vm_compute; reflexivity).
  assert (H2 : componentType (mkNode "B" "knowledgeBase") = "knowledgeBase")
    by reflexivity.
  known.
  destruct (@retrieval_node_contract example_backend example_nodes
              example_configs "B" (mkNode "B" "knowledgeBase")
              (initial_state example_query) (machine0 example_backend 0)
              H1 H2) as (_ & _ & _ & Hok).
  rewrite (Hok [@mkChunk example_backend "X is a thing." 1;
                @mkChunk example_backend "X was invented in 1990." 2]
               (@mkMachine example_backend 3 example_retrieval_trace));
    vm_compute; reflexivity.
Defined.

Lemma generation_prompt_witness :
  truthy (VBool false) = false /\
  exists ev,
    trace (@generate_response example_backend example_query
             (Some example_context) VNone (VStr "openai") (VStr "gpt-4o")
             (VNum (7 # 10)%Q) (VBool false) (VStr "serpapi")
             (machine0 example_backend 0)).2
    = trace (machine0 example_backend 0) ++ [ev] /\
    sent_prompt ev
    = Some (spec_prompt example_query
              (nonempty_context (Some example_context)) None).
Proof.
  split; [reflexivity|].
  exact (proj1 (@generation_prompt_templates example_backend example_query
                  (Some example_context) VNone (VStr "openai")
                  (VStr "gpt-4o") (VNum (7 # 10)%Q) (VBool false)
                  (VStr "serpapi") (machine0 example_backend 0))
               eq_refl).
Defined.

(** The example with web search switched on: the metadata holds the
    search text, and the prompt starts with the search template. *)
Example run_chain_with_search :
  @execute_workflow example_backend 5 example_query
    example_nodes example_edges search_configs (machine0 example_backend 0)
  = (inr example_search_state,
     @mkMachine example_backend 5
       (example_retrieval_trace ++ example_search_events)).
Proof. vm_compute. reflexivity. Qed.

Lemma returned_state_witness :
  (build_execution_order 5 example_nodes example_edges
   = inr ["A"; "B"; "C"; "D"] /\
   @execute_workflow example_backend 5 example_query
     example_nodes example_edges search_configs (machine0 example_backend 0)
   = (inr example_search_state,
      @mkMachine example_backend 5
        (example_retrieval_trace ++ example_search_events))) /\
  (["A"; "B"; "C"; "D"] = ["A"; "B"] ++ "C" :: ["D"] /\
   List.find (fun n => bool_decide (id n = "C")) example_nodes
   = Some (mkNode "C" "llmEngine") /\
   componentType (mkNode "C" "llmEngine") = "llmEngine" /\
   (forall x, x ∈ ["D"] -> not_generation example_nodes x) /\
   @run_order example_backend example_nodes search_configs ["A"; "B"]
     (initial_state example_query) (machine0 example_backend 0)
   = (inr (mkState example_query (Some example_context) None None),
      @mkMachine example_backend 3 example_retrieval_trace) /\
   @generate_response example_backend example_query (Some example_context)
     VNone (VStr "openai") (VStr "gpt-4o") (VNum (7 # 10)%Q) (VBool true)
     (VStr "serpapi") (@mkMachine example_backend 3 example_retrieval_trace)
   = (inr (mkLLMResponse example_search_prompt (VStr "gpt-4o")
             (Some example_search_text)),
      @mkMachine example_backend 5
        (example_retrieval_trace ++ example_search_events))) /\
  st_query example_search_state = example_query /\
  st_response example_search_state = Some example_search_prompt /\
  st_metadata example_search_state
  = Some (mkMetadata (VStr "gpt-4o") (Some example_search_text)).
Proof.
  assert (H1 : build_execution_order 5 example_nodes example_edges
               = (inr ["A"; "B"; "C"; "D"]))
    by (vm_compute; reflexivity).
  assert (H2 : @execute_workflow example_backend 5 example_query
                 example_nodes example_edges search_configs
                 (machine0 example_backend 0)
               = (inr example_search_state,
                  @mkMachine example_backend 5
                    (example_retrieval_trace ++ example_search_events)))
    by (vm_compute; reflexivity).
  assert (H3 : ["A"; "B"; "C"; "D"] = ["A"; "B"] ++ "C" :: ["D"])
    by reflexivity.
  assert (H4 : List.find (fun n => bool_decide (id n = "C")) example_nodes
               = Some (mkNode "C" "llmEngine"))
    by (vm_compute; reflexivity).
  assert (H5 : componentType (mkNode "C" "llmEngine") = "llmEngine")
    by reflexivity.
  assert (H6 : forall x, x ∈ ["D"] -> not_generation example_nodes x).
  { intros x Hx. apply list_elem_of_singleton in Hx. subst x.
    intros node Hf. vm_compute in Hf. injection Hf as <-. discriminate. }
  assert (H7 : @run_order example_backend example_nodes search_configs
                 ["A"; "B"] (initial_state example_query)
                 (machine0 example_backend 0)
               = (inr (mkState example_query (Some example_context) None None),
                  @mkMachine example_backend 3 example_retrieval_trace))
    by (vm_compute; reflexivity).
  assert (H8 : @generate_response example_backend example_query
                 (Some example_context) VNone (VStr "openai") (VStr "gpt-4o")
                 (VNum (7 # 10)%Q) (VBool true) (VStr "serpapi")
                 (@mkMachine example_backend 3 example_retrieval_trace)
               = (inr (mkLLMResponse example_search_prompt (VStr "gpt-4o")
                         (Some example_search_text)),
                  @mkMachine example_backend 5
                    (example_retrieval_trace ++ example_search_events)))
    by (vm_compute; reflexivity).
  destruct (@returned_state_contents example_backend 5 example_query
              example_nodes example_edges search_configs
              (machine0 example_backend 0) ["A"; "B"; "C"; "D"] _ _ H1 H2)
    as (Hquery & _ & _ & Hlast).
  destruct (Hlast ["A"; "B"] "C" ["D"] (mkNode "C" "llmEngine") _ _ _ _
              H3 H4 H5 H6 H7 H8) as (Hresp & Hmeta & _).
  split; [split; assumption|].
  split; [known; assumption|].
  split; [exact Hquery|]. split; [exact Hresp|exact Hmeta].
Defined.

Lemma pass_through_witness :
  (List.find (fun n => bool_decide (id n = "D")) bare_nodes
   = Some (mkNode "D" "output") /\
   (componentType (mkNode "D" "output") = "userQuery"
    \/ componentType (mkNode "D" "output") = "output") /\
   @execute_node example_backend bare_nodes ∅ "D"
     (initial_state example_query) (machine0 example_backend 0)
   = (inr (initial_state example_query), machine0 example_backend 0)) /\
  (Forall (fun n => componentType n = "userQuery"
                    \/ componentType n = "output") bare_nodes /\
   sources_exist bare_nodes bare_edges /\
   targets_exist bare_nodes bare_edges /\
   find_start bare_nodes = Some "A" /\
   "A" <> "" /\
   enough_depth bare_edges <= 3 /\
   @execute_workflow example_backend 3 example_query bare_nodes bare_edges ∅
     (machine0 example_backend 0)
   = (inr (mkState example_query None None None),
      machine0 example_backend 0)).
Proof.
  destruct (@query_source_and_output_write_nothing example_backend
              bare_nodes ∅) as [Hnode Hgraph].
  assert (H1 : List.find (fun n => bool_decide (id n = "D")) bare_nodes
               = Some (mkNode "D" "output"))
    by (vm_compute; reflexivity).
  assert (H2 : componentType (mkNode "D" "output") = "userQuery"
               \/ componentType (mkNode "D" "output") = "output")
    by (right; reflexivity).
  assert (H3 : Forall (fun n => componentType n = "userQuery"
                                \/ componentType n = "output") bare_nodes).
  { constructor; [left; reflexivity|].
    constructor; [right; reflexivity|]. constructor. }
  assert (H4 : sources_exist bare_nodes bare_edges).
  { apply (bool_decide_unpack _). vm_compute. exact I. }
  assert (H5 : targets_exist bare_nodes bare_edges).
  { apply (bool_decide_unpack _). vm_compute. exact I. }
  assert (H6 : find_start bare_nodes = Some "A") by (vm_compute; reflexivity).
  assert (H7 : "A" <> "") by discriminate.
  assert (H8 : enough_depth bare_edges <= 3) by exact (le_n 3).
  split.
  - known.
    exact (Hnode "D" (mkNode "D" "output") (initial_state example_query)
             (machine0 example_backend 0) H1 H2).
  - known.
    exact (Hgraph 3 example_query bare_edges (machine0 example_backend 0) "A"
             H3 H4 H5 H6 H7 H8).
Defined.

Lemma unknown_component_type_witness :
  List.find (fun n => bool_decide (id n = "X")) custom_nodes
  = Some (mkNode "X" "webhook") /\
  componentType (mkNode "X" "webhook") <> "userQuery" /\
  componentType (mkNode "X" "webhook") <> "knowledgeBase" /\
  componentType (mkNode "X" "webhook") <> "llmEngine" /\
  componentType (mkNode "X" "webhook") <> "output" /\
  @execute_node example_backend custom_nodes ∅ "X"
    (initial_state example_query) (machine0 example_backend 0)
  = (inr (initial_state example_query), machine0 example_backend 0).
Proof.
  assert (H1 : List.find (fun n => bool_decide (id n = "X")) custom_nodes
               = Some (mkNode "X" "webhook"))
    by (vm_compute; reflexivity).
  assert (H2 : componentType (mkNode "X" "webhook") <> "userQuery")
    by discriminate.
  assert (H3 : componentType (mkNode "X" "webhook") <> "knowledgeBase")
    by discriminate.
  assert (H4 : componentType (mkNode "X" "webhook") <> "llmEngine")
    by discriminate.
  assert (H5 : componentType (mkNode "X" "webhook") <> "output")
    by discriminate.
  known.
  exact (proj1 (@unknown_component_type_is_skipped example_backend
                  custom_nodes ∅ "X" (mkNode "X" "webhook")
                  (initial_state example_query) (machine0 example_backend 0)
                  H1 H2 H3 H4 H5)).
Defined.

Lemma resolver_terminates_witness :
  find_start cyclic_nodes = Some "A" /\
  "A" <> "" /\
  sources_exist cyclic_nodes cyclic_edges /\
  exists o,
    head o = Some "A" /\ NoDup o /\
    (forall x, x ∈ o <-> reachable cyclic_edges "A" x) /\
    forall depth,
      (enough_depth cyclic_edges <= depth ->
       build_execution_order depth cyclic_nodes cyclic_edges = inr o) /\
      (build_execution_order depth cyclic_nodes cyclic_edges = inr o \/
       build_execution_order depth cyclic_nodes cyclic_edges
       = inl RecursionError).
Proof.
  assert (H1 : find_start cyclic_nodes = Some "A") by reflexivity.
  assert (H2 : "A" <> "") by discriminate.
  assert (H3 : sources_exist cyclic_nodes cyclic_edges).
  { apply (bool_decide_unpack _). vm_compute. exact I. }
  known.
  exact (resolver_terminates_on_every_graph cyclic_nodes cyclic_edges "A"
           H1 H2 H3).
Defined.

(** C5 (counterexample).  The two-node graph with the edges A -> B and
    B -> A has one query-source node and a cycle through it, and the
    resolver returns the order [A, B]: three nested calls are all the
    traversal makes, so it returns under every recursion limit from three
    on, and does not loop. *)
Lemma cyclic_graph_is_resolved :
  query_sources cyclic_nodes = [mkNode "A" "userQuery"] /\
  cycle_reachable_from cyclic_edges "A" /\
  forall depth,
    3 <= depth ->
    build_execution_order depth cyclic_nodes cyclic_edges = inr ["A"; "B"].
Proof.
  assert (Hrun : build_execution_order 3 cyclic_nodes cyclic_edges
                 = inr ["A"; "B"]) by (vm_compute; reflexivity).
  split; [reflexivity|]. split.
  - exists "A". split; [apply rtc_refl|].
    apply tc_l with "B"; [|apply tc_once].
    + exists (mkEdge "A" "B"). split; [|done]. apply elem_of_cons. by left.
    + exists (mkEdge "B" "A"). split; [|done].
      apply elem_of_cons. right. apply elem_of_cons. by left.
  - intros depth Hdepth.
    by apply (build_execution_order_depth_mono 3).
Qed.

(** C2 (counterexample).  A graph without a query-source node whose
    second edge leaves an identifier that is no node: the run fails with
    the [KeyError] of that edge, not with the missing-entry error. *)
Lemma headless_graph_raises_key_error :
  query_sources headless_nodes = [] /\
  @execute_workflow example_backend 5 example_query headless_nodes
    headless_dangling_edges ∅ (machine0 example_backend 0)
  = (inl (KeyError "Z"), machine0 example_backend 0) /\
  KeyError "Z" <> MissingEntryNodeError.
Proof.
  split; [reflexivity|]. split; [vm_compute; reflexivity|]. discriminate.
Qed.

(** C6 (counterexample).  When the collection holds no document the
    retrieval node stores the empty string as context, which is present;
    the generation node then sends the query alone, not the context
    template. *)
Lemma empty_context_sends_bare_query :
  exists st m' ev,
    @execute_workflow empty_retrieval_backend 5 example_query
      example_nodes example_edges example_configs
      (machine0 empty_retrieval_backend 0) = (inr st, m') /\
    st_context st = Some "" /\
    last (trace m') = Some ev /\
    sent_prompt ev = Some example_query /\
    sent_prompt ev <> Some (spec_prompt example_query (st_context st) None).
Proof.
  eexists _, _, _. split; [vm_compute; reflexivity|].
  split; [reflexivity|]. split; [reflexivity|]. split; [reflexivity|].
  vm_compute. discriminate.
Qed.

(** C8 (counterexample).  The value returned for the example of the
    specification has the keys query, context, response and metadata, the
    context being the retrieved text; and the value returned for a graph
    without a generation node has no metadata key. *)
Lemma returned_state_has_other_keys :
  (exists st m',
     @execute_workflow example_backend 5 example_query
       example_nodes example_edges example_configs
       (machine0 example_backend 0) = (inr st, m') /\
     state_keys st = ["query"; "context"; "response"; "metadata"] /\
     st_context st = Some example_context /\
     state_keys st <> spec_result_keys) /\
  (exists st m',
     @execute_workflow example_backend 3 example_query
       bare_nodes bare_edges ∅ (machine0 example_backend 0)
     = (inr st, m') /\
     state_keys st = ["query"; "context"; "response"] /\
     state_keys st <> spec_result_keys).
Proof.
  split.
  - eexists _, _. split; [vm_compute; reflexivity|].
    split; [reflexivity|]. split; [reflexivity|]. vm_compute. discriminate.
  - eexists _, _. split; [vm_compute; reflexivity|].
    split; [reflexivity|]. vm_compute. discriminate.
Qed.

(** ** Text chunking *)

Import DocumentProcessor.

(** *** Slices *)

Lemma py_slice_nonneg {A} (l : list A) (start stop : Z) :
  (0 <= start)%Z -> (0 <= stop)%Z ->
  py_slice l start stop
  = drop (Z.to_nat start) (take (Z.to_nat stop) l).
Proof.
  intros Hs He. unfold py_slice, slice_index.
  destruct (Z.ltb_spec start 0) as [?|_]; [lia|].
  destruct (Z.ltb_spec stop 0) as [?|_]; [lia|].
  destruct (decide (Z.to_nat stop <= length l)) as [Hle|Hgt].
  - replace (Z.to_nat (Z.min stop (Z.of_nat (length l)))) with (Z.to_nat stop)
      by lia.
    destruct (decide (Z.to_nat start <= length l)) as [Hle'|Hgt'].
    + by replace (Z.to_nat (Z.min start (Z.of_nat (length l))))
        with (Z.to_nat start) by lia.
    + rewrite !drop_ge; [done|rewrite length_take; lia..].
  - rewrite (take_ge l (Z.to_nat stop)) by lia.
    rewrite (take_ge l (Z.to_nat (Z.min stop (Z.of_nat (length l))))) by lia.
    destruct (decide (Z.to_nat start <= length l)) as [Hle'|Hgt'].
    + by replace (Z.to_nat (Z.min start (Z.of_nat (length l))))
        with (Z.to_nat start) by lia.
    + rewrite !drop_ge; [done|lia..].
Qed.

Lemma py_slice_window {A} (l : list A) (start size : Z) :
  (0 <= start)%Z -> (0 <= size)%Z ->
  py_slice l start (start + size)
  = take (Z.to_nat size) (drop (Z.to_nat start) l).
Proof.
  intros Hs Hz. rewrite py_slice_nonneg by lia.
  rewrite take_drop_commute. f_equal. f_equal. lia.
Qed.

Section ChunkingFacts.
Context {Char : Type}.
Variable md5_hexdigest : list Char -> string.
Variables chunk_size chunk_overlap : Z.

#[local] Abbreviation step := (chunk_step chunk_size chunk_overlap).
#[local] Abbreviation count := (chunk_count chunk_size chunk_overlap).
#[local] Abbreviation nth := (nth_chunk md5_hexdigest chunk_size chunk_overlap).
#[local] Abbreviation loop := (chunk_loop md5_hexdigest chunk_size chunk_overlap).

Lemma chunk_count_Z (len : nat) :
  (0 < step)%Z ->
  Z.of_nat (count len) = ((Z.of_nat len + step - 1) / step)%Z.
Proof.
  intros Hstep. unfold chunk_count. rewrite Z2Nat.id; [done|].
  apply Z.div_pos; lia.
Qed.

Lemma chunk_count_spec (len i : nat) :
  (0 < step)%Z ->
  (Z.of_nat i * step < Z.of_nat len)%Z <-> i < count len.
Proof.
  intros Hstep. pose proof (chunk_count_Z len Hstep) as Hk.
  set (q := ((Z.of_nat len + step - 1) / step)%Z) in *.
  assert (Hq1 : (step * q <= Z.of_nat len + step - 1)%Z)
    by (apply Z.mul_div_le; lia).
  split.
  - intros Hlt.
    assert ((Z.of_nat i + 1 <= q)%Z); [|lia].
    apply Z.div_le_lower_bound; lia.
  - intros Hlt. assert ((Z.of_nat i + 1 <= q)%Z) by lia. nia.
Qed.

Lemma chunk_loop_closed_form text : forall n i chunks fuel,
  (0 < step)%Z ->
  i + n = count (length text) -> n < fuel ->
  loop fuel text (Z.of_nat i * step)%Z chunks
  = Some (chunks ++ (nth text <$> seq i n)).
Proof.
  induction n as [|n IH]; intros i chunks fuel Hstep Hin Hfuel;
    (destruct fuel as [|fuel]; [lia|]); cbn [chunk_loop].
  - destruct (Z.ltb_spec (Z.of_nat i * step) (Z.of_nat (length text)))
      as [Hlt|_].
    + apply chunk_count_spec in Hlt; [lia|done].
    + by rewrite app_nil_r.
  - destruct (Z.ltb_spec (Z.of_nat i * step) (Z.of_nat (length text)))
      as [_|Hge].
    + replace (Z.of_nat i * step + (chunk_size - chunk_overlap))%Z
        with (Z.of_nat (S i) * step)%Z by (unfold chunk_step; lia).
      rewrite IH by (done || lia).
      rewrite <- app_assoc. done.
    + assert (i < count (length text)) by lia.
      apply chunk_count_spec in H; [lia|done].
Qed.


#[local] Abbreviation chunker := (chunk_text md5_hexdigest chunk_size chunk_overlap).

Lemma chunk_loop_fuel_mono text : forall fuel fuel' start chunks result,
  loop fuel text start chunks = Some result -> fuel <= fuel' ->
  loop fuel' text start chunks = Some result.
Proof.
  induction fuel as [|fuel IH]; intros fuel' start chunks result Hrun Hle;
    [done|].
  destruct fuel' as [|fuel']; [lia|]. cbn [chunk_loop] in *.
  destruct (start <? Z.of_nat (length text))%Z; [|done].
  apply IH; [done|lia].
Qed.

Lemma chunk_text_returns fuel text :
  (0 < step)%Z -> count (length text) < fuel ->
  chunker fuel text = Some (nth text <$> seq 0 (count (length text))).
Proof.
  intros Hstep Hfuel.
  exact (chunk_loop_closed_form text (count (length text)) 0 [] fuel
           Hstep eq_refl Hfuel).
Qed.

Lemma chunk_text_closed_form fuel text chunks :
  (0 < step)%Z ->
  chunker fuel text = Some chunks ->
  chunks = nth text <$> seq 0 (count (length text)).
Proof.
  intros Hstep Hrun. unfold chunk_text in Hrun.
  apply chunk_loop_fuel_mono with (fuel' := fuel + S (count (length text)))
    in Hrun; [|lia].
  pose proof (chunk_text_returns (fuel + S (count (length text))) text Hstep)
    as Hcf.
  unfold chunk_text in Hcf. rewrite Hcf in Hrun by lia.
  by injection Hrun as <-.
Qed.

(** X1.  [chunk_text] returns when the overlap is smaller than the chunk size,
    with as many chunks as the text length divided by the step, rounded
    up; the chunk size plays no part in that number. *)
Theorem chunk_text_count fuel text :
  (0 < chunk_step chunk_size chunk_overlap)%Z ->
  chunk_count chunk_size chunk_overlap (length text) < fuel ->
  exists chunks,
    chunk_text md5_hexdigest chunk_size chunk_overlap fuel text
    = Some chunks /\
    Z.of_nat (length chunks)
    = ((Z.of_nat (length text) + chunk_step chunk_size chunk_overlap - 1)
       / chunk_step chunk_size chunk_overlap)%Z.
Proof.
  intros Hstep Hfuel. eexists. split; [by apply chunk_text_returns|].
  rewrite length_fmap, length_seq. by apply chunk_count_Z.
Qed.

(** X2.  With an overlap that is not smaller than the chunk size the start
    index never advances, and [chunk_text] does not return on any
    non-empty text. *)
Theorem chunk_text_never_returns fuel text :
  (chunk_step chunk_size chunk_overlap <= 0)%Z -> text <> [] ->
  chunk_text md5_hexdigest chunk_size chunk_overlap fuel text = None.
Proof.
  intros Hstep Htext. unfold chunk_text.
  assert (Hloop : forall fuel start chunks,
             (start <= 0)%Z -> loop fuel text start chunks = None).
  { clear fuel. induction fuel as [|fuel IH]; intros start chunks Hs; [done|].
    cbn [chunk_loop].
    destruct (Z.ltb_spec start (Z.of_nat (length text))) as [_|Hge].
    - apply IH. unfold chunk_step in Hstep. lia.
    - destruct text; [done|]. simpl in Hge. lia. }
  by apply Hloop.
Qed.

Lemma nth_chunk_content text i :
  (0 < step)%Z -> (0 <= chunk_size)%Z ->
  chunk_content (nth text i)
  = take (Z.to_nat chunk_size) (drop (i * Z.to_nat step) text).
Proof.
  intros Hstep Hsize. unfold nth_chunk. cbn [chunk_content].
  rewrite py_slice_window by lia. do 2 f_equal.
  rewrite Z2Nat.inj_mul by lia. by rewrite Nat2Z.id.
Qed.

(** X3.  What each returned chunk holds: chunk [i] starts at [i] steps, its
    content is the next [chunk_size] characters of the text, cut at the
    end of the text and never empty; [end] is the start plus the length of
    the content, and [id] is the digest of the content. *)
Theorem chunk_text_windows fuel text chunks i c :
  (0 < chunk_step chunk_size chunk_overlap)%Z -> (0 < chunk_size)%Z ->
  chunk_text md5_hexdigest chunk_size chunk_overlap fuel text
  = Some chunks ->
  chunks !! i = Some c ->
  chunk_start c = (Z.of_nat i * chunk_step chunk_size chunk_overlap)%Z /\
  (0 <= chunk_start c < Z.of_nat (length text))%Z /\
  chunk_content c
  = take (Z.to_nat chunk_size) (drop (Z.to_nat (chunk_start c)) text) /\
  0 < length (chunk_content c) <= Z.to_nat chunk_size /\
  chunk_end c = (chunk_start c + Z.of_nat (length (chunk_content c)))%Z /\
  chunk_id c = md5_hexdigest (chunk_content c).
Proof.
  intros Hstep Hsize Hrun Hi.
  rewrite (chunk_text_closed_form _ _ _ Hstep Hrun) in Hi.
  rewrite list_lookup_fmap in Hi.
  destruct (seq 0 (count (length text)) !! i) as [j|] eqn:Hj; [|done].
  apply lookup_seq in Hj as [-> Hlt]. simpl in Hi. injection Hi as <-.
  apply chunk_count_spec in Hlt; [|done].
  assert (Hcontent := nth_chunk_content text i Hstep ltac:(lia)).
  assert (Hstart : Z.to_nat (Z.of_nat i * step) = i * Z.to_nat step).
  { rewrite Z2Nat.inj_mul by lia. by rewrite Nat2Z.id. }
  assert (Hnonneg : (0 <= Z.of_nat i * step)%Z) by nia.
  assert (Hlen : length (chunk_content (nth text i))
                 = Z.to_nat chunk_size `min` (length text - i * Z.to_nat step)).
  { by rewrite Hcontent, length_take, length_drop. }
  split; [done|]. split; [cbn [chunk_start nth_chunk]; lia|].
  split; [cbn [chunk_start nth_chunk]; by rewrite Hstart|].
  split; [rewrite Hlen; lia|]. split; [|done].
  rewrite Hlen. cbn [chunk_end chunk_start nth_chunk]. lia.
Qed.

Lemma concat_windows {A} (n : nat) : forall (k : nat) (l : list A),
  0 < n -> length l <= k * n ->
  concat ((fun i => take n (drop (i * n) l)) <$> seq 0 k) = l.
Proof.
  induction k as [|k IH]; intros l Hn Hlen.
  - destruct l; [done|]. simpl in Hlen. lia.
  - cbn [seq]. rewrite fmap_cons. cbn [concat].
    transitivity (take n l ++ drop n l); [|apply take_drop].
    f_equal. rewrite <- fmap_S_seq, <- list_fmap_compose.
    etrans; [|apply (IH (drop n l)); [done|rewrite length_drop; lia]].
    f_equal. apply list_fmap_ext. intros _ i _. simpl.
    by rewrite drop_drop.
Qed.

(** X4.  When the overlap is not negative, keeping the first [chunk_step]
    characters of every chunk and joining them gives back the text: no
    character is lost and none is out of order. *)
Theorem chunk_text_recovers_text fuel text chunks :
  (0 < chunk_step chunk_size chunk_overlap <= chunk_size)%Z ->
  chunk_text md5_hexdigest chunk_size chunk_overlap fuel text
  = Some chunks ->
  concat ((fun c =>
             take (Z.to_nat (chunk_step chunk_size chunk_overlap))
               (chunk_content c)) <$> chunks)
  = text.
Proof.
  intros [Hstep Hsize] Hrun.
  rewrite (chunk_text_closed_form _ _ _ Hstep Hrun).
  rewrite <- list_fmap_compose.
  etrans;
    [|apply (concat_windows (Z.to_nat step) (count (length text)) text)].
  - f_equal. apply list_fmap_ext. intros _ i _. unfold compose.
    rewrite nth_chunk_content by lia. rewrite take_take. f_equal. lia.
  - lia.
  - destruct (decide (length text <= count (length text) * Z.to_nat step))
      as [|Hgt]; [done|].
    assert (Hlt : (Z.of_nat (count (length text)) * step
                   < Z.of_nat (length text))%Z) by nia.
    apply chunk_count_spec in Hlt; [lia|done].
Qed.

(** X5.  Two consecutive chunks share [chunk_overlap] characters: what is left
    of a chunk after its first [chunk_step] characters is the beginning of
    the next chunk. *)
Theorem chunk_text_overlap fuel text chunks i c c' :
  (0 < chunk_step chunk_size chunk_overlap)%Z -> (0 <= chunk_overlap)%Z ->
  chunk_text md5_hexdigest chunk_size chunk_overlap fuel text
  = Some chunks ->
  chunks !! i = Some c -> chunks !! S i = Some c' ->
  drop (Z.to_nat (chunk_step chunk_size chunk_overlap)) (chunk_content c)
  = take (Z.to_nat chunk_overlap) (chunk_content c').
Proof.
  intros Hstep Hov Hrun Hc Hc'.
  assert (Hsize : (0 <= chunk_size)%Z) by (unfold chunk_step in Hstep; lia).
  rewrite (chunk_text_closed_form _ _ _ Hstep Hrun) in Hc, Hc'.
  rewrite list_lookup_fmap in Hc, Hc'.
  destruct (seq 0 (count (length text)) !! i) as [j|] eqn:Hj; [|done].
  destruct (seq 0 (count (length text)) !! S i) as [j'|] eqn:Hj'; [|done].
  apply lookup_seq in Hj as [-> _]. apply lookup_seq in Hj' as [-> _].
  simpl in Hc, Hc'. injection Hc as <-. injection Hc' as <-.
  rewrite !nth_chunk_content by done.
  rewrite take_take.
  replace (Z.to_nat chunk_overlap `min` Z.to_nat chunk_size)
    with (Z.to_nat chunk_overlap) by (unfold chunk_step in *; lia).
  replace (Z.to_nat chunk_size)
    with (Z.to_nat step + Z.to_nat chunk_overlap)
    by (unfold chunk_step in *; lia).
  rewrite <- take_drop_commute, drop_drop. do 2 f_equal. lia.
Qed.

(** X6.  The last chunk reaches the end of the text. *)
Theorem chunk_text_last_chunk fuel text chunks c :
  (0 < chunk_step chunk_size chunk_overlap <= chunk_size)%Z ->
  chunk_text md5_hexdigest chunk_size chunk_overlap fuel text
  = Some chunks ->
  last chunks = Some c ->
  chunk_end c = Z.of_nat (length text).
Proof.
  intros [Hstep Hsize] Hrun Hlast.
  rewrite (chunk_text_closed_form _ _ _ Hstep Hrun) in Hlast.
  rewrite fmap_last in Hlast.
  destruct (count (length text)) as [|k] eqn:Hk; [done|].
  rewrite seq_S, last_snoc in Hlast. simpl in Hlast. injection Hlast as <-.
  cbn [chunk_end nth_chunk].
  assert (Hnot : ~ S k < count (length text)) by lia.
  rewrite <- chunk_count_spec in Hnot by done. lia.
Qed.

End ChunkingFacts.


(** *** Text chunking on the sample text *)

Example chunk_text_sample :
  chunk_text mock_digest 3 1 4 sample_text = Some sample_chunks.
Proof. vm_compute. reflexivity. Qed.

Lemma chunk_text_count_witness :
  (0 < chunk_step 3 1)%Z /\
  chunk_count 3 1 (length sample_text) < 4 /\
  exists chunks,
    chunk_text mock_digest 3 1 4 sample_text = Some chunks /\
    Z.of_nat (length chunks)
    = ((Z.of_nat (length sample_text) + chunk_step 3 1 - 1)
       / chunk_step 3 1)%Z.
Proof.
  assert (H1 : (0 < chunk_step 3 1)%Z) by reflexivity.
  assert (H2 : chunk_count 3 1 (length sample_text) < 4)
    by (vm_compute; lia).
  known. exact (chunk_text_count mock_digest 3 1 4 sample_text H1 H2).
Defined.

Lemma chunk_text_never_returns_witness :
  (chunk_step 2 2 <= 0)%Z /\
  sample_text <> [] /\
  chunk_text mock_digest 2 2 100 sample_text = None.
Proof.
  assert (H1 : (chunk_step 2 2 <= 0)%Z) by (vm_compute; discriminate).
  assert (H2 : sample_text <> []) by discriminate.
  known. exact (chunk_text_never_returns mock_digest 2 2 100 sample_text H1 H2).
Defined.

Lemma chunk_text_windows_witness :
  (0 < chunk_step 3 1)%Z /\ (0 < 3)%Z /\
  chunk_text mock_digest 3 1 4 sample_text = Some sample_chunks /\
  sample_chunks !! 1
  = Some (mkTextChunk "cde" (String.list_ascii_of_string "cde") 2 5) /\
  chunk_start (mkTextChunk "cde" (String.list_ascii_of_string "cde") 2 5)
  = (Z.of_nat 1 * chunk_step 3 1)%Z.
Proof.
  assert (H1 : (0 < chunk_step 3 1)%Z) by reflexivity.
  assert (H2 : (0 < 3)%Z) by reflexivity.
  assert (H3 : chunk_text mock_digest 3 1 4 sample_text = Some sample_chunks)
    by (vm_compute; reflexivity).
  assert (H4 : sample_chunks !! 1
               = Some (mkTextChunk "cde" (String.list_ascii_of_string "cde") 2 5))
    by reflexivity.
  known.
  exact (proj1 (chunk_text_windows mock_digest 3 1 4 sample_text
                  sample_chunks 1 _ H1 H2 H3 H4)).
Defined.

Lemma chunk_text_recovers_text_witness :
  (0 < chunk_step 3 1 <= 3)%Z /\
  chunk_text mock_digest 3 1 4 sample_text = Some sample_chunks /\
  concat ((fun c => take (Z.to_nat (chunk_step 3 1)) (chunk_content c))
          <$> sample_chunks) = sample_text.
Proof.
  assert (H1 : (0 < chunk_step 3 1 <= 3)%Z)
    by (split; [reflexivity|vm_compute; discriminate]).
  assert (H2 : chunk_text mock_digest 3 1 4 sample_text = Some sample_chunks)
    by (vm_compute; reflexivity).
  known.
  exact (chunk_text_recovers_text mock_digest 3 1 4 sample_text
           sample_chunks H1 H2).
Defined.

Lemma chunk_text_overlap_witness :
  (0 < chunk_step 3 1)%Z /\ (0 <= 1)%Z /\
  chunk_text mock_digest 3 1 4 sample_text = Some sample_chunks /\
  sample_chunks !! 0
  = Some (mkTextChunk "abc" (String.list_ascii_of_string "abc") 0 3) /\
  sample_chunks !! 1
  = Some (mkTextChunk "cde" (String.list_ascii_of_string "cde") 2 5) /\
  drop (Z.to_nat (chunk_step 3 1)) (String.list_ascii_of_string "abc")
  = take (Z.to_nat 1) (String.list_ascii_of_string "cde").
Proof.
  assert (H1 : (0 < chunk_step 3 1)%Z) by reflexivity.
  assert (H2 : (0 <= 1)%Z) by (vm_compute; discriminate).
  assert (H3 : chunk_text mock_digest 3 1 4 sample_text = Some sample_chunks)
    by (vm_compute; reflexivity).
  assert (H4 : sample_chunks !! 0
               = Some (mkTextChunk "abc" (String.list_ascii_of_string "abc") 0 3))
    by reflexivity.
  assert (H5 : sample_chunks !! 1
               = Some (mkTextChunk "cde" (String.list_ascii_of_string "cde") 2 5))
    by reflexivity.
  known.
  exact (chunk_text_overlap mock_digest 3 1 4 sample_text sample_chunks 0
           _ _ H1 H2 H3 H4 H5).
Defined.

Lemma chunk_text_last_chunk_witness :
  (0 < chunk_step 3 1 <= 3)%Z /\
  chunk_text mock_digest 3 1 4 sample_text = Some sample_chunks /\
  last sample_chunks
  = Some (mkTextChunk "e" (String.list_ascii_of_string "e") 4 5) /\
  chunk_end (mkTextChunk "e" (String.list_ascii_of_string "e") 4 5)
  = Z.of_nat (length sample_text).
Proof.
  assert (H1 : (0 < chunk_step 3 1 <= 3)%Z)
    by (split; [reflexivity|vm_compute; discriminate]).
  assert (H2 : chunk_text mock_digest 3 1 4 sample_text = Some sample_chunks)
    by (vm_compute; reflexivity).
  assert (H3 : last sample_chunks
               = Some (mkTextChunk "e" (String.list_ascii_of_string "e") 4 5))
    by reflexivity.
  known.
  exact (chunk_text_last_chunk mock_digest 3 1 4 sample_text sample_chunks
           _ H1 H2 H3).
Defined.


(** ** Further properties of the resolver *)

(** X7.  An edge whose source is not a node identifier makes the resolver
    raise [KeyError] for the first such source in edge-list order,
    whatever the nodes are and before the entry node is looked for. *)
Theorem dangling_source_raises_key_error depth nodes good edge rest :
  sources_exist nodes good ->
  source edge ∉ id <$> nodes ->
  build_execution_order depth nodes (good ++ edge :: rest)
  = inl (KeyError (source edge)).
Proof.
  intros Hgood Hbad. unfold build_execution_order.
  rewrite add_edges_first_missing; [done| |].
  - by apply sources_exist_dom.
  - by rewrite dom_init_graph.
Qed.

(** X8.  With several query-source nodes the traversal starts at the
    first one of the node list.  Where the interpreter allows
    [enough_depth edges] nested calls, the order returned begins with that
    node and lists exactly what is reachable from it, each identifier
    once, as the depth-first order with successors taken in edge-list
    order: the identifier at each later position is the first successor
    not listed before it of the latest identifier before it that has
    one.  No other list begins with the entry and follows that rule. *)
Theorem first_query_source_starts_the_order depth nodes edges entry others :
  query_sources nodes = entry :: others ->
  id entry <> "" ->
  sources_exist nodes edges ->
  enough_depth edges <= depth ->
  exists o,
    build_execution_order depth nodes edges = inr o /\
    head o = Some (id entry) /\
    NoDup o /\
    (forall x, x ∈ o <-> reachable edges (id entry) x) /\
    (forall i, o !! S i = next_visit edges (take (S i) o)) /\
    (forall o',
       head o' = Some (id entry) ->
       (forall i, o' !! S i = next_visit edges (take (S i) o')) ->
       o' = o).
Proof.
  intros Hq Hid Hsrc Hdepth.
  apply query_sources_find_start in Hq.
  destruct (resolver_returns _ _ _ _ Hsrc Hq Hid Hdepth) as [o Ho].
  exists o. split; [done|].
  destruct (resolver_order_sound _ _ _ _ Ho)
    as (s & Hfs & _ & Hhead & Hnd & Hreach & _ & Hnext).
  rewrite Hq in Hfs. injection Hfs as <-.
  split; [done|]. split; [done|]. split; [done|]. split; [done|].
  intros o' Hhead' Hnext'. by eapply traversal_order_unique.
Qed.

Section FurtherExecutorFacts.
Context `{Backend}.

Lemma run_order_found nodes cfgs o : forall st m st' m',
  run_order nodes cfgs o st m = (inr st', m') ->
  forall x, x ∈ o -> x ∈ id <$> nodes.
Proof.
  induction o as [|y o IH]; intros st m st' m' Hrun x Hx.
  - by apply elem_of_nil in Hx.
  - cbn [run_order] in Hrun. unfold bind in Hrun.
    destruct (execute_node nodes cfgs y st m) as [[e|s1] m1] eqn:Hy; [done|].
    apply elem_of_cons in Hx as [->|Hx]; [|by eapply IH].
    unfold execute_node in Hy.
    destruct (List.find _ nodes) as [n|] eqn:Hf; [|done].
    apply find_node_Some in Hf as [Hn <-]. by apply list_elem_of_fmap_2.
Qed.

(** X9.  An edge that can be reached from the entry node and leads to an
    identifier that is no node makes every run fail: the identifier is
    put in the order, and the run stops there unless it stopped before. *)
Theorem dangling_target_prevents_success depth query nodes edges cfgs m
    s x st m' :
  find_start nodes = Some s ->
  reachable edges s x ->
  x ∉ id <$> nodes ->
  execute_workflow depth query nodes edges cfgs m <> (inr st, m').
Proof.
  intros Hfs Hreach Hx Hrun. unfold execute_workflow in Hrun.
  destruct (build_execution_order depth nodes edges) as [e|o] eqn:Ho;
    [done|].
  destruct (resolver_order_sound _ _ _ _ Ho) as (s' & Hfs' & _ & _ & _ & Hin & _).
  rewrite Hfs in Hfs'. injection Hfs' as <-.
  apply Hx. eapply run_order_found; [exact Hrun|]. by apply Hin.
Qed.

(** X10.  The run stops with [RuntimeError] at the first identifier of the order
    that is no node, on the machine left by the nodes before it. *)
Theorem unknown_identifier_stops_the_run depth query nodes edges cfgs m
    pre x post st1 m1 :
  build_execution_order depth nodes edges = inr (pre ++ x :: post) ->
  run_order nodes cfgs pre (initial_state query) m = (inr st1, m1) ->
  x ∉ id <$> nodes ->
  execute_workflow depth query nodes edges cfgs m
  = (inl (RuntimeError "coroutine raised StopIteration"), m1).
Proof.
  intros Ho Hpre Hx. unfold execute_workflow. rewrite Ho.
  rewrite run_order_app, Hpre. cbn [run_order]. unfold bind at 1.
  unfold execute_node.
  destruct (List.find _ nodes) as [n|] eqn:Hf; [|done].
  apply find_node_Some in Hf as [Hn <-]. destruct Hx.
  by apply list_elem_of_fmap_2.
Qed.


(** *** What [generate_response] calls *)

(** X11.  A provider other than ["openai"] is served by Gemini, which is given
    the model and the prompt only: the system prompt and the temperature
    of the configuration have no effect on the call or on its result. *)
Theorem gemini_ignores_system_prompt_and_temperature query context
    system_prompt system_prompt' provider model temperature temperature'
    enable_web_search search_provider m :
  eq_str provider "openai" = false ->
  generate_response query context system_prompt provider model temperature
    enable_web_search search_provider m
  = generate_response query context system_prompt' provider model
      temperature' enable_web_search search_provider m.
Proof. intros Hp. unfold generate_response. by rewrite Hp. Qed.

(** X12.  When web search is enabled and the search raises, the error is that
    of [generate_response] and the search is the only call made: no model
    is called. *)
Theorem search_failure_precedes_generation query context system_prompt
    provider model temperature enable_web_search search_provider m e w' :
  truthy enable_web_search = true ->
  web_search_http query search_provider (world m) = (inl e, w') ->
  generate_response query context system_prompt provider model temperature
    enable_web_search search_provider m
  = (inl e, mkMachine w' (trace m ++ [EvWebSearch query search_provider])).
Proof.
  intros Hweb Hsearch. unfold generate_response. rewrite Hweb.
  unfold bind at 1. unfold web_search, bind at 1. unfold call at 1.
  by rewrite Hsearch.
Qed.

Lemma generate_response_trace query context system_prompt provider model
    temperature enable_web_search search_provider m r m' :
  generate_response query context system_prompt provider model temperature
    enable_web_search search_provider m = (inr r, m') ->
  exists ev,
    is_generation ev = true /\
    trace m'
    = trace m
      ++ (if truthy enable_web_search
          then [EvWebSearch query search_provider] else [])
      ++ [ev].
Proof.
  unfold generate_response. destruct (truthy enable_web_search).
  - unfold bind at 1. unfold web_search, bind at 1. unfold call at 1.
    destruct (web_search_http query search_provider (world m))
      as [[e|results] w1]; [done|].
    unfold ret at 1.
    destruct (eq_str provider "openai"); unfold bind, call, ret;
      simpl world; simpl trace;
      match goal with |- context [?f w1] =>
        destruct (f w1) as [[e|resp] w] end;
      try done; intros [= _ <-]; eexists; (split; [|simpl; by rewrite <- app_assoc]);
      done.
  - unfold bind at 1. unfold ret at 1.
    destruct (eq_str provider "openai"); unfold bind, call, ret;
      match goal with |- context [?f (world m)] =>
        destruct (f (world m)) as [[e|resp] w] end;
      try done; intros [= _ <-]; eexists; (split; [|reflexivity]); done.
Qed.

(** *** What a retrieval calls *)

(** X13.  A retrieval stops at its first failing call.  When the collection
    cannot be fetched, no embedding is requested; when the embedding
    request fails, the collection is not queried. *)
Theorem retrieval_stops_at_first_failure name query_text n_results m e w1 :
  (forall embedding_model,
     chroma_get_collection name (world m) = (inl e, w1) ->
     query_collection name query_text embedding_model n_results m
     = (inl e, mkMachine w1 (trace m ++ [EvGetCollection name]))) /\
  (forall collection w2,
     chroma_get_collection name (world m) = (inr collection, w1) ->
     openai_embeddings_create "text-embedding-ada-002" [query_text] w1
     = (inl e, w2) ->
     query_collection name query_text (VStr "openai") n_results m
     = (inl e,
        mkMachine w2
          (trace m ++ [EvGetCollection name;
                       EvOpenAIEmbeddings "text-embedding-ada-002"
                         [query_text]]))).
Proof.
  split.
  - intros embedding_model Hget. unfold query_collection.
    unfold bind at 1. unfold call at 1. by rewrite Hget.
  - intros collection w2 Hget Hemb. unfold query_collection.
    unfold bind at 1. unfold call at 1. rewrite Hget.
    assert (Heq : eq_str (VStr "openai") "openai" = true) by reflexivity.
    rewrite Heq. unfold bind at 1. unfold bind at 1.
    unfold get_openai_embeddings, call. simpl world. simpl trace.
    rewrite Hemb. by rewrite <- app_assoc.
Qed.

(** X14.  A retrieval that goes through pairs each returned document with its
    distance: the chunks are the documents of the first result row, in
    order, cut to the number of distances. *)
Theorem retrieval_pairs_documents_with_distances name query_text
    embedding_model n_results m results m' :
  query_collection name query_text embedding_model n_results m
  = (inr results, m') ->
  exists collection w1 embedding w2 documents more_documents distances
         more_distances,
    chroma_get_collection name (world m) = (inr collection, w1) /\
    collection_query collection [embedding] n_results w2
    = (inr (documents :: more_documents, distances :: more_distances),
       world m') /\
    content <$> results = take (length distances) documents /\
    length results = length documents `min` length distances.
Proof.
  unfold query_collection. unfold bind at 1. unfold call at 1.
  destruct (chroma_get_collection name (world m)) as [[e|coll] w1] eqn:Hget;
    [done|].
  unfold bind at 1.
  set (m1 := mkMachine w1 (trace m ++ [EvGetCollection name])).
  destruct ((if eq_str embedding_model "openai"
             then (let* embeddings := get_openai_embeddings [query_text] in
                   index0 embeddings)
             else (let* embeddings := get_gemini_embeddings [query_text] in
                   index0 embeddings)) m1) as [[e|emb] m2] eqn:Hemb; [done|].
  unfold bind at 1. unfold call at 1.
  destruct (collection_query coll [emb] n_results (world m2))
    as [[e|[docs dists]] w3] eqn:Hq; [done|].
  unfold bind, index0, ret, raise. simpl.
  destruct docs as [|d docs]; [done|]. destruct dists as [|ds dists]; [done|].
  intros [= <- <-]. simpl.
  exists coll, w1, emb, (world m2), d, docs, ds, dists.
  split; [done|]. split; [done|].
  split.
  - rewrite <- list_fmap_compose. clear.
    revert ds. induction d as [|x d IH]; intros [|y ds]; simpl; try done.
    f_equal. apply IH.
  - rewrite length_fmap, length_zip. done.
Qed.

(** X15.  [get_gemini_embeddings] asks for one embedding per text, in order.
    When it returns there are as many embeddings as texts; when it raises
    it has stopped at the first text whose request failed. *)
Theorem gemini_embeds_one_text_at_a_time texts : forall m outcome m',
  get_gemini_embeddings texts m = (outcome, m') ->
  exists requested,
    trace m'
    = trace m
      ++ ((fun text => EvGeminiEmbedContent "models/embedding-001" text
                         "retrieval_document") <$> requested) /\
    match outcome with
    | inr embeddings =>
        requested = texts /\ length embeddings = length texts
    | inl _ =>
        exists n, n < length texts /\ requested = take (S n) texts
    end.
Proof.
  induction texts as [|text texts IH]; intros m outcome m' Hrun.
  - injection Hrun as <- <-. exists []. by rewrite app_nil_r.
  - cbn [get_gemini_embeddings] in Hrun. unfold bind at 1 in Hrun.
    unfold call at 1 in Hrun.
    destruct (genai_embed_content _ text _ (world m)) as [[e|emb] w1].
    + injection Hrun as <- <-. exists [text]. split; [done|].
      exists 0. split; [simpl; lia|done].
    + unfold bind at 1 in Hrun.
      destruct (get_gemini_embeddings texts _) as [[e|embs] m2] eqn:Hrest.
      * injection Hrun as <- <-.
        destruct (IH _ _ _ Hrest) as (req & Htr & n & Hn & ->).
        exists (text :: take (S n) texts). split.
        -- rewrite Htr. simpl. by rewrite <- app_assoc.
        -- exists (S n). split; [simpl; lia|done].
      * injection Hrun as <- <-.
        destruct (IH _ _ _ Hrest) as (req & Htr & -> & Hlen).
        exists (text :: texts). split.
        -- rewrite Htr. simpl. by rewrite <- app_assoc.
        -- split; [done|]. simpl. by rewrite Hlen.
Qed.


(** *** How many calls a run makes *)

Lemma count_events_app p (a b : list Event) :
  count_events p (a ++ b) = count_events p a + count_events p b.
Proof. unfold count_events. by rewrite List.filter_app, length_app. Qed.

Lemma count_type_cons nodes t x o :
  count_type nodes t (x :: o)
  = (if bool_decide (node_type nodes x = Some t) then 1 else 0)
    + count_type nodes t o.
Proof.
  unfold count_type. cbn [List.filter].
  by destruct (bool_decide (node_type nodes x = Some t)).
Qed.

Lemma retrieval_events_counts query_text n_results evs :
  Forall (retrieval_event query_text n_results) evs ->
  count_events is_generation evs = 0 /\
  count_events is_collection_lookup evs = 0 /\
  count_events is_web_search evs = 0.
Proof.
  intros Hall. induction Hall as [|ev evs Hev Hall IH]; [done|].
  destruct IH as (IH1 & IH2 & IH3).
  unfold count_events in *.
  destruct Hev as [-> | [-> | ->]]; cbn [List.filter is_generation
    is_collection_lookup is_web_search]; done.
Qed.

Lemma execute_node_calls nodes cfgs x st m st' m' :
  execute_node nodes cfgs x st m = (inr st', m') ->
  exists evs,
    trace m' = trace m ++ evs /\
    count_events is_generation evs
    = (if bool_decide (node_type nodes x = Some "llmEngine") then 1 else 0) /\
    count_events is_collection_lookup evs
    = (if bool_decide (node_type nodes x = Some "knowledgeBase")
       then 1 else 0) /\
    count_events is_web_search evs
    = (if searches nodes cfgs x then 1 else 0).
Proof.
  unfold execute_node, searches, node_type.
  destruct (List.find _ nodes) as [node|]; [|done]. cbn [fmap option_fmap option_map].
  destruct (decide (componentType node = "userQuery")) as [Ht|Hq].
  { rewrite Ht. simpl. intros [= <- <-]. exists []. by rewrite app_nil_r. }
  rewrite (bool_decide_eq_false_2 _ Hq).
  destruct (decide (componentType node = "knowledgeBase")) as [Ht|Hkb].
  { rewrite Ht. simpl. unfold try_except, bind, ret.
    destruct (query_collection_trace
                (config_get (default ∅ (cfgs !! x)) "collectionName"
                   (VStr "default"))
                (st_query st)
                (config_get (default ∅ (cfgs !! x)) "embeddingModel"
                   (VStr "openai")) 3 m) as (evs & Htr & Hevs).
    destruct (retrieval_events_counts _ _ _ Hevs) as (Hg & Hl & Hw).
    intros Hrun.
    assert (m' = (query_collection
                    (config_get (default ∅ (cfgs !! x)) "collectionName"
                       (VStr "default"))
                    (st_query st)
                    (config_get (default ∅ (cfgs !! x)) "embeddingModel"
                       (VStr "openai")) 3 m).2) as ->.
    { destruct (query_collection _ _ _ _ m) as [[e|r] m1];
        by injection Hrun as _ <-. }
    eexists. split; [exact Htr|].
    change (EvGetCollection ?n :: evs) with ([EvGetCollection n] ++ evs).
    rewrite !count_events_app, Hg, Hl, Hw. done. }
  rewrite (bool_decide_eq_false_2 _ Hkb).
  destruct (decide (componentType node = "llmEngine")) as [Ht|Hllm].
  { rewrite Ht. simpl. unfold bind at 1.
    destruct (generate_response _ _ _ _ _ _ _ _ m) as [[e|r] m1] eqn:Hgen;
      [done|].
    intros [= _ <-].
    destruct (generate_response_trace _ _ _ _ _ _ _ _ _ _ _ Hgen)
      as (ev & Hev & Htr).
    eexists. split; [exact Htr|].
    rewrite !count_events_app.
    destruct (truthy _); unfold count_events; cbn [List.filter];
      rewrite Hev; destruct ev; try done. }
  rewrite (bool_decide_eq_false_2 _ Hllm).
  assert (Hnone : forall t, t = "llmEngine" \/ t = "knowledgeBase" ->
            bool_decide (Some (componentType node) = Some t) = false).
  { intros t Ht. apply bool_decide_eq_false_2. intros [= Heq].
    destruct Ht; congruence. }
  rewrite !Hnone by auto. simpl.
  intros Hrun. exists []. rewrite app_nil_r. split; [|done].
  by destruct (bool_decide (componentType node = "output"));
    injection Hrun as _ <-.
Qed.

(** X16.  A run that succeeds has called a model exactly once per generation
    node of the order, looked up a collection exactly once per
    knowledge-retrieval node, and searched the web exactly once per
    generation node with web search enabled; nothing of what it called
    earlier is taken off the trace. *)
Theorem run_order_call_counts nodes cfgs o : forall st m st' m',
  run_order nodes cfgs o st m = (inr st', m') ->
  exists evs,
    trace m' = trace m ++ evs /\
    count_events is_generation evs = count_type nodes "llmEngine" o /\
    count_events is_collection_lookup evs
    = count_type nodes "knowledgeBase" o /\
    count_events is_web_search evs
    = length (List.filter (searches nodes cfgs) o).
Proof.
  induction o as [|x o IH]; intros st m st' m' Hrun.
  - injection Hrun as _ <-. exists []. by rewrite app_nil_r.
  - cbn [run_order] in Hrun. unfold bind in Hrun.
    destruct (execute_node nodes cfgs x st m) as [[e|s1] m1] eqn:Hx; [done|].
    destruct (execute_node_calls _ _ _ _ _ _ _ Hx)
      as (evs1 & Htr1 & Hg1 & Hl1 & Hw1).
    destruct (IH _ _ _ _ Hrun) as (evs2 & Htr2 & Hg2 & Hl2 & Hw2).
    exists (evs1 ++ evs2). split; [by rewrite Htr2, Htr1, app_assoc|].
    rewrite !count_events_app, !count_type_cons, Hg1, Hg2, Hl1, Hl2, Hw1, Hw2.
    cbn [List.filter]. by destruct (searches nodes cfgs x).
Qed.

End FurtherExecutorFacts.


(** *** The further properties on concrete graphs *)

Lemma dangling_source_witness :
  sources_exist example_nodes [mkEdge "A" "B"] /\
  (source (mkEdge "Z" "A") ∉ id <$> example_nodes) /\
  build_execution_order 5 example_nodes
    ([mkEdge "A" "B"] ++ mkEdge "Z" "A" :: [mkEdge "B" "C"])
  = inl (KeyError (source (mkEdge "Z" "A"))).
Proof.
  assert (H1 : sources_exist example_nodes [mkEdge "A" "B"]).
  { apply (bool_decide_unpack _). vm_compute. exact I. }
  assert (H2 : source (mkEdge "Z" "A") ∉ id <$> example_nodes).
  { apply (bool_decide_unpack _). vm_compute. exact I. }
  known.
  exact (dangling_source_raises_key_error 5 example_nodes [mkEdge "A" "B"]
           (mkEdge "Z" "A") [mkEdge "B" "C"] H1 H2).
Defined.

(** On the graph [fan_edges] the order is [A, B, E, C, D]: after [E],
    which has no successor, the traversal goes back to the successors of
    [A] in edge-list order.  The list [A, B, E, D, C] does not follow the
    rule. *)
Example order_of_fan :
  build_execution_order 7 fan_nodes fan_edges
  = inr ["A"; "B"; "E"; "C"; "D"] /\
  next_visit fan_edges ["A"; "B"; "E"] = Some "C" /\
  ["A"; "B"; "E"; "D"; "C"] !! 3 <> next_visit fan_edges ["A"; "B"; "E"].
Proof. split; [|split]; vm_compute; [reflexivity..|discriminate]. Qed.

Lemma first_query_source_witness :
  query_sources fan_nodes
  = mkNode "A" "userQuery" :: [mkNode "Q" "userQuery"] /\
  id (mkNode "A" "userQuery") <> "" /\
  sources_exist fan_nodes fan_edges /\
  enough_depth fan_edges <= 7 /\
  exists o,
    build_execution_order 7 fan_nodes fan_edges = inr o /\
    head o = Some (id (mkNode "A" "userQuery")) /\
    NoDup o /\
    (forall x, x ∈ o <-> reachable fan_edges (id (mkNode "A" "userQuery")) x) /\
    (forall i, o !! S i = next_visit fan_edges (take (S i) o)) /\
    (forall o',
       head o' = Some (id (mkNode "A" "userQuery")) ->
       (forall i, o' !! S i = next_visit fan_edges (take (S i) o')) ->
       o' = o).
Proof.
  assert (H1 : query_sources fan_nodes
               = mkNode "A" "userQuery" :: [mkNode "Q" "userQuery"])
    by reflexivity.
  assert (H2 : id (mkNode "A" "userQuery") <> "") by discriminate.
  assert (H3 : sources_exist fan_nodes fan_edges).
  { apply (bool_decide_unpack _). vm_compute. exact I. }
  assert (H4 : enough_depth fan_edges <= 7) by exact (le_n 7).
  known.
  exact (first_query_source_starts_the_order 7 fan_nodes fan_edges
           (mkNode "A" "userQuery") [mkNode "Q" "userQuery"] H1 H2 H3 H4).
Defined.

Lemma dangling_target_witness :
  find_start example_nodes = Some "A" /\
  reachable dangling_edges "A" "Z" /\
  ("Z" ∉ id <$> example_nodes) /\
  @execute_workflow example_backend 5 example_query example_nodes
    dangling_edges example_configs (machine0 example_backend 0)
  <> (inr (initial_state example_query), machine0 example_backend 0).
Proof.
  assert (H1 : find_start example_nodes = Some "A") by reflexivity.
  assert (H2 : reachable dangling_edges "A" "Z").
  { apply rtc_l with "B".
    - exists (mkEdge "A" "B"). split; [|split; reflexivity].
      apply elem_of_cons. left. reflexivity.
    - apply rtc_once. exists (mkEdge "B" "Z"). split; [|split; reflexivity].
      apply elem_of_cons. right. apply elem_of_cons. left. reflexivity. }
  assert (H3 : "Z" ∉ id <$> example_nodes).
  { apply (bool_decide_unpack _). vm_compute. exact I. }
  known.
  exact (@dangling_target_prevents_success example_backend 5 example_query
           example_nodes dangling_edges example_configs
           (machine0 example_backend 0) "A" "Z"
           (initial_state example_query) (machine0 example_backend 0)
           H1 H2 H3).
Defined.

Lemma unknown_identifier_witness :
  build_execution_order 5 example_nodes dangling_edges
  = inr (["A"; "B"] ++ "Z" :: []) /\
  @run_order example_backend example_nodes example_configs ["A"; "B"]
    (initial_state example_query) (machine0 example_backend 0)
  = (inr (mkState example_query (Some example_context) None None),
     @mkMachine example_backend 3 example_retrieval_trace) /\
  ("Z" ∉ id <$> example_nodes) /\
  @execute_workflow example_backend 5 example_query example_nodes
    dangling_edges example_configs (machine0 example_backend 0)
  = (inl (RuntimeError "coroutine raised StopIteration"),
     @mkMachine example_backend 3 example_retrieval_trace).
Proof.
  assert (H1 : build_execution_order 5 example_nodes dangling_edges
               = (inr (["A"; "B"] ++ "Z" :: [])))
    by (vm_compute; reflexivity).
  assert (H2 : @run_order example_backend example_nodes example_configs
                 ["A"; "B"] (initial_state example_query)
                 (machine0 example_backend 0)
               = (inr (mkState example_query (Some example_context) None None),
                  @mkMachine example_backend 3 example_retrieval_trace))
    by (vm_compute; reflexivity).
  assert (H3 : "Z" ∉ id <$> example_nodes).
  { apply (bool_decide_unpack _). vm_compute. exact I. }
  known.
  exact (@unknown_identifier_stops_the_run example_backend 5 example_query
           example_nodes dangling_edges example_configs
           (machine0 example_backend 0) ["A"; "B"] "Z" [] _ _ H1 H2 H3).
Defined.

Lemma gemini_ignores_witness :
  eq_str (VStr "gemini") "openai" = false /\
  @generate_response example_backend example_query None
    (VStr "Answer briefly.") (VStr "gemini") (VStr "gemini-pro")
    (VNum (7 # 10)%Q) (VBool false) (VStr "serpapi")
    (machine0 example_backend 0)
  = @generate_response example_backend example_query None
      VNone (VStr "gemini") (VStr "gemini-pro")
      (VNum (0 # 1)%Q) (VBool false) (VStr "serpapi")
      (machine0 example_backend 0).
Proof.
  assert (H1 : eq_str (VStr "gemini") "openai" = false) by reflexivity.
  known.
  exact (@gemini_ignores_system_prompt_and_temperature example_backend
           example_query None (VStr "Answer briefly.") VNone (VStr "gemini")
           (VStr "gemini-pro") (VNum (7 # 10)%Q) (VNum (0 # 1)%Q)
           (VBool false) (VStr "serpapi") (machine0 example_backend 0) H1).
Defined.

Lemma search_failure_witness :
  truthy (VBool true) = true /\
  @web_search_http failing_search_backend example_query (VStr "serpapi")
    (world (machine0 failing_search_backend 0))
  = (inl (ExternalError "SearchError"), 1) /\
  @generate_response failing_search_backend example_query None VNone
    (VStr "openai") (VStr "gpt-4") (VNum (7 # 10)%Q) (VBool true)
    (VStr "serpapi") (machine0 failing_search_backend 0)
  = (inl (ExternalError "SearchError"),
     @mkMachine failing_search_backend 1
       (trace (machine0 failing_search_backend 0)
        ++ [EvWebSearch example_query (VStr "serpapi")])).
Proof.
  assert (H1 : truthy (VBool true) = true) by reflexivity.
  assert (H2 : @web_search_http failing_search_backend example_query
                 (VStr "serpapi") (world (machine0 failing_search_backend 0))
               = (inl (ExternalError "SearchError"), 1))
    by reflexivity.
  known.
  exact (@search_failure_precedes_generation failing_search_backend
           example_query None VNone (VStr "openai") (VStr "gpt-4")
           (VNum (7 # 10)%Q) (VBool true) (VStr "serpapi")
           (machine0 failing_search_backend 0)
           (ExternalError "SearchError") 1 H1 H2).
Defined.

Lemma retrieval_stops_witness :
  @chroma_get_collection failing_retrieval_backend (VStr "default")
    (world (machine0 failing_retrieval_backend 0))
  = (inl (ExternalError "RetrievalError"), 1) /\
  @query_collection failing_retrieval_backend (VStr "default") example_query
    (VStr "openai") 3 (machine0 failing_retrieval_backend 0)
  = (inl (ExternalError "RetrievalError"),
     @mkMachine failing_retrieval_backend 1
       (trace (machine0 failing_retrieval_backend 0)
        ++ [EvGetCollection (VStr "default")])).
Proof.
  assert (H1 : @chroma_get_collection failing_retrieval_backend
                 (VStr "default")
                 (world (machine0 failing_retrieval_backend 0))
               = (inl (ExternalError "RetrievalError"), 1))
    by reflexivity.
  known.
  exact (proj1 (@retrieval_stops_at_first_failure failing_retrieval_backend
                  (VStr "default") example_query 3
                  (machine0 failing_retrieval_backend 0)
                  (ExternalError "RetrievalError") 1)
               (VStr "openai") H1).
Defined.

Lemma retrieval_pairs_witness :
  @query_collection example_backend (VStr "default") example_query
    (VStr "openai") 3 (machine0 example_backend 0)
  = (inr [@mkChunk example_backend "X is a thing." 1;
          @mkChunk example_backend "X was invented in 1990." 2],
     @mkMachine example_backend 3 example_retrieval_trace) /\
  exists collection w1 embedding w2 documents more_documents distances
         more_distances,
    @chroma_get_collection example_backend (VStr "default")
      (world (machine0 example_backend 0)) = (inr collection, w1) /\
    @collection_query example_backend collection [embedding] 3 w2
    = (inr (documents :: more_documents, distances :: more_distances),
       world (@mkMachine example_backend 3 example_retrieval_trace)) /\
    content <$> [@mkChunk example_backend "X is a thing." 1;
                 @mkChunk example_backend "X was invented in 1990." 2]
    = take (length distances) documents /\
    length [@mkChunk example_backend "X is a thing." 1;
            @mkChunk example_backend "X was invented in 1990." 2]
    = length documents `min` length distances.
Proof.
  assert (H1 : @query_collection example_backend (VStr "default")
                 example_query (VStr "openai") 3 (machine0 example_backend 0)
               = (inr [@mkChunk example_backend "X is a thing." 1;
                       @mkChunk example_backend "X was invented in 1990." 2],
                  @mkMachine example_backend 3 example_retrieval_trace))
    by (vm_compute; reflexivity).
  known.
  exact (@retrieval_pairs_documents_with_distances example_backend
           (VStr "default") example_query (VStr "openai") 3
           (machine0 example_backend 0) _ _ H1).
Defined.

Lemma gemini_embeds_witness :
  @get_gemini_embeddings example_backend ["a"; "b"]
    (machine0 example_backend 0)
  = (inr ["a"; "b"],
     @mkMachine example_backend 2
       [EvGeminiEmbedContent "models/embedding-001" "a" "retrieval_document";
        EvGeminiEmbedContent "models/embedding-001" "b" "retrieval_document"]) /\
  exists requested,
    [EvGeminiEmbedContent "models/embedding-001" "a" "retrieval_document";
     EvGeminiEmbedContent "models/embedding-001" "b" "retrieval_document"]
    = trace (machine0 example_backend 0)
      ++ ((fun text => EvGeminiEmbedContent "models/embedding-001" text
                         "retrieval_document") <$> requested) /\
    requested = ["a"; "b"] /\
    length (A := @Embedding example_backend) ["a"; "b"]
    = length ["a"; "b"].
Proof.
  assert (H1 : @get_gemini_embeddings example_backend ["a"; "b"]
                 (machine0 example_backend 0)
               = (inr ["a"; "b"],
                  @mkMachine example_backend 2
                    [EvGeminiEmbedContent "models/embedding-001" "a"
                       "retrieval_document";
                     EvGeminiEmbedContent "models/embedding-001" "b"
                       "retrieval_document"]))
    by (vm_compute; reflexivity).
  known.
  exact (@gemini_embeds_one_text_at_a_time example_backend ["a"; "b"]
           (machine0 example_backend 0) _ _ H1).
Defined.

Lemma run_order_call_counts_witness :
  @run_order example_backend example_nodes search_configs
    ["A"; "B"; "C"; "D"] (initial_state example_query)
    (machine0 example_backend 0)
  = (inr example_search_state,
     @mkMachine example_backend 5
       (example_retrieval_trace ++ example_search_events)) /\
  exists evs,
    example_retrieval_trace ++ example_search_events
    = trace (machine0 example_backend 0) ++ evs /\
    count_events is_generation evs
    = count_type example_nodes "llmEngine" ["A"; "B"; "C"; "D"] /\
    count_events is_collection_lookup evs
    = count_type example_nodes "knowledgeBase" ["A"; "B"; "C"; "D"] /\
    count_events is_web_search evs
    = length (List.filter (searches example_nodes search_configs)
                ["A"; "B"; "C"; "D"]).
Proof.
  assert (H1 : @run_order example_backend example_nodes search_configs
                 ["A"; "B"; "C"; "D"] (initial_state example_query)
                 (machine0 example_backend 0)
               = (inr example_search_state,
                  @mkMachine example_backend 5
                    (example_retrieval_trace ++ example_search_events)))
    by (vm_compute; reflexivity).
  known.
  exact (@run_order_call_counts example_backend example_nodes search_configs
           ["A"; "B"; "C"; "D"] _ _ _ _ H1).
Defined.


(** ** Ingestion *)

Section IngestionFacts.
Context `{Platform}.

Lemma lift_call {A} ev (f : World -> (exn + A) * World) s :
  lift (call ev f) s
  = (let (r, w') := f (sys_world s) in
     (r, mkSystem w' (calls s ++ [BackendCall ev]))).
Proof. unfold lift, call. simpl. by destruct (f (sys_world s)). Qed.

Lemma create_collection_created name s collection w1 :
  chroma_create_collection name (sys_world s) = (inr collection, w1) ->
  create_collection name s
  = (inr collection, mkSystem w1 (calls s ++ [CreateCollection name])).
Proof.
  intros Hc. unfold create_collection, s_try, s_call. by rewrite Hc.
Qed.

Lemma get_gemini_embeddings_failure texts : forall m e m',
  get_gemini_embeddings texts m = (inl e, m') ->
  exists n,
    n < length texts /\
    trace m'
    = trace m
      ++ ((fun text => EvGeminiEmbedContent "models/embedding-001" text
                         "retrieval_document") <$> take (S n) texts).
Proof.
  induction texts as [|text texts IH]; intros m e m' Hrun; [done|].
  cbn [get_gemini_embeddings] in Hrun. unfold bind at 1 in Hrun.
  unfold call at 1 in Hrun.
  destruct (genai_embed_content _ text _ (world m)) as [[e1|emb] w1].
  - injection Hrun as <- <-. exists 0. split; [simpl; lia|done].
  - unfold bind at 1 in Hrun.
    destruct (get_gemini_embeddings texts _) as [[e2|embs] m2] eqn:Hrest;
      [|done].
    injection Hrun as <- <-.
    destruct (IH _ _ _ Hrest) as (n & Hn & Htr).
    exists (S n). split; [simpl; lia|].
    rewrite Htr. simpl. by rewrite <- app_assoc.
Qed.

(** X17.  [create_collection] asks the store to create the collection and, when
    that raises for whatever reason, asks for the existing one instead:
    the outcome is then the outcome of the lookup and the error of the
    creation is lost.  When the creation goes through, no lookup is
    made. *)
Theorem create_collection_falls_back name s :
  (forall collection w1,
     chroma_create_collection name (sys_world s) = (inr collection, w1) ->
     create_collection name s
     = (inr collection, mkSystem w1 (calls s ++ [CreateCollection name]))) /\
  (forall e w1 outcome w2,
     chroma_create_collection name (sys_world s) = (inl e, w1) ->
     chroma_get_collection name w1 = (outcome, w2) ->
     create_collection name s
     = (outcome,
        mkSystem w2
          (calls s ++ [CreateCollection name;
                       BackendCall (EvGetCollection name)]))).
Proof.
  split.
  - intros collection w1 Hc. unfold create_collection, s_try, s_call.
    by rewrite Hc.
  - intros e w1 outcome w2 Hc Hg. unfold create_collection, s_try.
    unfold s_call at 1. rewrite Hc. rewrite lift_call. simpl.
    rewrite Hg. by rewrite <- app_assoc.
Qed.

Lemma create_collection_calls name s :
  exists lookup,
    calls (create_collection name s).2
    = calls s ++ CreateCollection name :: lookup /\
    (lookup = [] \/ lookup = [BackendCall (EvGetCollection name)]).
Proof.
  unfold create_collection, s_try. unfold s_call at 1.
  destruct (chroma_create_collection name (sys_world s)) as [[e|c] w1].
  - rewrite lift_call. simpl.
    destruct (chroma_get_collection name w1) as [r w2]. simpl.
    eexists. split; [by rewrite <- app_assoc|]. by right.
  - eexists. split; [done|]. by left.
Qed.

Lemma lift_calls {A} (c : M A) s :
  exists evs, calls (lift c s).2 = calls s ++ (BackendCall <$> evs).
Proof.
  unfold lift. destruct (c _) as [r m']. simpl. eauto.
Qed.

(** X18.  [add_documents] inserts once, as its last call and only after the
    collection and all embeddings were obtained: when it returns, the
    insertion carried the contents and the identifiers of the chunks in
    their order, and the count reported is the number of chunks; when it
    raises before the insertion, nothing was inserted. *)
Theorem add_documents_inserts_last name chunks embedding_model s
    outcome s' :
  add_documents name chunks embedding_model s = (outcome, s') ->
  exists before inserted,
    calls s' = calls s ++ before ++ inserted /\
    Forall (fun c => is_insert c = false) before /\
    (inserted = [] \/
     exists n, inserted = [CollectionAdd n (stored_content <$> chunks)
                             (stored_id <$> chunks)]) /\
    match outcome with
    | inr result =>
        inserted <> [] /\
        result = mkAddResult "success" (length chunks)
    | inl _ => True
    end.
Proof.
  unfold add_documents. unfold s_bind at 1.
  destruct (create_collection_calls name s) as (lookup & Hcalls & Hlookup).
  destruct (create_collection name s) as [[e|coll] s1] eqn:Hcreate.
  { intros [= <- <-]. simpl in Hcalls.
    exists (CreateCollection name :: lookup), []. rewrite app_nil_r.
    split; [done|]. split; [|split; [by left|done]].
    constructor; [done|]. by destruct Hlookup as [->| ->]; repeat constructor. }
  simpl in Hcalls. unfold s_bind at 1.
  set (embed := if eq_str embedding_model "openai"
                then lift (get_openai_embeddings (stored_content <$> chunks))
                else lift (get_gemini_embeddings (stored_content <$> chunks))).
  assert (Hembed : exists evs,
             calls (embed s1).2 = calls s1 ++ (BackendCall <$> evs)).
  { unfold embed. destruct (eq_str embedding_model "openai");
      apply lift_calls. }
  destruct Hembed as (evs & Hevs).
  assert (Hbefore : Forall (fun c => is_insert c = false)
                      (CreateCollection name :: lookup
                       ++ (BackendCall <$> evs))).
  { constructor; [done|]. apply Forall_app. split.
    - by destruct Hlookup as [->| ->]; repeat constructor.
    - apply Forall_fmap, Forall_true. by intros ev. }
  destruct (embed s1) as [[e|embeddings] s2].
  { intros [= <- <-]. simpl in Hevs.
    exists (CreateCollection name :: lookup ++ (BackendCall <$> evs)), [].
    rewrite app_nil_r. split.
    - rewrite Hevs, Hcalls. by rewrite <- app_assoc.
    - split; [done|]. split; [by left|done]. }
  simpl in Hevs. unfold s_bind, s_call, s_ret.
  destruct (collection_add coll embeddings _ _ (sys_world s2)) as [[e|[]] w3];
    intros [= <- <-]; simpl;
    exists (CreateCollection name :: lookup ++ (BackendCall <$> evs)),
           [CollectionAdd (length embeddings) (stored_content <$> chunks)
              (stored_id <$> chunks)];
    (split; [rewrite Hevs, Hcalls; rewrite <- !app_assoc; simpl;
             by rewrite <- !app_assoc|]);
    (split; [done|]); (split; [right; eauto|]); done.
Qed.

(** X19.  With the OpenAI model [add_documents] sends all chunk contents in one
    embedding request; with any other model it sends one request per
    chunk, and a failing request leaves the remaining chunks unembedded
    and the collection untouched. *)
Theorem add_documents_embedding_requests name chunks collection w1 s :
  chroma_create_collection name (sys_world s) = (inr collection, w1) ->
  (forall e w2,
     openai_embeddings_create "text-embedding-ada-002"
       (stored_content <$> chunks) w1 = (inl e, w2) ->
     add_documents name chunks (VStr "openai") s
     = (inl e,
        mkSystem w2
          (calls s
           ++ [CreateCollection name;
               BackendCall (EvOpenAIEmbeddings "text-embedding-ada-002"
                              (stored_content <$> chunks))]))) /\
  (forall embedding_model e m2,
     eq_str embedding_model "openai" = false ->
     get_gemini_embeddings (stored_content <$> chunks) (mkMachine w1 [])
     = (inl e, m2) ->
     exists n,
       n < length chunks /\
       add_documents name chunks embedding_model s
       = (inl e,
          mkSystem (world m2)
            (calls s
             ++ CreateCollection name
                :: ((fun text =>
                       BackendCall
                         (EvGeminiEmbedContent "models/embedding-001" text
                            "retrieval_document"))
                    <$> take (S n) (stored_content <$> chunks))))).
Proof.
  intros Hcreate.
  assert (Hc : create_collection name s
               = (inr collection,
                  mkSystem w1 (calls s ++ [CreateCollection name])))
    by by apply create_collection_created.
  split.
  - intros e w2 Hemb. unfold add_documents. unfold s_bind at 1.
    rewrite Hc. unfold s_bind at 1.
    assert (Heq : eq_str (VStr "openai") "openai" = true) by reflexivity.
    rewrite Heq. unfold get_openai_embeddings. rewrite lift_call. simpl.
    rewrite Hemb. by rewrite <- app_assoc.
  - intros embedding_model e m2 Hmodel Hemb. unfold add_documents.
    unfold s_bind at 1. rewrite Hc. unfold s_bind at 1. rewrite Hmodel.
    unfold lift. simpl. rewrite Hemb.
    destruct (get_gemini_embeddings_failure _ _ _ _ Hemb)
      as (n & Hn & Htr).
    rewrite length_fmap in Hn. exists n. split; [done|].
    simpl in Htr. rewrite Htr. rewrite <- list_fmap_compose.
    by rewrite <- app_assoc.
Qed.

End IngestionFacts.


(** ** The request handlers *)

(** Once the interpreter allows [enough_depth] nested calls, the limit
    has no part in what the resolver gives, whatever the graph. *)
Lemma resolver_depth_indifferent depth depth' nodes edges :
  enough_depth edges <= depth -> enough_depth edges <= depth' ->
  build_execution_order depth nodes edges
  = build_execution_order depth' nodes edges.
Proof.
  intros Hdepth Hdepth'.
  destruct (add_edges edges (init_graph nodes)) as [e|graph] eqn:Hadd;
    [unfold build_execution_order; by rewrite Hadd|].
  destruct (find_start nodes) as [s|] eqn:Hfs;
    [|unfold build_execution_order; by rewrite Hadd, Hfs].
  destruct (decide (s = "")) as [->|Hs];
    [unfold build_execution_order; by rewrite Hadd, Hfs|].
  assert (Hsrc : sources_exist nodes edges).
  { apply sources_exist_dom. by eapply add_edges_sources. }
  destruct (resolver_returns depth _ _ _ Hsrc Hfs Hs Hdepth) as [o Ho].
  destruct (resolver_returns depth' _ _ _ Hsrc Hfs Hs Hdepth') as [o' Ho'].
  rewrite Ho, Ho'.
  apply (build_execution_order_depth_mono _ (depth `max` depth')) in Ho;
    [|done|lia].
  apply (build_execution_order_depth_mono _ (depth `max` depth')) in Ho';
    [|done|lia].
  congruence.
Qed.

Section HandlerFacts.
Context `{Platform}.

(** X20.  A request that lacks the query, or whose run raises, is answered with
    status 500 carrying that exception, and no chat-history row is added
    or committed: with a missing key nothing at all is called, and after
    a failed run only the calls of the run have been made. *)
Theorem failed_run_leaves_no_history depth execution_data s :
  (data_query execution_data = None ->
   execute_workflow_handler depth execution_data s
   = Some (HTTPException 500 (KeyError "query"), s)) /\
  (forall query nodes edges e m',
     data_query execution_data = Some query ->
     data_nodes execution_data = Some nodes ->
     data_edges execution_data = Some edges ->
     execute_workflow depth query nodes edges
       (default ∅ (data_nodeConfigs execution_data))
       (mkMachine (sys_world s) []) = (inl e, m') ->
     execute_workflow_handler depth execution_data s
     = Some (HTTPException 500 e, after_run s m')).
Proof.
  split.
  - intros Hq. unfold execute_workflow_handler, respond. rewrite Hq. done.
  - intros query nodes edges e m' Hq Hn He Hrun.
    unfold execute_workflow_handler, respond. rewrite Hq, Hn, He.
    unfold subscript, h_bind, h_ret, run_workflow, service, lift.
    by rewrite Hrun.
Qed.

(** X21.  After a successful run for a request with a truthy workflow id the
    handler adds the user row and then the assistant row, whose content
    is the response of the run (absent when no generation node ran) and
    whose metadata is that of the run, and commits once.  The run's
    result is returned when the commit goes through; when the commit
    raises, the request is answered with status 500 although the run has
    succeeded. *)
Theorem successful_run_is_recorded depth execution_data s query nodes edges
    workflow_id result m' outcome w2 :
  data_query execution_data = Some query ->
  data_nodes execution_data = Some nodes ->
  data_edges execution_data = Some edges ->
  data_workflow_id execution_data = Some workflow_id ->
  truthy workflow_id = true ->
  execute_workflow depth query nodes edges
    (default ∅ (data_nodeConfigs execution_data))
    (mkMachine (sys_world s) []) = (inr result, m') ->
  db_commit (world m') = (outcome, w2) ->
  execute_workflow_handler depth execution_data s
  = Some (match outcome with
          | inr _ => Returned result
          | inl e => HTTPException 500 e
          end,
          mkSystem w2
            (calls s ++ (BackendCall <$> trace m')
             ++ [DbAdd (ChatHistory workflow_id "user" (Some query) None);
                 DbAdd (ChatHistory workflow_id "assistant"
                          (st_response result) (Some (st_metadata result)));
                 DbCommit])).
Proof.
  intros Hq Hn He Hw Ht Hrun Hcommit.
  unfold execute_workflow_handler, respond. rewrite Hq, Hn, He, Hw.
  unfold subscript, h_bind, h_ret, run_workflow, service, lift.
  rewrite Hrun.
  change (default VNone (Some workflow_id)) with workflow_id. rewrite Ht.
  unfold db_add, s_call. simpl. rewrite Hcommit.
  destruct outcome as [e|[]]; by rewrite <- !app_assoc.
Qed.

(** X22.  Without a workflow id, or with one that is falsy such as [0], null or
    the empty string, a successful run is returned as it is and nothing
    is added to the database session. *)
Theorem falsy_workflow_id_skips_history depth execution_data s query nodes
    edges result m' :
  data_query execution_data = Some query ->
  data_nodes execution_data = Some nodes ->
  data_edges execution_data = Some edges ->
  truthy (default VNone (data_workflow_id execution_data)) = false ->
  execute_workflow depth query nodes edges
    (default ∅ (data_nodeConfigs execution_data))
    (mkMachine (sys_world s) []) = (inr result, m') ->
  execute_workflow_handler depth execution_data s
  = Some (Returned result, after_run s m').
Proof.
  intros Hq Hn He Ht Hrun.
  unfold execute_workflow_handler, respond. rewrite Hq, Hn, He.
  unfold subscript, h_bind, h_ret, run_workflow, service, lift.
  rewrite Hrun, Ht. done.
Qed.

(** *** Uploading a document *)

(** The upload handler's processor cuts a text of [n] characters into
    [n / 800] chunks, rounded up, and returns within that many
    iterations and one more. *)
Lemma process_document_default fuel file_bytes filename s pages w1 :
  pdf_page_texts file_bytes (sys_world s) = (inr pages, w1) ->
  DocumentProcessor.chunk_count 1000 200 (length (concat pages)) < fuel ->
  exists chunks,
    process_document 1000 200 fuel file_bytes filename s
    = Some (inr (mkProcessedDocument filename (concat pages) chunks
                   (length chunks)),
            mkSystem w1 (calls s ++ [ExtractText])) /\
    DocumentProcessor.chunk_text
      (fun chunk => md5_hexdigest (encode chunk)) 1000 200 fuel
      (concat pages) = Some chunks /\
    length chunks
    = DocumentProcessor.chunk_count 1000 200 (length (concat pages)).
Proof.
  intros Hpages Hfuel.
  unfold process_document, h_bind, service, extract_text_from_pdf.
  unfold s_bind, s_call, s_ret. rewrite Hpages. unfold fuelled, h_ret.
  rewrite chunk_text_returns; [|done..].
  eexists. split; [done|]. split; [done|].
  by rewrite length_fmap, length_seq.
Qed.

(** X23.  An upload whose file is read and parsed stores the document
    row, with the whole text and the number of chunks, which is the
    number of characters of the text divided by 800 and rounded up, and
    commits it before the vector store is touched.  When the commit
    raises, no collection is created and no embedding is requested; when
    the vector store or an embedding request raises afterwards, the
    request is answered with status 500 while the row stays committed. *)
Theorem upload_commits_before_embedding fuel file collection_name
    embedding_model s file_bytes w1 pages w2 :
  upload_read file (sys_world s) = (inr file_bytes, w1) ->
  pdf_page_texts file_bytes w1 = (inr pages, w2) ->
  DocumentProcessor.chunk_count 1000 200 (length (concat pages)) < fuel ->
  let text := concat pages in
  let row :=
    Document (upload_filename file) (encode text)
      (DocumentProcessor.chunk_count 1000 200 (length text)) in
  (forall e w3,
     db_commit w2 = (inl e, w3) ->
     upload_document fuel file collection_name embedding_model s
     = Some (HTTPException 500 e,
             mkSystem w3
               (calls s ++ [ReadUpload; ExtractText; DbAdd row; DbCommit]))) /\
  (forall w3 chunks e s4,
     db_commit w2 = (inr tt, w3) ->
     DocumentProcessor.chunk_text
       (fun chunk => md5_hexdigest (encode chunk)) 1000 200 fuel text
     = Some chunks ->
     add_documents (VStr collection_name) (stored_chunk <$> chunks)
       (VStr embedding_model)
       (mkSystem w3
          (calls s ++ [ReadUpload; ExtractText; DbAdd row; DbCommit]))
     = (inl e, s4) ->
     upload_document fuel file collection_name embedding_model s
     = Some (HTTPException 500 e, s4)).
Proof.
  intros Hread Hpages Hfuel text row.
  assert (Hproc := process_document_default fuel file_bytes
                     (upload_filename file)
                     (mkSystem w1 (calls s ++ [ReadUpload])) pages w2
                     Hpages Hfuel).
  destruct Hproc as (chunks0 & Hproc & Hchunks & Hlen).
  split.
  - intros e w3 Hcommit. unfold upload_document, respond.
    unfold h_bind at 1. unfold service at 1. unfold s_call at 1.
    rewrite Hread. unfold h_bind at 1. rewrite Hproc.
    unfold h_bind at 1. unfold service at 1. unfold db_add. simpl.
    unfold h_bind at 1. unfold service at 1. unfold s_call at 1. simpl.
    rewrite Hcommit. subst row text. rewrite Hlen.
    by rewrite <- !app_assoc.
  - intros w3 chunks e s4 Hcommit Hc Hadd. unfold upload_document, respond.
    unfold h_bind at 1. unfold service at 1. unfold s_call at 1.
    rewrite Hread. unfold h_bind at 1. rewrite Hproc.
    unfold h_bind at 1. unfold service at 1. unfold db_add. simpl.
    unfold h_bind at 1. unfold service at 1. unfold s_call at 1. simpl.
    rewrite Hcommit. unfold h_bind at 1. unfold service at 1.
    subst text. rewrite Hchunks in Hc. injection Hc as <-.
    subst row. rewrite Hlen.
    rewrite <- !app_assoc. simpl. by rewrite Hadd.
Qed.

Lemma add_documents_returns name chunks embedding_model s result s' :
  add_documents name chunks embedding_model s = (inr result, s') ->
  result = mkAddResult "success" (length chunks) /\
  exists made, calls s' = calls s ++ made.
Proof.
  unfold add_documents. unfold s_bind at 1.
  destruct (create_collection_calls name s) as (lookup & Hcalls & _).
  destruct (create_collection name s) as [[e|coll] s1]; [done|].
  simpl in Hcalls. unfold s_bind at 1.
  set (embed := if eq_str embedding_model "openai"
                then lift (get_openai_embeddings (stored_content <$> chunks))
                else lift (get_gemini_embeddings (stored_content <$> chunks))).
  assert (Hembed : exists evs,
             calls (embed s1).2 = calls s1 ++ (BackendCall <$> evs)).
  { unfold embed. destruct (eq_str embedding_model "openai");
      apply lift_calls. }
  destruct Hembed as (evs & Hevs).
  destruct (embed s1) as [[e|embeddings] s2]; [done|].
  simpl in Hevs. unfold s_bind, s_call, s_ret.
  destruct (collection_add coll embeddings _ _ (sys_world s2)) as [[e|[]] w3];
    [done|].
  intros [= <- <-]. split; [done|]. simpl. rewrite Hevs, Hcalls.
  eexists. by rewrite <- !app_assoc.
Qed.

(** X24.  An upload that is answered with a result has read the file
    and extracted the texts of its pages; it reports the file's own name
    and, as its number of chunks, the number of characters of the
    extracted text divided by 800 and rounded up; the same number is
    stored with the text in the document row, which is committed first,
    and is the count of the embedding result. *)
Theorem upload_reports_what_it_stored fuel file collection_name
    embedding_model s r s' :
  upload_document fuel file collection_name embedding_model s
  = Some (Returned r, s') ->
  exists file_bytes w1 pages w2 made,
    upload_read file (sys_world s) = (inr file_bytes, w1) /\
    pdf_page_texts file_bytes w1 = (inr pages, w2) /\
    up_status r = "success" /\
    up_filename r = upload_filename file /\
    up_chunks r
    = DocumentProcessor.chunk_count 1000 200 (length (concat pages)) /\
    up_embedding_result r = mkAddResult "success" (up_chunks r) /\
    calls s'
    = calls s
      ++ [ReadUpload; ExtractText;
          DbAdd (Document (upload_filename file) (encode (concat pages))
                   (up_chunks r));
          DbCommit]
      ++ made.
Proof.
  unfold upload_document, respond.
  unfold h_bind at 1. unfold service at 1. unfold s_call at 1.
  destruct (upload_read file (sys_world s)) as [[e|file_bytes] w1] eqn:Hread;
    [done|].
  unfold h_bind at 1. unfold process_document.
  unfold h_bind at 1. unfold service at 1. unfold extract_text_from_pdf.
  unfold s_bind, s_call, s_ret. simpl.
  destruct (pdf_page_texts file_bytes w1) as [[e|pages] w2] eqn:Hpages;
    [done|].
  unfold h_bind at 1. unfold fuelled.
  destruct (DocumentProcessor.chunk_text _ 1000 200 fuel _) as [chunks|]
    eqn:Hchunks; [|done].
  apply chunk_text_closed_form in Hchunks; [|done].
  assert (Hlen : length chunks
                 = DocumentProcessor.chunk_count 1000 200
                     (length (concat pages))).
  { rewrite Hchunks. by rewrite length_fmap, length_seq. }
  unfold h_ret at 1. cbv beta iota.
  unfold h_bind at 1. unfold service at 1. unfold db_add. simpl.
  unfold h_bind at 1. unfold service at 1. simpl.
  destruct (db_commit w2) as [[e|[]] w3]; [done|].
  unfold h_bind at 1. unfold service at 1.
  destruct (add_documents _ _ _ _) as [[e|result] s4] eqn:Hadd; [done|].
  apply add_documents_returns in Hadd as (-> & made & Hmade).
  simpl in Hmade.
  unfold h_bind, service, h_ret.
  destruct (document_id (sys_world s4)) as [[e|doc_id] w5]; [done|].
  intros [= <- <-]. simpl.
  exists file_bytes, w1, pages, w2, (made ++ [DbReadId]).
  rewrite length_fmap, Hmade, Hlen.
  repeat (split; [done|]).
  rewrite <- !app_assoc. simpl. by rewrite <- ?app_assoc.
Qed.

(** X25.  The execution handler answers every request, whatever the
    graph, whatever the collaborators do and whatever the recursion limit
    is: it returns the result of the run or raises an [HTTPException],
    and the status of that exception is always 500.  Once the interpreter
    allows two nested calls more than the request has edges, the limit
    has no part in the answer: the traversal is not what fails. *)
Theorem execute_handler_always_answers depth execution_data s :
  (exists response s',
     execute_workflow_handler depth execution_data s = Some (response, s') /\
     forall status_code e,
       response = HTTPException status_code e -> status_code = 500) /\
  (forall depth',
     enough_depth (default [] (data_edges execution_data)) <= depth ->
     enough_depth (default [] (data_edges execution_data)) <= depth' ->
     execute_workflow_handler depth' execution_data s
     = execute_workflow_handler depth execution_data s).
Proof.
  split.
  - unfold execute_workflow_handler, respond.
    assert (Hanswer :
              forall (body : option ((exn + ExecutionState) * System)),
                body <> None ->
                exists response s',
                  match body with
                  | None => None
                  | Some (inl e, s') => Some (HTTPException 500 e, s')
                  | Some (inr a, s') => Some (Returned a, s')
                  end = Some (response, s') /\
                  forall status_code e,
                    response = HTTPException status_code e ->
                    status_code = 500).
    { intros [[[e|a] s']|] Hbody; [| |done].
      - eexists _, _. split; [done|]. by intros ? ? [= -> _].
      - eexists _, _. split; [done|]. by intros. }
    apply Hanswer.
    destruct (data_query execution_data) as [query|]; [|done].
    destruct (data_nodes execution_data) as [nodes|]; [|done].
    destruct (data_edges execution_data) as [edges|]; [|done].
    unfold subscript, h_bind, h_ret, run_workflow, service, lift. simpl.
    destruct (execute_workflow _ _ _ _ _ _) as [[e|result] m']; [done|].
    destruct (truthy _); [|done].
    destruct (data_workflow_id execution_data) as [workflow_id|]; [|done].
    simpl. unfold db_add, s_call. simpl.
    by destruct (db_commit _) as [[e|[]] w2].
  - intros depth' Hdepth Hdepth'. unfold execute_workflow_handler.
    destruct (data_query execution_data) as [query|]; [|done].
    destruct (data_nodes execution_data) as [nodes|]; [|done].
    destruct (data_edges execution_data) as [edges|]; [|done].
    simpl in Hdepth, Hdepth'.
    unfold respond, subscript, h_bind, h_ret, run_workflow, service, lift.
    unfold execute_workflow.
    by rewrite (resolver_depth_indifferent depth' depth nodes edges).
Qed.

(** X26.  A file that cannot be read, or whose text cannot be extracted,
    is answered with status 500 and leaves nothing behind: no row is
    added, nothing is committed and the vector store is not called. *)
Theorem unreadable_upload_stores_nothing fuel file collection_name
    embedding_model s :
  (forall e w1,
     upload_read file (sys_world s) = (inl e, w1) ->
     upload_document fuel file collection_name embedding_model s
     = Some (HTTPException 500 e, mkSystem w1 (calls s ++ [ReadUpload]))) /\
  (forall file_bytes w1 e w2,
     upload_read file (sys_world s) = (inr file_bytes, w1) ->
     pdf_page_texts file_bytes w1 = (inl e, w2) ->
     upload_document fuel file collection_name embedding_model s
     = Some (HTTPException 500 e,
             mkSystem w2 (calls s ++ [ReadUpload; ExtractText]))).
Proof.
  split.
  - intros e w1 Hread. unfold upload_document, respond.
    unfold h_bind at 1. unfold service at 1. unfold s_call at 1.
    by rewrite Hread.
  - intros file_bytes w1 e w2 Hread Hpages. unfold upload_document, respond.
    unfold h_bind at 1. unfold service at 1. unfold s_call at 1.
    rewrite Hread. unfold h_bind at 1. unfold process_document.
    unfold h_bind at 1. unfold service at 1. unfold extract_text_from_pdf.
    unfold s_bind, s_call, s_ret. simpl. rewrite Hpages.
    by rewrite <- app_assoc.
Qed.

(** X27.  With the processor's sizes, 1000 and 200, the upload handler
    answers every upload: whatever the file holds and whatever the
    collaborators do, there is a number of loop iterations within which
    the handler has returned its result or raised an [HTTPException]. *)
Theorem upload_always_answers file collection_name embedding_model s :
  exists enough,
    forall fuel, enough <= fuel ->
      exists response s',
        upload_document fuel file collection_name embedding_model s
        = Some (response, s').
Proof.
  unfold upload_document, respond.
  unfold h_bind at 1. unfold service at 1. unfold s_call at 1.
  destruct (upload_read file (sys_world s)) as [[e|file_bytes] w1].
  { exists 0. intros fuel _. eauto. }
  unfold h_bind at 1.
  destruct (pdf_page_texts file_bytes w1) as [[e|pages] w2] eqn:Hpages.
  { exists 0. intros fuel _. unfold process_document.
    unfold h_bind at 1. unfold service at 1. unfold extract_text_from_pdf.
    unfold s_bind, s_call, s_ret. simpl. rewrite Hpages. eauto. }
  exists (S (DocumentProcessor.chunk_count 1000 200
               (length (concat pages)))).
  intros fuel Hfuel.
  destruct (process_document_default fuel file_bytes (upload_filename file)
              (mkSystem w1 (calls s ++ [ReadUpload])) pages w2 Hpages)
    as (chunks & -> & _); [lia|].
  unfold h_bind at 1. unfold service at 1. unfold db_add. simpl.
  unfold h_bind at 1. unfold service at 1. unfold s_call at 1. simpl.
  destruct (db_commit w2) as [[e|[]] w3]; [eauto|].
  unfold h_bind at 1. unfold service at 1.
  destruct (add_documents _ _ _ _) as [[e|result] s4]; [eauto|].
  unfold h_bind, service, s_call, h_ret.
  destruct (document_id (sys_world s4)) as [[e|doc_id] w5]; eauto.
Qed.

End HandlerFacts.


(** *** Ingestion and the handlers on the test doubles *)

Lemma create_collection_witness :
  @create_collection _ (limited_platform 5 false) (VStr "docs") (system0 5)
  = (inr (VStr "docs"),
     @mkSystem (limited_backend 5) 1 [CreateCollection (VStr "docs")]) /\
  @create_collection _ (limited_platform 5 true) (VStr "docs") (system0 5)
  = (inr (VStr "docs"),
     @mkSystem (limited_backend 5) 2
       [CreateCollection (VStr "docs");
        BackendCall (EvGetCollection (VStr "docs"))]).
Proof.
  assert (H1 : @chroma_create_collection _ (limited_platform 5 false)
                 (VStr "docs") 0 = (inr (VStr "docs"), 1))
    by reflexivity.
  assert (H2 : @chroma_create_collection _ (limited_platform 5 true)
                 (VStr "docs") 0
               = (inl (ExternalError "UniqueConstraintError"), 1))
    by reflexivity.
  assert (H3 : @chroma_get_collection (limited_backend 5) (VStr "docs") 1
               = (inr (VStr "docs"), 2))
    by reflexivity.
  split.
  - exact (proj1 (@create_collection_falls_back _ (limited_platform 5 false)
                    (VStr "docs") (system0 5)) _ _ H1).
  - exact (proj2 (@create_collection_falls_back _ (limited_platform 5 true)
                    (VStr "docs") (system0 5)) _ _ _ _ H2 H3).
Defined.

Lemma add_documents_inserts_last_witness :
  @add_documents _ (limited_platform 9 false) (VStr "docs") two_chunks
    (VStr "gemini") (system0 9)
  = (inr (mkAddResult "success" 2),
     @mkSystem (limited_backend 9) 4 two_chunks_calls) /\
  exists before inserted,
    two_chunks_calls = [] ++ before ++ inserted /\
    Forall (fun c => is_insert c = false) before /\
    (inserted = [] \/
     exists n, inserted = [CollectionAdd n (stored_content <$> two_chunks)
                             (stored_id <$> two_chunks)]) /\
    inserted <> [] /\
    mkAddResult "success" 2 = mkAddResult "success" (length two_chunks).
Proof.
  assert (H1 : @add_documents _ (limited_platform 9 false) (VStr "docs")
                 two_chunks (VStr "gemini") (system0 9)
               = (inr (mkAddResult "success" 2),
                  @mkSystem (limited_backend 9) 4 two_chunks_calls))
    by (vm_compute; reflexivity).
  known.
  exact (@add_documents_inserts_last _ (limited_platform 9 false)
           (VStr "docs") two_chunks (VStr "gemini") (system0 9) _ _ H1).
Defined.

Lemma add_documents_embedding_requests_witness :
  @add_documents _ (limited_platform 1 false) (VStr "docs") two_chunks
    (VStr "openai") (system0 1)
  = (inl (ExternalError "Unavailable"),
     @mkSystem (limited_backend 1) 2
       [CreateCollection (VStr "docs");
        BackendCall (EvOpenAIEmbeddings "text-embedding-ada-002"
                       ["a"; "b"])]) /\
  exists n,
    n < length two_chunks /\
    @add_documents _ (limited_platform 2 false) (VStr "docs") two_chunks
      (VStr "gemini") (system0 2)
    = (inl (ExternalError "Unavailable"),
       @mkSystem (limited_backend 2) 3
         (CreateCollection (VStr "docs")
          :: ((fun text =>
                 BackendCall
                   (EvGeminiEmbedContent "models/embedding-001" text
                      "retrieval_document"))
              <$> take (S n) (stored_content <$> two_chunks)))).
Proof.
  assert (H1 : @chroma_create_collection _ (limited_platform 1 false)
                 (VStr "docs") 0 = (inr (VStr "docs"), 1))
    by reflexivity.
  assert (H2 : @openai_embeddings_create (limited_backend 1)
                 "text-embedding-ada-002" (stored_content <$> two_chunks) 1
               = (inl (ExternalError "Unavailable"), 2))
    by reflexivity.
  assert (H3 : @chroma_create_collection _ (limited_platform 2 false)
                 (VStr "docs") 0 = (inr (VStr "docs"), 1))
    by reflexivity.
  assert (H4 : eq_str (VStr "gemini") "openai" = false) by reflexivity.
  assert (H5 : @get_gemini_embeddings (limited_backend 2)
                 (stored_content <$> two_chunks)
                 (@mkMachine (limited_backend 2) 1 [])
               = (inl (ExternalError "Unavailable"),
                  @mkMachine (limited_backend 2) 3
                    [EvGeminiEmbedContent "models/embedding-001" "a"
                       "retrieval_document";
                     EvGeminiEmbedContent "models/embedding-001" "b"
                       "retrieval_document"]))
    by (vm_compute; reflexivity).
  split.
  - exact (proj1 (@add_documents_embedding_requests _
                    (limited_platform 1 false) (VStr "docs") two_chunks
                    (VStr "docs") 1 (system0 1) H1) _ _ H2).
  - exact (proj2 (@add_documents_embedding_requests _
                    (limited_platform 2 false) (VStr "docs") two_chunks
                    (VStr "docs") 1 (system0 2) H3) (VStr "gemini") _ _
                 H4 H5).
Defined.

Lemma failed_run_witness :
  @execute_workflow_handler _ (limited_platform 9 false) 5
    (mkExecutionData None (Some example_nodes) (Some example_edges) None
       (Some (VNum (7 # 1)%Q)))
    (system0 9)
  = Some (HTTPException 500 (KeyError "query"), system0 9) /\
  @execute_workflow_handler _ (limited_platform 4 false) 5
    (sample_request (Some (VNum (7 # 1)%Q))) (system0 4)
  = Some (HTTPException 500 (ExternalError "Unavailable"),
          @mkSystem (limited_backend 4) 5
            (BackendCall
             <$> example_retrieval_trace ++ example_search_events)).
Proof.
  assert (H1 : @execute_workflow (limited_backend 4) 5 example_query
                 example_nodes example_edges search_configs
                 (@mkMachine (limited_backend 4) 0 [])
               = (inl (ExternalError "Unavailable"),
                  @mkMachine (limited_backend 4) 5
                    (example_retrieval_trace ++ example_search_events)))
    by (vm_compute; reflexivity).
  split.
  - exact (proj1 (@failed_run_leaves_no_history _ (limited_platform 9 false)
                    5 (mkExecutionData None (Some example_nodes)
                         (Some example_edges) None (Some (VNum (7 # 1)%Q)))
                    (system0 9)) eq_refl).
  - exact (proj2 (@failed_run_leaves_no_history _ (limited_platform 4 false)
                    5 (sample_request (Some (VNum (7 # 1)%Q))) (system0 4))
                 _ _ _ _ _ eq_refl eq_refl eq_refl H1).
Defined.

Lemma successful_run_witness :
  @execute_workflow_handler _ (limited_platform 9 false) 5
    (sample_request (Some (VNum (7 # 1)%Q))) (system0 9)
  = Some (Returned example_search_state,
          @mkSystem (limited_backend 9) 6
            ([] ++ (BackendCall
                    <$> example_retrieval_trace ++ example_search_events)
             ++ sample_history)) /\
  @execute_workflow_handler _ (limited_platform 5 false) 5
    (sample_request (Some (VNum (7 # 1)%Q))) (system0 5)
  = Some (HTTPException 500 (ExternalError "Unavailable"),
          @mkSystem (limited_backend 5) 6
            ([] ++ (BackendCall
                    <$> example_retrieval_trace ++ example_search_events)
             ++ sample_history)).
Proof.
  assert (H1 : truthy (VNum (7 # 1)%Q) = true) by reflexivity.
  assert (H2 : @execute_workflow (limited_backend 9) 5 example_query
                 example_nodes example_edges search_configs
                 (@mkMachine (limited_backend 9) 0 [])
               = (inr example_search_state,
                  @mkMachine (limited_backend 9) 5
                    (example_retrieval_trace ++ example_search_events)))
    by (vm_compute; reflexivity).
  assert (H3 : @db_commit _ (limited_platform 9 false) 5 = (inr tt, 6))
    by reflexivity.
  assert (H4 : @execute_workflow (limited_backend 5) 5 example_query
                 example_nodes example_edges search_configs
                 (@mkMachine (limited_backend 5) 0 [])
               = (inr example_search_state,
                  @mkMachine (limited_backend 5) 5
                    (example_retrieval_trace ++ example_search_events)))
    by (vm_compute; reflexivity).
  assert (H5 : @db_commit _ (limited_platform 5 false) 5
               = (inl (ExternalError "Unavailable"), 6))
    by reflexivity.
  split.
  - exact (@successful_run_is_recorded _ (limited_platform 9 false) 5
             (sample_request (Some (VNum (7 # 1)%Q))) (system0 9)
             _ _ _ _ _ _ _ _ eq_refl eq_refl eq_refl eq_refl H1 H2 H3).
  - exact (@successful_run_is_recorded _ (limited_platform 5 false) 5
             (sample_request (Some (VNum (7 # 1)%Q))) (system0 5)
             _ _ _ _ _ _ _ _ eq_refl eq_refl eq_refl eq_refl H1 H4 H5).
Defined.

Lemma falsy_workflow_id_witness :
  truthy (default VNone (data_workflow_id (sample_request (Some (VNum 0%Q)))))
  = false /\
  @execute_workflow_handler _ (limited_platform 9 false) 5
    (sample_request (Some (VNum 0%Q))) (system0 9)
  = Some (Returned example_search_state,
          @mkSystem (limited_backend 9) 5
            (BackendCall
             <$> example_retrieval_trace ++ example_search_events)).
Proof.
  assert (H1 : truthy (default VNone
                         (data_workflow_id
                            (sample_request (Some (VNum 0%Q)))))
               = false)
    by reflexivity.
  assert (H2 : @execute_workflow (limited_backend 9) 5 example_query
                 example_nodes example_edges search_configs
                 (@mkMachine (limited_backend 9) 0 [])
               = (inr example_search_state,
                  @mkMachine (limited_backend 9) 5
                    (example_retrieval_trace ++ example_search_events)))
    by (vm_compute; reflexivity).
  known.
  exact (@falsy_workflow_id_skips_history _ (limited_platform 9 false) 5
           (sample_request (Some (VNum 0%Q))) (system0 9) _ _ _ _ _
           eq_refl eq_refl eq_refl H1 H2).
Defined.

Lemma upload_commits_witness :
  @upload_document _ (limited_platform 2 false) 5 sample_upload "docs"
    "openai" (system0 2)
  = Some (HTTPException 500 (ExternalError "Unavailable"),
          @mkSystem (limited_backend 2) 3 sample_upload_stored) /\
  @upload_document _ (limited_platform 3 false) 5 sample_upload "docs"
    "openai" (system0 3)
  = Some (HTTPException 500 (ExternalError "Unavailable"),
          @mkSystem (limited_backend 3) 5
            (sample_upload_stored
             ++ [CreateCollection (VStr "docs");
                 BackendCall (EvGetCollection (VStr "docs"))])).
Proof.
  assert (H1 : @upload_read _ (limited_platform 2 false) sample_upload 0
               = (inr sample_upload.2, 1))
    by reflexivity.
  assert (H2 : @pdf_page_texts _ (limited_platform 2 false) sample_upload.2 1
               = (inr sample_upload.2, 2))
    by reflexivity.
  assert (H3 : DocumentProcessor.chunk_count 1000 200
                 (length (concat sample_upload.2)) < 5)
    by (vm_compute; lia).
  assert (H4 : @db_commit _ (limited_platform 2 false) 2
               = (inl (ExternalError "Unavailable"), 3))
    by reflexivity.
  assert (G1 : @upload_read _ (limited_platform 3 false) sample_upload 0
               = (inr sample_upload.2, 1))
    by reflexivity.
  assert (G2 : @pdf_page_texts _ (limited_platform 3 false) sample_upload.2 1
               = (inr sample_upload.2, 2))
    by reflexivity.
  assert (G4 : @db_commit _ (limited_platform 3 false) 2 = (inr tt, 3))
    by reflexivity.
  assert (G5 : DocumentProcessor.chunk_text
                 (fun chunk =>
                    @md5_hexdigest _ (limited_platform 3 false)
                      (@encode _ (limited_platform 3 false) chunk))
                 1000 200 5 (concat sample_upload.2)
               = Some sample_upload_chunks)
    by (vm_compute; reflexivity).
  assert (G6 : @add_documents _ (limited_platform 3 false) (VStr "docs")
                 (@stored_chunk _ (limited_platform 3 false)
                  <$> sample_upload_chunks)
                 (VStr "openai")
                 (@mkSystem (limited_backend 3) 3
                    (calls (system0 3)
                     ++ [ReadUpload; ExtractText;
                         DbAdd (Document
                                  (@upload_filename _
                                     (limited_platform 3 false)
                                     sample_upload)
                                  (@encode _ (limited_platform 3 false)
                                     (concat sample_upload.2))
                                  (DocumentProcessor.chunk_count 1000 200
                                     (length (concat sample_upload.2))));
                         DbCommit]))
               = (inl (ExternalError "Unavailable"),
                  @mkSystem (limited_backend 3) 5
                    (sample_upload_stored
                     ++ [CreateCollection (VStr "docs");
                         BackendCall (EvGetCollection (VStr "docs"))])))
    by (vm_compute; reflexivity).
  split.
  - exact (proj1 (@upload_commits_before_embedding _
                    (limited_platform 2 false) 5 sample_upload "docs"
                    "openai" (system0 2) _ _ _ _ H1 H2 H3) _ _ H4).
  - exact (proj2 (@upload_commits_before_embedding _
                    (limited_platform 3 false) 5 sample_upload "docs"
                    "openai" (system0 3) _ _ _ _ G1 G2 H3) _ _ _ _ G4 G5 G6).
Defined.

Lemma upload_reports_witness :
  @upload_document _ (limited_platform 9 false) 5 sample_upload "docs"
    "openai" (system0 9)
  = Some (Returned sample_upload_result,
          @mkSystem (limited_backend 9) 7
            (sample_upload_stored ++ sample_upload_ingested)) /\
  exists file_bytes w1 pages w2 made,
    @upload_read _ (limited_platform 9 false) sample_upload 0
    = (inr file_bytes, w1) /\
    @pdf_page_texts _ (limited_platform 9 false) file_bytes w1
    = (inr pages, w2) /\
    up_status sample_upload_result = "success" /\
    up_filename sample_upload_result = "notes.pdf" /\
    up_chunks sample_upload_result
    = DocumentProcessor.chunk_count 1000 200 (length (concat pages)) /\
    up_embedding_result sample_upload_result
    = mkAddResult "success" (up_chunks sample_upload_result) /\
    sample_upload_stored ++ sample_upload_ingested
    = [] ++ [ReadUpload; ExtractText;
             DbAdd (Document "notes.pdf" (utf8 (concat pages))
                      (up_chunks sample_upload_result));
             DbCommit] ++ made.
Proof.
  assert (H1 : @upload_document _ (limited_platform 9 false) 5 sample_upload
                 "docs" "openai" (system0 9)
               = Some (Returned sample_upload_result,
                       @mkSystem (limited_backend 9) 7
                         (sample_upload_stored ++ sample_upload_ingested)))
    by (vm_compute; reflexivity).
  known.
  exact (@upload_reports_what_it_stored _ (limited_platform 9 false) 5
           sample_upload "docs" "openai" (system0 9) _ _ H1).
Defined.

(** Chunks are measured in characters: the text of three accented
    characters, six bytes long, is cut into two chunks of size 3 with
    overlap 1, and the sample upload of 43 characters is 44 bytes long. *)
Example chunking_counts_characters :
  length <$> DocumentProcessor.chunk_text
               (fun chunk => "md5:" +:+ utf8 chunk) 3 1 5 accented_text
  = Some 2 /\
  String.length (utf8 accented_text) = 6 /\
  length sample_upload_points = 43 /\
  String.length sample_upload_text = 44.
Proof. repeat split; vm_compute; reflexivity. Qed.

Lemma execute_handler_answers_witness :
  (exists response s',
     @execute_workflow_handler _ (limited_platform 9 false) 4
       (mkExecutionData (Some example_query) (Some cyclic_nodes)
          (Some cyclic_edges) None None)
       (system0 9)
     = Some (response, s') /\
     forall status_code e,
       response = HTTPException status_code e -> status_code = 500) /\
  (forall depth',
     enough_depth cyclic_edges <= 4 ->
     enough_depth cyclic_edges <= depth' ->
     @execute_workflow_handler _ (limited_platform 9 false) depth'
       (mkExecutionData (Some example_query) (Some cyclic_nodes)
          (Some cyclic_edges) None None)
       (system0 9)
     = @execute_workflow_handler _ (limited_platform 9 false) 4
         (mkExecutionData (Some example_query) (Some cyclic_nodes)
            (Some cyclic_edges) None None)
         (system0 9)).
Proof.
  exact (@execute_handler_always_answers _ (limited_platform 9 false) 4
           (mkExecutionData (Some example_query) (Some cyclic_nodes)
              (Some cyclic_edges) None None)
           (system0 9)).
Defined.

Lemma unreadable_upload_witness :
  @upload_document _ (limited_platform 0 false) 5 sample_upload "docs"
    "openai" (system0 0)
  = Some (HTTPException 500 (ExternalError "Unavailable"),
          @mkSystem (limited_backend 0) 1 [ReadUpload]) /\
  @upload_document _ (limited_platform 1 false) 5 sample_upload "docs"
    "openai" (system0 1)
  = Some (HTTPException 500 (ExternalError "Unavailable"),
          @mkSystem (limited_backend 1) 2 [ReadUpload; ExtractText]).
Proof.
  assert (H1 : @upload_read _ (limited_platform 0 false) sample_upload 0
               = (inl (ExternalError "Unavailable"), 1))
    by reflexivity.
  assert (H2 : @upload_read _ (limited_platform 1 false) sample_upload 0
               = (inr sample_upload.2, 1))
    by reflexivity.
  assert (H3 : @pdf_page_texts _ (limited_platform 1 false) sample_upload.2 1
               = (inl (ExternalError "Unavailable"), 2))
    by reflexivity.
  split.
  - exact (proj1 (@unreadable_upload_stores_nothing _
                    (limited_platform 0 false) 5 sample_upload "docs"
                    "openai" (system0 0)) _ _ H1).
  - exact (proj2 (@unreadable_upload_stores_nothing _
                    (limited_platform 1 false) 5 sample_upload "docs"
                    "openai" (system0 1)) _ _ _ _ H2 H3).
Defined.
